(** * Shopify GA4 custom web pixel: the normalisation layer of [index.js]

    A shallow embedding of [src/index.js] and the properties of its item
    formatter, collection formatter, event mapper and dispatcher.

    The pixel is untyped JavaScript over the event objects Shopify hands to
    [analytics.subscribe] callbacks, so the embedding keeps the data
    dynamic: a [value] is what a JSON-like JavaScript value is, property
    reads on [undefined] and [null] raise a [TypeError], and the operators
    the code relies on ([||], [&&], [?.], template literals, [parseFloat],
    [*], [+]) are the ECMAScript abstract operations they stand for.

    Conventions.
    - A JavaScript string is a [string]; a non-ASCII character is its UTF-8
      byte sequence.  [length], [endsWith] and [slice] then count bytes; the
      code only ever slices off a suffix it has just matched, where counting
      bytes or UTF-16 code units removes the same characters.
    - A JavaScript number is a binary64 [float]; arithmetic is the IEEE 754
      arithmetic of [PrimFloat].
    - An object is a finite map from property names to values.  None of the
      property names the pixel reads lives on a built-in prototype, so a
      property read is a lookup of an own property.  Event data carries no
      function, so an own property is never callable: a plain object
      converts to a string as the inherited [Object.prototype.toString]
      makes it, unless a [toString] property of its own hides that method,
      in which case the conversion raises a [TypeError]. *)

From Stdlib Require Import ZArith Ascii String Floats DecimalString.
From stdpp Require Import gmap strings list.

Set Warnings "-register-all,-clear-no-such-hyp".

Open Scope string_scope.
Open Scope Z_scope.

(** ** JavaScript values and completions *)

Module JS.

Inductive value :=
| VUndef
| VNull
| VBool (b : bool)
| VNum (x : float)
| VStr (s : string)
| VArr (l : list value)
| VObj (m : gmap string value).

(** What a [throw] carries: the [TypeError] the runtime raises on a bad
    property read or call, or any value thrown by foreign code. *)
Inductive exn :=
| TypeError (msg : string)
| Thrown (v : value).

(** Induction on values through the elements of arrays. *)
Section ValueInduction.
Variable P : value -> Prop.
Hypothesis Hundef : P VUndef.
Hypothesis Hnull : P VNull.
Hypothesis Hbool : forall b, P (VBool b).
Hypothesis Hnum : forall x, P (VNum x).
Hypothesis Hstr : forall s, P (VStr s).
Hypothesis Harr : forall l, List.Forall P l -> P (VArr l).
Hypothesis Hobj : forall m, P (VObj m).

Fixpoint value_elements_ind (v : value) : P v :=
  match v with
  | VUndef => Hundef
  | VNull => Hnull
  | VBool b => Hbool b
  | VNum x => Hnum x
  | VStr s => Hstr s
  | VArr l =>
      Harr l ((fix elements (l : list value) : List.Forall P l :=
                 match l with
                 | [] => List.Forall_nil P
                 | e :: l' => List.Forall_cons P e l' (value_elements_ind e) (elements l')
                 end) l)
  | VObj m => Hobj m
  end.

End ValueInduction.

(** A completion record: normal, or abrupt with a thrown exception. *)
Inductive completion (A : Type) :=
| Normal (a : A)
| Throw (e : exn).
Arguments Normal {A} a.
Arguments Throw {A} e.

Definition bind {A B} (c : completion A) (k : A -> completion B) : completion B :=
  match c with
  | Normal a => k a
  | Throw e => Throw e
  end.

Notation "'let*' x ':=' c 'in' k" := (bind c (fun x => k))
  (at level 10, x name, c at level 100, k at level 200).

(** [Array.prototype.map] with a callback that may throw: left to right,
    stopping at the first abrupt completion. *)
Fixpoint mapM {A B} (f : A -> completion B) (l : list A) : completion (list B) :=
  match l with
  | [] => Normal []
  | a :: l' => let* b := f a in let* bs := mapM f l' in Normal (b :: bs)
  end.

(** ** Strings *)

Definition code (c : ascii) : N := N_of_ascii c.

(** ECMAScript WhiteSpace and LineTerminator code points, on UTF-8 bytes:
    U+0009..U+000D and U+0020 take one byte, U+00A0 two, and U+1680,
    U+2000..U+200A, U+2028, U+2029, U+202F, U+205F, U+3000 and U+FEFF
    three. *)
Definition ws1 (a : ascii) : bool :=
  let n := code a in ((9 <=? n) && (n <=? 13) || (n =? 32))%N.

Definition ws2 (a b : ascii) : bool :=
  ((code a =? 194) && (code b =? 160))%N.

Definition ws3 (a b c : ascii) : bool :=
  let '(x, y, z) := (code a, code b, code c) in
  ((x =? 225) && (y =? 154) && (z =? 128)
   || (x =? 226) && (y =? 128)
      && ((128 <=? z) && (z <=? 138) || (z =? 168) || (z =? 169) || (z =? 175))
   || (x =? 226) && (y =? 129) && (z =? 159)
   || (x =? 227) && (y =? 128) && (z =? 128)
   || (x =? 239) && (y =? 187) && (z =? 191))%N.

Fixpoint trimStart (s : string) : string :=
  match s with
  | String a r1 =>
      if ws1 a then trimStart r1 else
      match r1 with
      | String b r2 =>
          if ws2 a b then trimStart r2 else
          match r2 with
          | String c r3 => if ws3 a b c then trimStart r3 else s
          | EmptyString => s
          end
      | EmptyString => s
      end
  | EmptyString => EmptyString
  end.

(** The same scan from the end, on the reversed string (so the bytes of a
    character arrive last first). *)
Fixpoint trimStart_rev (s : string) : string :=
  match s with
  | String c r1 =>
      if ws1 c then trimStart_rev r1 else
      match r1 with
      | String b r2 =>
          if ws2 b c then trimStart_rev r2 else
          match r2 with
          | String a r3 => if ws3 a b c then trimStart_rev r3 else s
          | EmptyString => s
          end
      | EmptyString => s
      end
  | EmptyString => EmptyString
  end.

Definition trimEnd (s : string) : string :=
  String.rev (trimStart_rev (String.rev s)).

(** [String.prototype.trim]. *)
Definition trim (s : string) : string := trimEnd (trimStart s).

(** [String.prototype.endsWith] with one argument. *)
Definition endsWith (s suffix : string) : bool :=
  let n := String.length s in
  let k := String.length suffix in
  (k <=? n)%nat && String.eqb (substring (n - k)%nat k s) suffix.

(** [String.prototype.slice(start, end)] on integral arguments: a negative
    index counts from the end, and both are clamped to the string. *)
Definition slice (s : string) (start end_ : Z) : string :=
  let len := Z.of_nat (String.length s) in
  let from := if start <? 0 then Z.max (len + start) 0 else Z.min start len in
  let to := if end_ <? 0 then Z.max (len + end_) 0 else Z.min end_ len in
  substring (Z.to_nat from) (Z.to_nat (Z.max (to - from) 0)) s.

(** [Array.prototype.join]. *)
Fixpoint join (sep : string) (l : list string) : string :=
  match l with
  | [] => ""
  | [s] => s
  | s :: l' => s ++ sep ++ join sep l'
  end.

(** ** Numbers *)

Definition is_digit (a : ascii) : bool :=
  ((48 <=? code a) && (code a <=? 57))%N.

Definition digit_val (a : ascii) : Z := Z.of_N (code a) - 48.

(** DecimalDigits: the longest run of digits at the front of [s], folded
    into [acc]; the result is the value, the number of digits read and the
    rest of the string. *)
Fixpoint read_digits (acc cnt : Z) (s : string) : Z * Z * string :=
  match s with
  | String a r =>
      if is_digit a then read_digits (10 * acc + digit_val a) (cnt + 1) r
      else (acc, cnt, s)
  | EmptyString => (acc, cnt, s)
  end.

(** The Number value for [m * 10^e10]: the mathematical value rounded to
    the nearest binary64, ties to even.  For a negative exponent the
    quotient is computed with 65 bits or more and the position of the
    remainder, which is what the final rounding needs. *)
Definition decimal_to_SF (neg : bool) (m : positive) (e10 : Z) : spec_float :=
  if 0 <=? e10 then
    match Z.pos m * 10 ^ e10 with
    | Z.pos p => binary_round prec emax neg p 0
    | _ => S754_zero neg
    end
  else
    let d := 10 ^ (- e10) in
    let t := Z.max 0 (Zdigits2 d + 66 - Zdigits2 (Z.pos m)) in
    let '(q, r) := Z.div_eucl (Z.shiftl (Z.pos m) t) d in
    binary_round_aux prec emax neg q (- t) (new_location d r).

Definition decimal_to_float (neg : bool) (m e10 : Z) : float :=
  match m with
  | Z.pos p => SF2Prim (decimal_to_SF neg p e10)
  | _ => if neg then neg_zero else zero
  end.

Definition strip_prefix (p s : string) : option string :=
  if String.prefix p s
  then Some (substring (String.length p) (String.length s - String.length p) s)
  else None.

Definition read_sign (s : string) : bool * string :=
  match s with
  | String "+" r => (false, r)
  | String "-" r => (true, r)
  | _ => (false, s)
  end.

(** ExponentPart, when one is complete at the front of [s]. *)
Definition read_exponent (s : string) : Z * string :=
  match s with
  | String c r =>
      if (Ascii.eqb c "e" || Ascii.eqb c "E")%char then
        let '(eneg, r1) := read_sign r in
        let '(ev, ne, r2) := read_digits 0 0 r1 in
        if ne =? 0 then (0, s) else (if eneg then - ev else ev, r2)
      else (0, s)
  | EmptyString => (0, s)
  end.

(** The longest prefix of [s] that is a StrDecimalLiteral, as its Number
    value and the rest of the string. *)
Definition scan_StrDecimalLiteral (s : string) : option (float * string) :=
  let '(neg, s1) := read_sign s in
  match strip_prefix "Infinity" s1 with
  | Some r => Some (if neg then neg_infinity else infinity, r)
  | None =>
      let '(ip, ni, s2) := read_digits 0 0 s1 in
      let '(m, nf, s3) :=
        match s2 with
        | String "." r => read_digits ip 0 r
        | _ => (ip, 0, s2)
        end in
      if (ni =? 0) && (nf =? 0) then None
      else
        let '(ex, s4) := read_exponent s3 in
        Some (decimal_to_float neg m (ex - nf), s4)
  end.

Definition radix_digit (radix : Z) (a : ascii) : option Z :=
  let n := Z.of_N (code a) in
  let d := if (48 <=? n) && (n <=? 57) then n - 48
           else if (97 <=? n) && (n <=? 102) then n - 87
           else if (65 <=? n) && (n <=? 70) then n - 55
           else radix in
  if d <? radix then Some d else None.

Fixpoint read_radix (radix acc : Z) (s : string) : option Z :=
  match s with
  | String a r =>
      match radix_digit radix a with
      | Some d => read_radix radix (radix * acc + d) r
      | None => None
      end
  | EmptyString => Some acc
  end.

Definition NonDecimalIntegerLiteral (radix : Z) (digits : string) : float :=
  match digits with
  | EmptyString => nan
  | _ => match read_radix radix 0 digits with
         | Some n => decimal_to_float false n 0
         | None => nan
         end
  end.

(** StringToNumber: the whole trimmed string must be a numeric literal;
    the empty string is [+0]. *)
Definition StringToNumber (s : string) : float :=
  let t := trim s in
  let decimal :=
    match scan_StrDecimalLiteral t with
    | Some (x, EmptyString) => x
    | _ => nan
    end in
  match t with
  | EmptyString => zero
  | String "0" (String c r) =>
      if (Ascii.eqb c "x" || Ascii.eqb c "X")%char then NonDecimalIntegerLiteral 16 r
      else if (Ascii.eqb c "o" || Ascii.eqb c "O")%char then NonDecimalIntegerLiteral 8 r
      else if (Ascii.eqb c "b" || Ascii.eqb c "B")%char then NonDecimalIntegerLiteral 2 r
      else decimal
  | _ => decimal
  end.

Definition Z_to_string (n : Z) : string :=
  NilZero.string_of_uint (N.to_uint (Z.to_N n)).

Fixpoint zeros (n : nat) : string :=
  match n with O => "" | S n' => String "0" (zeros n') end.

Fixpoint strip_zeros_rev (s : string) : string :=
  match s with
  | String "0" r => strip_zeros_rev r
  | _ => s
  end.

Definition strip_trailing_zeros (s : string) : string :=
  String.rev (strip_zeros_rev (String.rev s)).

(** [num / den < 10^n] *)
Definition lt_pow10 (num den n : Z) : bool :=
  if 0 <=? n then num <? den * 10 ^ n else num * 10 ^ (- n) <? den.

Fixpoint find_n (fuel : nat) (num den n : Z) : Z :=
  match fuel with
  | O => n
  | S f => if lt_pow10 num den n then n else find_n f num den (n + 1)
  end.

(** Step 5 of Number::toString: the fewest digits [k] and the integer [s]
    of [k] digits such that [s * 10^(n-k)] reads back as [x]; among two
    such [s], the one nearest to [x].  Seventeen digits always suffice. *)
Fixpoint shortest (fuel : nat) (x : float) (num den n k : Z) : Z * Z :=
  let '(a, b) := if 0 <=? n - k then (num, den * 10 ^ (n - k))
                 else (num * 10 ^ (k - n), den) in
  let '(lo, r) := Z.div_eucl a b in
  let hi := lo + 1 in
  let ok_lo := PrimFloat.eqb (decimal_to_float false lo (n - k)) x in
  let ok_hi := PrimFloat.eqb (decimal_to_float false hi (n - k)) x in
  let near_lo := match 2 * r ?= b with Lt => true | Eq => Z.even lo | Gt => false end in
  match fuel with
  | O => (lo, k)
  | S f =>
      if ok_lo && (near_lo || negb ok_hi) then (lo, k)
      else if ok_hi then (hi, k)
      else shortest f x num den n (k + 1)
  end.

(** Number::toString(x, 10) for a finite [x = m * 2^e > 0]. *)
Definition positive_toString (x : float) (m : positive) (e : Z) : string :=
  let '(num, den) := if 0 <=? e then (Z.pos m * 2 ^ e, 1) else (Z.pos m, 2 ^ (- e)) in
  let n0 := find_n 700 num den (-330) in
  let '(s, k0) := shortest 20 x num den n0 1 in
  let all := Z_to_string s in
  let n := n0 + (Z.of_nat (String.length all) - k0) in
  let digits := strip_trailing_zeros all in
  let k := Z.of_nat (String.length digits) in
  if (k <=? n) && (n <=? 21) then digits ++ zeros (Z.to_nat (n - k))
  else if (0 <? n) && (n <=? 21) then
    substring 0 (Z.to_nat n) digits ++ "." ++ substring (Z.to_nat n) (Z.to_nat (k - n)) digits
  else if (-6 <? n) && (n <=? 0) then "0." ++ zeros (Z.to_nat (- n)) ++ digits
  else
    let ex := (if n - 1 <? 0 then "-" else "+") ++ Z_to_string (Z.abs (n - 1)) in
    if k =? 1 then digits ++ "e" ++ ex
    else substring 0 1 digits ++ "." ++ substring 1 (Z.to_nat (k - 1)) digits ++ "e" ++ ex.

Definition Number_toString (x : float) : string :=
  match Prim2SF x with
  | S754_nan => "NaN"
  | S754_zero _ => "0"
  | S754_infinity sg => if sg then "-Infinity" else "Infinity"
  | S754_finite sg m e => (if sg then "-" else "") ++ positive_toString (abs x) m e
  end.

(** ** Conversions *)

Definition ToBoolean (v : value) : bool :=
  match v with
  | VUndef | VNull => false
  | VBool b => b
  | VNum x => negb (is_zero x || is_nan x)
  | VStr s => negb (String.eqb s "")
  | VArr _ | VObj _ => true
  end.

(** The [TypeError] of OrdinaryToPrimitive when neither [toString] nor
    [valueOf] yields a primitive. *)
Definition not_primitive : exn :=
  TypeError "Cannot convert object to primitive value".

(** ToString.  A plain object converts through the [toString] it inherits,
    to ["[object Object]"], unless it has a [toString] property of its own:
    that property is data, not callable, so OrdinaryToPrimitive skips it,
    [valueOf] (own and not callable, or inherited and returning the object
    itself) yields no primitive, and the conversion throws.  An array
    converts through [Array.prototype.join]: the strings of its elements,
    left to right, the empty string for [undefined] and [null], separated
    by commas. *)
Fixpoint ToString (v : value) : completion string :=
  match v with
  | VUndef => Normal "undefined"
  | VNull => Normal "null"
  | VBool b => Normal (if b then "true" else "false")
  | VNum x => Normal (Number_toString x)
  | VStr s => Normal s
  | VArr l =>
      let* parts :=
        (fix elements (l : list value) : completion (list string) :=
           match l with
           | [] => Normal []
           | e :: l' =>
               let* s := match e with
                         | VUndef | VNull => Normal ""
                         | _ => ToString e
                         end in
               let* parts := elements l' in
               Normal (s :: parts)
           end) l in
      Normal (join "," parts)
  | VObj m =>
      match m !! "toString" with
      | None => Normal "[object Object]"
      | Some _ => Throw not_primitive
      end
  end.

(** ToPrimitive without a preferred type, and with the hint Number: an
    array or a plain object has no primitive [valueOf], so it becomes its
    string. *)
Definition ToPrimitive (v : value) : completion value :=
  match v with
  | VArr _ | VObj _ => let* s := ToString v in Normal (VStr s)
  | _ => Normal v
  end.

Definition ToNumber (v : value) : completion float :=
  match v with
  | VUndef => Normal nan
  | VNull => Normal zero
  | VBool b => Normal (if b then one else zero)
  | VNum x => Normal x
  | VStr s => Normal (StringToNumber s)
  | VArr _ | VObj _ => let* s := ToString v in Normal (StringToNumber s)
  end.

(** The global [parseFloat]: the argument is converted to a string; the
    result is the longest StrDecimalLiteral prefix of that string, leading
    white space skipped, and NaN when there is none. *)
Definition parseFloat (v : value) : completion float :=
  let* s := ToString v in
  Normal (match scan_StrDecimalLiteral (trimStart s) with
          | Some (x, _) => x
          | None => nan
          end).

(** ** Operators and property access *)

Definition nullish (v : value) : bool :=
  match v with VUndef | VNull => true | _ => false end.

Definition isArray (v : value) : bool :=
  match v with VArr _ => true | _ => false end.

Definition float_of_nat (n : nat) : float :=
  decimal_to_float false (Z.of_nat n) 0.

(** The [TypeError] of a property read on [undefined] or [null]. *)
Definition cannot_read (v : value) (k : string) : exn :=
  TypeError ("Cannot read properties of "
             ++ match v with VNull => "null" | _ => "undefined" end
             ++ " (reading '" ++ k ++ "')").

(** [v.k]: a [TypeError] on [undefined] and [null], the own property
    otherwise ([undefined] when there is none). *)
Definition Get (v : value) (k : string) : completion value :=
  match v with
  | VUndef | VNull => Throw (cannot_read v k)
  | VObj m => Normal (default VUndef (m !! k))
  | VArr l =>
      Normal (if String.eqb k "length" then VNum (float_of_nat (length l)) else VUndef)
  | VStr s =>
      Normal (if String.eqb k "length" then VNum (float_of_nat (String.length s))
              else VUndef)
  | VBool _ | VNum _ => Normal VUndef
  end.

(** [v[i]] for a literal index [i]. *)
Definition GetIndex (v : value) (i : nat) : completion value :=
  match v with
  | VUndef | VNull => Throw (cannot_read v (Z_to_string (Z.of_nat i)))
  | VArr l => Normal (default VUndef (l !! i))
  | VObj m => Normal (default VUndef (m !! Z_to_string (Z.of_nat i)))
  | VStr s =>
      Normal (match String.get i s with
              | Some c => VStr (String c "")
              | None => VUndef
              end)
  | VBool _ | VNum _ => Normal VUndef
  end.

(** [v?.rest]: when [v] is [undefined] or [null] the rest of the chain is
    not evaluated and the whole chain is [undefined]. *)
Definition optional (v : value) (rest : value -> completion value) : completion value :=
  if nullish v then Normal VUndef else rest v.

(** [a || b] on values already evaluated. *)
Definition or_else (a b : value) : value := if ToBoolean a then a else b.

(** [a * b]: both operands are converted to numbers, the left one first. *)
Definition js_mul (a b : value) : completion value :=
  let* x := ToNumber a in
  let* y := ToNumber b in
  Normal (VNum (x * y)%float).

(** [a + b]: both operands are made primitive, the left one first; it is a
    concatenation as soon as one of the primitives is a string, and an
    addition of numbers otherwise. *)
Definition js_add (a b : value) : completion value :=
  let* pa := ToPrimitive a in
  let* pb := ToPrimitive b in
  match pa, pb with
  | VStr _, _ | _, VStr _ =>
      let* sa := ToString pa in
      let* sb := ToString pb in
      Normal (VStr (sa ++ sb))
  | _, _ =>
      let* x := ToNumber pa in
      let* y := ToNumber pb in
      Normal (VNum (x + y)%float)
  end.

(** [v.toString()]: the built-in [toString] of each kind of value.  On a
    plain object with a [toString] property of its own, that property is
    what is called, and it is not a function. *)
Definition toString_method (v : value) : completion value :=
  match v with
  | VUndef | VNull => Throw (cannot_read v "toString")
  | VObj m =>
      match m !! "toString" with
      | None => Normal (VStr "[object Object]")
      | Some _ => Throw (TypeError "toString is not a function")
      end
  | _ => let* s := ToString v in Normal (VStr s)
  end.

(** [Array.prototype.reduce] with an initial value. *)
Fixpoint reduce (f : value -> value -> completion value) (l : list value)
    (acc : value) : completion value :=
  match l with
  | [] => Normal acc
  | x :: l' => let* acc' := f acc x in reduce f l' acc'
  end.

End JS.

(** ** The pixel *)

Module Pixel.
Import JS.

Record config := {
  GOOGLE_TAG_ID : string;
  CURRENCY : string;
  DEBUG_MODE : bool;
  FALLBACK_BRAND : string
}.

Definition CONFIG : config := {|
  GOOGLE_TAG_ID := "GT-******";
  CURRENCY := "EUR";
  DEBUG_MODE := false;
  FALLBACK_BRAND := "Brand Name"
|}.

(** [cleanProductName(productTitle, variantTitle)]; in [' - ' + variantTitle]
    the left operand is a string, so the right one is converted to a string
    and appended. *)
Definition cleanProductName (productTitle variantTitle : value) : completion value :=
  if negb (ToBoolean variantTitle) || negb (ToBoolean productTitle)
  then Normal productTitle
  else
    let* appended := ToString variantTitle in
    let suffix := " - " ++ appended in
    match productTitle with
    | VStr title =>
        if endsWith title suffix
        then Normal (VStr (slice title 0 (- Z.of_nat (String.length suffix))))
        else Normal productTitle
    | _ => Throw (TypeError "productTitle.endsWith is not a function")
    end.

(** [createItemId(product, variant)]; a template literal converts each
    substitution to a string as soon as it is evaluated. *)
Definition createItemId (product variant : value) : completion value :=
  let* sku := Get variant "sku" in
  let* use_sku :=
    if ToBoolean sku then
      match sku with
      | VStr s => Normal (negb (String.eqb (trim s) ""))
      | _ => Throw (TypeError "variant.sku.trim is not a function")
      end
    else Normal false in
  if use_sku then
    let* sku := Get variant "sku" in
    let* sku := ToString sku in
    Normal (VStr ("SKU_" ++ sku))
  else
    let* pid := Get product "id" in
    let* pid := ToString pid in
    let* vid := Get variant "id" in
    let* vid := ToString vid in
    Normal (VStr ("shopify_DE_" ++ pid ++ "_" ++ vid)).

(** [product.collections?.[i]?.title] *)
Definition collection_title_opt (product : value) (i : nat) : completion value :=
  let* cs := Get product "collections" in
  optional cs (fun cs =>
    let* c := GetIndex cs i in
    optional c (fun c => Get c "title")).

(** [product.collections[i].title] *)
Definition collection_title (product : value) (i : nat) : completion value :=
  let* cs := Get product "collections" in
  let* c := GetIndex cs i in
  Get c "title".

(** [if (product.collections?.[i]?.title) item[key] = product.collections[i].title] *)
Definition add_category (product : value) (i : nat) (key : string)
    (item : gmap string value) : completion (gmap string value) :=
  let* t := collection_title_opt product i in
  if ToBoolean t then
    let* t := collection_title product i in
    Normal (<[key := t]> item)
  else Normal item.

(** The [if (lineItem?.discountAllocations?.[0]) { ... }] block. *)
Definition add_discount (lineItem : value) (item : gmap string value)
    : completion (gmap string value) :=
  let* first :=
    optional lineItem (fun li =>
      let* das := Get li "discountAllocations" in
      optional das (fun das => GetIndex das 0)) in
  if ToBoolean first then
    let* das := Get lineItem "discountAllocations" in
    let* discountAllocation := GetIndex das 0 in
    let* amount :=
      (let* a := Get discountAllocation "amount" in
       optional a (fun a => Get a "amount")) in
    let* item :=
      if ToBoolean amount then
        let* a := Get discountAllocation "amount" in
        let* amount := Get a "amount" in
        let* discount := parseFloat amount in
        Normal (<["discount" := VNum discount]> item)
      else Normal item in
    let* title :=
      (let* d := Get discountAllocation "discountApplication" in
       optional d (fun d => Get d "title")) in
    if ToBoolean title then
      let* d := Get discountAllocation "discountApplication" in
      let* title := Get d "title" in
      Normal (<["coupon" := title]> item)
    else Normal item
  else Normal item.

(** [formatItem(variant, quantity = 1, lineItem = null)]; an argument the
    caller leaves out is [VUndef], which is when a default applies. *)
Definition formatItem (variant quantity lineItem : value) : completion value :=
  let quantity := match quantity with VUndef => VNum 1 | _ => quantity end in
  let lineItem := match lineItem with VUndef => VNull | _ => lineItem end in
  let* vp := Get variant "product" in
  let product := or_else vp variant in
  let* item_id := createItemId product variant in
  let* ptitle := Get product "title" in
  let* vtitle := Get variant "title" in
  let* item_name := cleanProductName ptitle vtitle in
  let* item_variant := Get variant "title" in
  let* vendor := Get product "vendor" in
  let* type := Get product "type" in
  let* price := Get variant "price" in
  let* amount := Get price "amount" in
  let* price := parseFloat amount in
  let item : gmap string value :=
    <["item_id" := item_id]>
    (<["item_name" := item_name]>
    (<["item_variant" := item_variant]>
    (<["item_brand" := or_else vendor (VStr (FALLBACK_BRAND CONFIG))]>
    (<["item_category" := or_else type (VStr "")]>
    (<["price" := VNum price]>
    (<["quantity" := quantity]> ∅)))))) in
  let* item := add_category product 0 "item_category2" item in
  let* item := add_category product 1 "item_category3" item in
  let* item := add_category product 2 "item_category4" item in
  let* item := add_category product 3 "item_category5" item in
  let* item := add_discount lineItem item in
  Normal (VObj item).

(** [formatItems(lineItems)] *)
Definition formatItems (lineItems : value) : completion value :=
  if negb (ToBoolean lineItems) || negb (isArray lineItems) then Normal (VArr [])
  else
    match lineItems with
    | VArr l =>
        let* items :=
          mapM (fun lineItem =>
                  let* m := Get lineItem "merchandise" in
                  let* variant :=
                    if ToBoolean m then Normal m else Get lineItem "variant" in
                  let* quantity := Get lineItem "quantity" in
                  formatItem variant quantity lineItem) l in
        Normal (VArr items)
    | _ => Normal (VArr [])
    end.

(** *** The dispatcher and the listeners

    What the pixel can observe and change outside itself: the global
    [window.gtag], the sink behind it, and the console.  The sink is foreign
    code: a function of its own private state and the call's arguments that
    returns or throws.  [gtag_calls] is the trace of the calls made to
    [window.gtag], in order. *)

Section Dispatch.
Context {St : Type}.

Definition sink : Type := St -> list value -> St * completion value.

Inductive global :=
| GFunction (f : sink)
| GData (v : value).

Inductive console_entry :=
| ConsoleLog (args : list value)
| ConsoleError (label : string) (error : exn).

Record world := {
  window_gtag : global;
  sink_state : St;
  gtag_calls : list (list value);
  console : list console_entry
}.

(** A statement: it may change the world, and completes normally or
    throws. *)
Definition M (A : Type) : Type := world -> world * completion A.

Definition retM {A} (a : A) : M A := fun w => (w, Normal a).

Definition bindM {A B} (m : M A) (k : A -> M B) : M B :=
  fun w => match m w with
           | (w1, Normal a) => k a w1
           | (w1, Throw e) => (w1, Throw e)
           end.

(** An expression without side effects, evaluated where the statement is. *)
Definition liftM {A} (c : completion A) : M A := fun w => (w, c).

(** [try { body } catch (error) { handler }] *)
Definition try_catch {A} (body : M A) (handler : exn -> M A) : M A :=
  fun w => match body w with
           | (w1, Normal a) => (w1, Normal a)
           | (w1, Throw e) => handler e w1
           end.

Definition typeof_gtag_is_function : M bool :=
  fun w => (w, Normal (match window_gtag w with
                       | GFunction _ => true
                       | GData _ => false
                       end)).

(** [window.gtag(...args)] *)
Definition call_gtag (args : list value) : M value :=
  fun w => match window_gtag w with
           | GFunction f =>
               let '(s, c) := f (sink_state w) args in
               ({| window_gtag := window_gtag w;
                   sink_state := s;
                   gtag_calls := gtag_calls w ++ [args];
                   console := console w |}, c)
           | GData _ => (w, Throw (TypeError "window.gtag is not a function"))
           end.

Definition console_write (entry : console_entry) : M unit :=
  fun w => ({| window_gtag := window_gtag w;
               sink_state := sink_state w;
               gtag_calls := gtag_calls w;
               console := console w ++ [entry] |}, Normal tt).

End Dispatch.

Arguments world St : clear implicits.
Arguments M St A : clear implicits.
Arguments sink St : clear implicits.
Arguments global St : clear implicits.

Notation "'run' x ':=' m 'in' k" := (bindM m (fun x => k))
  (at level 10, x name, m at level 100, k at level 200).

Section Listeners.
Context {St : Type}.

(** [sendEvent(eventName, params)] *)
Definition sendEvent (eventName params : value) : M St unit :=
  try_catch
    (run is_function := typeof_gtag_is_function in
     run _ := (if is_function : bool
               then call_gtag [VStr "event"; eventName; params]
               else retM VUndef) in
     if DEBUG_MODE CONFIG
     then run name := liftM (ToString eventName) in
          console_write (ConsoleLog [VStr ("[Web Pixel] " ++ name); params])
     else retM tt)
    (fun error =>
       run name := liftM (ToString eventName) in
       console_write (ConsoleError ("[Web Pixel] " ++ name) error)).

(** [(sum, item) => sum + (item.price * item.quantity)] *)
Definition add_line_total (sum item : value) : completion value :=
  let* price := Get item "price" in
  let* quantity := Get item "quantity" in
  let* total := js_mul price quantity in
  js_add sum total.

(** The [cart_viewed] listener. *)
Definition cart_viewed (event : value) : M St unit :=
  run cart := liftM (let* data := Get event "data" in Get data "cart") in
  run stop := liftM (if negb (ToBoolean cart) then Normal true
                     else let* lines := Get cart "lines" in
                          Normal (negb (ToBoolean lines))) in
  if stop : bool then retM tt
  else
    run items := liftM (let* lines := Get cart "lines" in formatItems lines) in
    run value := liftM (match items with
                        | VArr l => reduce add_line_total l (VNum 0)
                        | _ => Throw (TypeError "items.reduce is not a function")
                        end) in
    sendEvent (VStr "view_cart")
      (VObj (<["currency" := VStr (CURRENCY CONFIG)]>
            (<["value" := value]>
            (<["items" := items]> ∅)))).

(** [checkout.totalTax?.amount] *)
Definition totalTax_amount (checkout : value) : completion value :=
  let* t := Get checkout "totalTax" in
  optional t (fun t => Get t "amount").

(** [checkout.shippingLine?.price.amount] *)
Definition shippingLine_price_amount (checkout : value) : completion value :=
  let* sl := Get checkout "shippingLine" in
  optional sl (fun sl => let* p := Get sl "price" in Get p "amount").

(** [checkout.discountApplications?.[0]?.title] *)
Definition first_discount_title (checkout : value) : completion value :=
  let* das := Get checkout "discountApplications" in
  optional das (fun das =>
    let* d := GetIndex das 0 in
    optional d (fun d => Get d "title")).

(** The [checkout_completed] listener. *)
Definition checkout_completed (event : value) : M St unit :=
  run checkout := liftM (let* data := Get event "data" in Get data "checkout") in
  run order := liftM (Get checkout "order") in
  run items := liftM (let* lineItems := Get checkout "lineItems" in
                      formatItems lineItems) in
  run transaction_id := liftM (let* id := Get order "id" in toString_method id) in
  run currencyCode := liftM (Get checkout "currencyCode") in
  run totalPrice := liftM (let* p := Get checkout "totalPrice" in
                           let* amount := Get p "amount" in
                           parseFloat amount) in
  run tax := liftM (let* amount := totalTax_amount checkout in
                    parseFloat (or_else amount (VNum 0))) in
  run shipping := liftM (let* amount := shippingLine_price_amount checkout in
                         parseFloat (or_else amount (VNum 0))) in
  let eventData : gmap string value :=
    <["transaction_id" := transaction_id]>
    (<["currency" := or_else currencyCode (VStr (CURRENCY CONFIG))]>
    (<["value" := VNum totalPrice]>
    (<["tax" := VNum tax]>
    (<["shipping" := VNum shipping]>
    (<["items" := items]> ∅))))) in
  run coupon := liftM (first_discount_title checkout) in
  let eventData := if ToBoolean coupon then <["coupon" := coupon]> eventData
                   else eventData in
  sendEvent (VStr "purchase") (VObj eventData).

End Listeners.

End Pixel.

(** ** The rest of the script: the other listeners and the tag loader *)

Module Events.
Import JS Pixel.

Section OtherListeners.
Context {St : Type}.

(** The [page_viewed] listener. *)
Definition page_viewed (event : value) : M St unit :=
  run page_title := liftM (let* context := Get event "context" in
                           let* document := Get context "document" in
                           Get document "title") in
  run page_location := liftM (let* context := Get event "context" in
                              let* document := Get context "document" in
                              let* location := Get document "location" in
                              Get location "href") in
  sendEvent (VStr "page_view")
    (VObj (<["page_title" := page_title]>
          (<["page_location" := page_location]> ∅))).

(** The [product_viewed] listener. *)
Definition product_viewed (event : value) : M St unit :=
  run item := liftM (let* data := Get event "data" in
                     let* productVariant := Get data "productVariant" in
                     formatItem productVariant VUndef VUndef) in
  run price := liftM (Get item "price") in
  sendEvent (VStr "view_item")
    (VObj (<["currency" := VStr (CURRENCY CONFIG)]>
          (<["value" := price]>
          (<["items" := VArr [item]]> ∅)))).

(** The [product_added_to_cart] listener. *)
Definition product_added_to_cart (event : value) : M St unit :=
  run cartLine := liftM (let* data := Get event "data" in Get data "cartLine") in
  run item := liftM (let* merchandise := Get cartLine "merchandise" in
                     let* quantity := Get cartLine "quantity" in
                     formatItem merchandise quantity VUndef) in
  run totalAmount := liftM (let* cost := Get cartLine "cost" in
                            let* totalAmount := Get cost "totalAmount" in
                            let* amount := Get totalAmount "amount" in
                            parseFloat amount) in
  sendEvent (VStr "add_to_cart")
    (VObj (<["currency" := VStr (CURRENCY CONFIG)]>
          (<["value" := VNum totalAmount]>
          (<["items" := VArr [item]]> ∅)))).

(** The [product_removed_from_cart] listener. *)
Definition product_removed_from_cart (event : value) : M St unit :=
  run cartLine := liftM (let* data := Get event "data" in Get data "cartLine") in
  run item := liftM (let* merchandise := Get cartLine "merchandise" in
                     let* quantity := Get cartLine "quantity" in
                     formatItem merchandise quantity VUndef) in
  run totalAmount := liftM (let* cost := Get cartLine "cost" in
                            let* totalAmount := Get cost "totalAmount" in
                            let* amount := Get totalAmount "amount" in
                            parseFloat amount) in
  sendEvent (VStr "remove_from_cart")
    (VObj (<["currency" := VStr (CURRENCY CONFIG)]>
          (<["value" := VNum totalAmount]>
          (<["items" := VArr [item]]> ∅)))).

(** The [checkout_started] listener. *)
Definition checkout_started (event : value) : M St unit :=
  run checkout := liftM (let* data := Get event "data" in Get data "checkout") in
  run items := liftM (let* lineItems := Get checkout "lineItems" in
                      formatItems lineItems) in
  run currencyCode := liftM (Get checkout "currencyCode") in
  run totalPrice := liftM (let* p := Get checkout "totalPrice" in
                           let* amount := Get p "amount" in
                           parseFloat amount) in
  let eventData : gmap string value :=
    <["currency" := or_else currencyCode (VStr (CURRENCY CONFIG))]>
    (<["value" := VNum totalPrice]>
    (<["items" := items]> ∅)) in
  run coupon := liftM (first_discount_title checkout) in
  let eventData := if ToBoolean coupon then <["coupon" := coupon]> eventData
                   else eventData in
  sendEvent (VStr "begin_checkout") (VObj eventData).

(** [checkout.delivery?.selectedDeliveryOptions?.[0]?.title] *)
Definition selected_delivery_title (checkout : value) : completion value :=
  let* delivery := Get checkout "delivery" in
  optional delivery (fun delivery =>
    let* options := Get delivery "selectedDeliveryOptions" in
    optional options (fun options =>
      let* first := GetIndex options 0 in
      optional first (fun first => Get first "title"))).

(** [checkout.shippingLine?.title] *)
Definition shippingLine_title (checkout : value) : completion value :=
  let* shippingLine := Get checkout "shippingLine" in
  optional shippingLine (fun shippingLine => Get shippingLine "title").

(** The [checkout_shipping_info_submitted] listener; of [a || b || ''] the
    operand [b] is evaluated only when [a] is falsy. *)
Definition checkout_shipping_info_submitted (event : value) : M St unit :=
  run checkout := liftM (let* data := Get event "data" in Get data "checkout") in
  run items := liftM (let* lineItems := Get checkout "lineItems" in
                      formatItems lineItems) in
  run currencyCode := liftM (Get checkout "currencyCode") in
  run totalPrice := liftM (let* p := Get checkout "totalPrice" in
                           let* amount := Get p "amount" in
                           parseFloat amount) in
  run shipping_tier := liftM (let* selected := selected_delivery_title checkout in
                              if ToBoolean selected then Normal selected
                              else
                                let* title := shippingLine_title checkout in
                                Normal (or_else title (VStr ""))) in
  let eventData : gmap string value :=
    <["currency" := or_else currencyCode (VStr (CURRENCY CONFIG))]>
    (<["value" := VNum totalPrice]>
    (<["shipping_tier" := shipping_tier]>
    (<["items" := items]> ∅))) in
  run coupon := liftM (first_discount_title checkout) in
  let eventData := if ToBoolean coupon then <["coupon" := coupon]> eventData
                   else eventData in
  sendEvent (VStr "add_shipping_info") (VObj eventData).

(** [checkout.transactions?.[0]?.gateway] *)
Definition first_transaction_gateway (checkout : value) : completion value :=
  let* transactions := Get checkout "transactions" in
  optional transactions (fun transactions =>
    let* first := GetIndex transactions 0 in
    optional first (fun first => Get first "gateway")).

(** The [payment_info_submitted] listener. *)
Definition payment_info_submitted (event : value) : M St unit :=
  run checkout := liftM (let* data := Get event "data" in Get data "checkout") in
  run items := liftM (let* lineItems := Get checkout "lineItems" in
                      formatItems lineItems) in
  run currencyCode := liftM (Get checkout "currencyCode") in
  run totalPrice := liftM (let* p := Get checkout "totalPrice" in
                           let* amount := Get p "amount" in
                           parseFloat amount) in
  let eventData : gmap string value :=
    <["currency" := or_else currencyCode (VStr (CURRENCY CONFIG))]>
    (<["value" := VNum totalPrice]>
    (<["items" := items]> ∅)) in
  run paymentType := liftM (first_transaction_gateway checkout) in
  let eventData := if ToBoolean paymentType
                   then <["payment_type" := paymentType]> eventData
                   else eventData in
  run coupon := liftM (first_discount_title checkout) in
  let eventData := if ToBoolean coupon then <["coupon" := coupon]> eventData
                   else eventData in
  sendEvent (VStr "add_payment_info") (VObj eventData).

(** The [search_submitted] listener. *)
Definition search_submitted (event : value) : M St unit :=
  run query := liftM (let* data := Get event "data" in
                      let* searchResult := Get data "searchResult" in
                      Get searchResult "query") in
  sendEvent (VStr "search") (VObj (<["search_term" := query]> ∅)).

(** The calls to [analytics.subscribe], in the order of the script: the
    name of the storefront event and the listener registered for it. *)
Definition subscriptions : list (string * (value -> M St unit)) :=
  [ ("page_viewed", page_viewed);
    ("product_viewed", product_viewed);
    ("product_added_to_cart", product_added_to_cart);
    ("product_removed_from_cart", product_removed_from_cart);
    ("cart_viewed", cart_viewed);
    ("checkout_started", checkout_started);
    ("checkout_shipping_info_submitted", checkout_shipping_info_submitted);
    ("payment_info_submitted", payment_info_submitted);
    ("checkout_completed", checkout_completed);
    ("search_submitted", search_submitted) ].

End OtherListeners.

(** *** [initializeGoogleTag]

    Besides [window.gtag] and the console the loader touches
    [window.dataLayer] and the children of [document.head].  The [gtag] it
    installs pushes its arguments onto [window.dataLayer], so from then on
    the state behind the sink is that array. *)

(** A [script] element with its [async] and [src] set. *)
Record script_element := {
  async : bool;
  src : string
}.

Record page (St : Type) := {
  page_world : world St;
  window_dataLayer : value;
  document_head : list script_element
}.
Arguments page_world {St} p.
Arguments window_dataLayer {St} p.
Arguments document_head {St} p.

(** [function gtag() { window.dataLayer.push(arguments); }], as a sink over
    [window.dataLayer]: only an array has [push]. *)
Definition gtag : sink value :=
  fun dataLayer args =>
    match dataLayer with
    | VArr entries => (VArr (entries ++ [VArr args]), Normal VUndef)
    | VUndef | VNull => (dataLayer, Throw (cannot_read dataLayer "push"))
    | _ => (dataLayer, Throw (TypeError "window.dataLayer.push is not a function"))
    end.

(** What the loader leaves behind: the page as it was but for a console
    line, or the pixel's own [gtag] over the data layer, the new children
    of [document.head] and the completion of the loader. *)
Inductive loaded (St : Type) :=
| AlreadyLoaded (p : page St)
| Installed (w : world value) (head : list script_element) (c : completion unit).
Arguments AlreadyLoaded {St} p.
Arguments Installed {St} w head c.

(** [initializeGoogleTag()], run at the date [now]. *)
Definition initializeGoogleTag {St : Type} (now : value) (p : page St) : loaded St :=
  match window_gtag (page_world p) with
  | GData VUndef =>
      let dataLayer := or_else (window_dataLayer p) (VArr []) in
      let w : world value :=
        {| window_gtag := GFunction gtag;
           sink_state := dataLayer;
           gtag_calls := gtag_calls (page_world p);
           console := console (page_world p) |} in
      let script :=
        {| async := true;
           src := "https://www.googletagmanager.com/gtag/js?id="
                  ++ GOOGLE_TAG_ID CONFIG |} in
      let head := (document_head p ++ [script])%list in
      let '(w, c) :=
        (run _ := call_gtag [VStr "js"; now] in
         run _ := call_gtag [VStr "config"; VStr (GOOGLE_TAG_ID CONFIG)] in
         if DEBUG_MODE CONFIG
         then console_write (ConsoleLog [VStr "[Web Pixel] Google Tag loaded:";
                                         VStr (GOOGLE_TAG_ID CONFIG)])
         else retM tt) w in
      Installed w head c
  | _ =>
      AlreadyLoaded
        {| page_world :=
             fst (console_write
                    (ConsoleLog
                       [VStr "[Web Pixel] gtag already loaded by Google & YouTube App"])
                    (page_world p));
           window_dataLayer := window_dataLayer p;
           document_head := document_head p |}
  end.

End Events.


(** ** Vocabulary of the specification *)

Module Spec.
Import JS Pixel.

(** Whether a value converts to a string (every primitive does, and every
    plain object without a [toString] property of its own), and what it
    converts to when it does: its string, its Number, and the Number
    [parseFloat] reads in its string. *)
Definition converts (v : value) : bool :=
  match ToString v with Normal _ => true | Throw _ => false end.

Definition string_of (v : value) : string :=
  match ToString v with Normal s => s | Throw _ => "" end.

Definition number_of (v : value) : float :=
  match ToNumber v with Normal x => x | Throw _ => nan end.

Definition parsed (v : value) : float :=
  match parseFloat v with Normal x => x | Throw _ => nan end.

(** [v?.k] and [v?.[i]] as values: the property when there is one to read,
    [undefined] otherwise. *)
Definition field (v : value) (k : string) : value :=
  match Get v k with Normal x => x | Throw _ => VUndef end.

Definition index (v : value) (i : nat) : value :=
  match GetIndex v i with Normal x => x | Throw _ => VUndef end.

(** The product an item is formatted from: [variant.product || variant]. *)
Definition product_of (variant : value) : value :=
  or_else (field variant "product") variant.

(** The title of the collection at position [i] of the product, when there
    is one. *)
Definition nth_collection_title (product : value) (i : nat) : value :=
  field (index (field product "collections") i) "title".

(** The field fed by the collection at position [i]. *)
Definition category_key (i : nat) : string :=
  match i with
  | 0%nat => "item_category2"
  | 1%nat => "item_category3"
  | 2%nat => "item_category4"
  | _ => "item_category5"
  end.

Definition with_category (product : value) (i : nat) (item : gmap string value)
    : gmap string value :=
  let t := nth_collection_title product i in
  if ToBoolean t then <[category_key i := t]> item else item.

(** The first discount allocation of a line item given as context, its
    amount and the title of its discount application. *)
Definition first_allocation (lineItem : value) : value :=
  index (field lineItem "discountAllocations") 0.

Definition allocated_amount (allocation : value) : value :=
  field (field allocation "amount") "amount".

Definition application_title (allocation : value) : value :=
  field (field allocation "discountApplication") "title".

Definition with_discount (lineItem : value) (item : gmap string value)
    : gmap string value :=
  let first := first_allocation lineItem in
  if ToBoolean first then
    let item :=
      if ToBoolean (allocated_amount first)
      then <["discount" := VNum (parsed (allocated_amount first))]> item
      else item in
    if ToBoolean (application_title first)
    then <["coupon" := application_title first]> item
    else item
  else item.

(** The record [formatItem] builds, given the identity and the name: the
    seven fields of the object literal, then the conditional ones. *)
Definition base_item (variant quantity item_id item_name : value)
    : gmap string value :=
  let product := product_of variant in
  <["item_id" := item_id]>
  (<["item_name" := item_name]>
  (<["item_variant" := field variant "title"]>
  (<["item_brand" := or_else (field product "vendor") (VStr (FALLBACK_BRAND CONFIG))]>
  (<["item_category" := or_else (field product "type") (VStr "")]>
  (<["price" := VNum (parsed (field (field variant "price") "amount"))]>
  (<["quantity" := match quantity with VUndef => VNum 1 | _ => quantity end]> ∅)))))).

Definition item_of (variant quantity lineItem item_id item_name : value)
    : gmap string value :=
  let product := product_of variant in
  with_discount lineItem
    (with_category product 3
      (with_category product 2
        (with_category product 1
          (with_category product 0
            (base_item variant quantity item_id item_name))))).

(** The data model's typing of optional strings. *)
Definition absent_or_string (v : value) : bool :=
  match v with VUndef | VNull | VStr _ => true | _ => false end.

(** A variant as the data model has it, as far as [formatItem] depends on
    it: an object whose SKU and whose product's title are strings when
    present, which has a price, and whose ids, title and price amount
    convert to strings (as every string and number does). *)
Definition is_variant (variant : value) : bool :=
  negb (nullish variant)
  && absent_or_string (field variant "sku")
  && absent_or_string (field (product_of variant) "title")
  && negb (nullish (field variant "price"))
  && converts (field (product_of variant) "id")
  && converts (field variant "id")
  && converts (field variant "title")
  && converts (field (field variant "price") "amount").

(** The variant of a line: [lineItem.merchandise || lineItem.variant]. *)
Definition line_variant (lineItem : value) : value :=
  or_else (field lineItem "merchandise") (field lineItem "variant").

(** A line item of the data model: a line whose variant is one, and whose
    first discount allocation, when there is one, has an amount that
    converts to a string. *)
Definition is_line_item (lineItem : value) : bool :=
  negb (nullish lineItem)
  && is_variant (line_variant lineItem)
  && converts (allocated_amount (first_allocation lineItem)).

(** The fields a canonical item may carry. *)
Definition item_fields : gset string :=
  {[ "item_id"; "item_name"; "item_variant"; "item_brand"; "item_category";
     "item_category2"; "item_category3"; "item_category4"; "item_category5";
     "price"; "quantity"; "discount"; "coupon" ]}.

(** The value of a cart: the sum over its formatted items, in order, of
    price times quantity. *)
Definition line_total (item : value) : float :=
  (number_of (field item "price") * number_of (field item "quantity"))%float.

Definition cart_value (items : list value) : float :=
  fold_left (fun sum item => (sum + line_total item)%float) items 0%float.

(** The SKU once trimmed; an absent SKU trims to nothing. *)
Definition trimmed_sku (sku : value) : string :=
  match sku with VStr s => trim s | _ => "" end.

(** Name cleaning as an exact-suffix rule: a title that is [base] followed
    by [" - "] and the variant title is cleaned to [base], and any other
    title is left as it is. *)
Definition strips_exact_suffix (productTitle variantTitle : string) : Prop :=
  (forall base, productTitle = base ++ " - " ++ variantTitle ->
     cleanProductName (VStr productTitle) (VStr variantTitle) = Normal (VStr base))
  /\ ((forall base, productTitle <> base ++ " - " ++ variantTitle) ->
        cleanProductName (VStr productTitle) (VStr variantTitle)
        = Normal (VStr productTitle)).

(** The categories of an item as a function of the number of collections
    alone: [item_category] a string, the field of each of the first four
    collections there is carrying its title, and no other field. *)
Definition categories_follow_length (variant quantity lineItem : value) : Prop :=
  forall item cs,
    formatItem variant quantity lineItem = Normal (VObj item) ->
    field (product_of variant) "collections" = VArr cs ->
    (exists s, item !! "item_category" = Some (VStr s))
    /\ (forall i, (i < 4)%nat ->
          item !! category_key i = (fun c => field c "title") <$> cs !! i)
    /\ dom item ⊆ item_fields.

(** An amount that is a number: a Number other than NaN, or a string that
    reads as one. *)
Definition numeric (v : value) : bool :=
  match v with
  | VNum x => negb (is_nan x)
  | VStr _ => negb (is_nan (parsed v))
  | _ => false
  end.

(** Discount enrichment decided by what the first allocation has: the
    discount set exactly when its amount is numeric, the coupon exactly when
    its discount application has a title. *)
Definition discount_follows_presence (variant quantity lineItem : value) : Prop :=
  forall item,
    formatItem variant quantity lineItem = Normal (VObj item) ->
    let first := first_allocation lineItem in
    (is_Some (item !! "discount") <-> numeric (allocated_amount first) = true)
    /\ (is_Some (item !! "coupon") <-> nullish (application_title first) = false).

(** Successive dispatches, as successive listeners make them. *)
Fixpoint dispatch_all {St : Type} (events : list (value * value)) : M St unit :=
  match events with
  | [] => retM tt
  | (eventName, params) :: rest =>
      run _ := sendEvent eventName params in dispatch_all rest
  end.

(** The call [sendEvent] makes to the sink. *)
Definition event_call (event : value * value) : list value :=
  [VStr "event"; fst event; snd event].

(** A checkout as the data model has it, as far as the checkout-completed
    listener depends on it: an order with an id, line items, a total price,
    and a price on the shipping line when there is one; the order id and
    the amounts of the total price, the total tax and the shipping price
    convert to strings (as every string and number does). *)
Definition is_checkout (checkout : value) : bool :=
  negb (nullish checkout)
  && negb (nullish (field (field checkout "order") "id"))
  && match field checkout "lineItems" with
     | VArr lines => forallb is_line_item lines
     | _ => true
     end
  && negb (nullish (field checkout "totalPrice"))
  && (nullish (field checkout "shippingLine")
      || negb (nullish (field (field checkout "shippingLine") "price")))
  && converts (field (field checkout "order") "id")
  && converts (field (field checkout "totalPrice") "amount")
  && converts (field (field checkout "totalTax") "amount")
  && converts (field (field (field checkout "shippingLine") "price") "amount").

(** The listener dispatches one [purchase] event whose payload has the
    order id as a string, and a tax and a shipping of zero when their
    sources are absent. *)
Definition purchase_dispatched {St : Type} (event : value) (w : world St) : Prop :=
  let checkout := field (field event "data") "checkout" in
  let order_id := field (field checkout "order") "id" in
  exists eventData : gmap string value,
    checkout_completed event w = sendEvent (VStr "purchase") (VObj eventData) w
    /\ eventData !! "transaction_id" = Some (VStr (string_of order_id))
    /\ (forall x, order_id = VNum x ->
        eventData !! "transaction_id" = Some (VStr (Number_toString x)))
    /\ (nullish (field (field checkout "totalTax") "amount") = true ->
        eventData !! "tax" = Some (VNum 0))
    /\ (nullish (field (field (field checkout "shippingLine") "price") "amount") = true ->
        eventData !! "shipping" = Some (VNum 0)).

End Spec.

(** ** Sample data *)

Module Samples.
Import JS Pixel.

Definition money (amount : string) : value :=
  VObj {[ "amount" := VStr amount ]}.

Definition collection (title : string) : value :=
  VObj {[ "title" := VStr title ]}.

Definition product (title : string) (collections : list value) : value :=
  VObj (<["id" := VStr "7001"]>
       (<["title" := VStr title]>
       (<["vendor" := VStr "Acme"]>
       (<["type" := VStr "Apparel"]>
       (<["collections" := VArr collections]> ∅))))).

Definition variant (product sku : value) (title price : string) : value :=
  VObj (<["id" := VStr "42"]>
       (<["title" := VStr title]>
       (<["sku" := sku]>
       (<["price" := money price]>
       (<["product" := product]> ∅))))).

Definition shirt : value :=
  product "Shirt - Large" [collection "Summer"; collection "Sale"].

Definition shirt_large (sku : value) (price : string) : value :=
  variant shirt sku "Large" price.

(** A product whose first collection has an empty title. *)
Definition mug : value := product "Mug" [collection ""; collection "Sale"].

Definition mug_blue : value := variant mug (VStr "MUG-1") "Blue" "8.00".

Definition allocation (amount title : value) : value :=
  VObj (<["amount" := VObj {[ "amount" := amount ]}]>
       (<["discountApplication" := VObj {[ "title" := title ]}]> ∅)).

Definition line (variant : value) (quantity : float) (allocations : list value)
    : value :=
  VObj (<["merchandise" := variant]>
       (<["quantity" := VNum quantity]>
       (<["discountAllocations" := VArr allocations]> ∅))).

(** A line whose first discount allocation is of amount zero. *)
Definition free_gift_line : value :=
  line (shirt_large (VStr "AB-1") "10.00") 1 [allocation (VNum 0) (VStr "GIFT")].

Definition discounted_line : value :=
  line (shirt_large (VStr "AB-1") "10.00") 2
       [allocation (VStr "2.50") (VStr "SAVE"); allocation (VStr "9.00") (VStr "LATER")].

(** A variant without a product back-reference, carrying the product's
    fields itself. *)
Definition gift_card : value :=
  VObj (<["id" := VStr "77"]>
       (<["title" := VStr "Gift card"]>
       (<["vendor" := VStr "Acme"]>
       (<["type" := VStr "Cards"]>
       (<["price" := money "25.00"]> ∅))))).

Definition cart_lines : list value :=
  [ line (variant shirt (VStr "AB-1") "Large" "10.00") 2 [];
    line (variant mug (VStr "MUG-1") "Blue" "5.50") 1 [] ].

Definition cart_viewed_event : value :=
  VObj {[ "data" := VObj {[ "cart" := VObj {[ "lines" := VArr cart_lines ]} ]} ]}.

Definition event_without_cart : value := VObj {[ "data" := VObj ∅ ]}.

(** A world whose sink accepts every call. *)
Definition idle_world : world unit :=
  {| window_gtag := GFunction (fun s _ => (s, Normal VUndef));
     sink_state := tt; gtag_calls := []; console := [] |}.

(** A world whose sink throws on every call. *)
Definition faulty_world : world unit :=
  {| window_gtag := GFunction (fun s _ => (s, Throw (Thrown (VStr "sink down"))));
     sink_state := tt; gtag_calls := []; console := [] |}.

(** A completed checkout with a numeric order id, and neither a tax total
    nor a shipping line. *)
Definition checkout_completed_event : value :=
  VObj {[ "data" :=
    VObj {[ "checkout" :=
      VObj (<["order" := VObj {[ "id" := VNum 1001 ]}]>
           (<["lineItems" := VArr cart_lines]>
           (<["totalPrice" := money "25.50"]> ∅))) ]} ]}.

End Samples.

(** ** Vocabulary for the listeners and the loader *)

Module EventSpec.
Import JS Pixel Spec Events.

(** The analytics event each storefront event is mapped to. *)
Definition event_names : list (string * string) :=
  [ ("page_viewed", "page_view");
    ("product_viewed", "view_item");
    ("product_added_to_cart", "add_to_cart");
    ("product_removed_from_cart", "remove_from_cart");
    ("cart_viewed", "view_cart");
    ("checkout_started", "begin_checkout");
    ("checkout_shipping_info_submitted", "add_shipping_info");
    ("payment_info_submitted", "add_payment_info");
    ("checkout_completed", "purchase");
    ("search_submitted", "search") ].

(** What a run of a listener may leave behind: at most one call to the
    sink, for the event [name] with an object as payload; at most one
    console line, the report of that call's fault; and nothing at all when
    the listener itself throws. *)
Definition at_most_one_event {St : Type} (name : string)
    (listener : value -> M St unit) : Prop :=
  forall (event : value) (w : world St),
    let w' := fst (listener event w) in
    (forall e, snd (listener event w) = Throw e -> w' = w)
    /\ window_gtag w' = window_gtag w
    /\ (gtag_calls w' = gtag_calls w
        \/ exists payload : gmap string value,
             gtag_calls w'
             = (gtag_calls w ++ [[VStr "event"; VStr name; VObj payload]])%list)
    /\ (console w' = console w
        \/ exists error,
             console w'
             = (console w ++ [ConsoleError ("[Web Pixel] " ++ name) error])%list).

(** The checkout of a checkout event, and the parts of it the listeners
    read with [?.] chains. *)
Definition checkout_of (event : value) : value :=
  field (field event "data") "checkout".

Definition discount_title (checkout : value) : value :=
  field (index (field checkout "discountApplications") 0) "title".

Definition delivery_title (checkout : value) : value :=
  field (index (field (field checkout "delivery") "selectedDeliveryOptions") 0) "title".

Definition gateway (checkout : value) : value :=
  field (index (field checkout "transactions") 0) "gateway".

(** The payload of [begin_checkout]: currency, value and items, and the
    coupon when the first discount application has a title. *)
Definition checkout_payload (checkout items : value) : gmap string value :=
  let eventData : gmap string value :=
    <["currency" := or_else (field checkout "currencyCode") (VStr "EUR")]>
    (<["value" := VNum (parsed (field (field checkout "totalPrice") "amount"))]>
    (<["items" := items]> ∅)) in
  if ToBoolean (discount_title checkout)
  then <["coupon" := discount_title checkout]> eventData
  else eventData.

(** The page after the loader, when the loader installs its own [gtag]. *)
Definition installed_world {St : Type} (l : loaded St) : option (world value) :=
  match l with
  | Installed w _ _ => Some w
  | AlreadyLoaded _ => None
  end.

(** The script element the loader injects. *)
Definition gtag_script : script_element :=
  {| async := true;
     src := "https://www.googletagmanager.com/gtag/js?id=GT-******" |}.

(** The two calls the loader makes once its [gtag] is in place. *)
Definition loader_calls (now : value) : list (list value) :=
  [[VStr "js"; now]; [VStr "config"; VStr "GT-******"]].

(** The page a loader run leaves, as the next run finds it. *)
Definition page_after {St : Type} (l : loaded St) : page St + page value :=
  match l with
  | AlreadyLoaded p => inl p
  | Installed w head _ =>
      inr {| page_world := w; window_dataLayer := sink_state w; document_head := head |}
  end.

(** A loader run that leaves gtag, sink, data layer and head as they are,
    and writes its one line to the console. *)
Definition loads_nothing {St : Type} (now : value) (p : page St) : Prop :=
  exists p',
    initializeGoogleTag now p = AlreadyLoaded p'
    /\ window_gtag (page_world p') = window_gtag (page_world p)
    /\ sink_state (page_world p') = sink_state (page_world p)
    /\ gtag_calls (page_world p') = gtag_calls (page_world p)
    /\ window_dataLayer p' = window_dataLayer p
    /\ document_head p' = document_head p
    /\ console (page_world p')
       = (console (page_world p)
          ++ [ConsoleLog [VStr "[Web Pixel] gtag already loaded by Google & YouTube App"]])%list.


End EventSpec.

(** ** Samples for the listeners *)

Module EventSamples.
Import JS Pixel Events.

Definition product_viewed_event : value :=
  VObj {[ "data" :=
    VObj {[ "productVariant" := Samples.shirt_large (VStr "AB-1") "10.00" ]} ]}.

(** A cart line with a discount allocation. *)
Definition cart_line : value :=
  VObj (<["merchandise" := Samples.shirt_large (VStr "AB-1") "10.00"]>
       (<["quantity" := VNum 2]>
       (<["cost" := VObj {[ "totalAmount" := Samples.money "17.50" ]}]>
       (<["discountAllocations" :=
            VArr [Samples.allocation (VStr "2.50") (VStr "SAVE")]]> ∅)))).

Definition cart_line_event : value :=
  VObj {[ "data" := VObj {[ "cartLine" := cart_line ]} ]}.

(** A checkout in progress: a coupon, a selected delivery option and a
    card transaction, and no order yet. *)
Definition checkout : value :=
  VObj (<["lineItems" := VArr Samples.cart_lines]>
       (<["currencyCode" := VStr "USD"]>
       (<["totalPrice" := Samples.money "25.50"]>
       (<["discountApplications" := VArr [VObj {[ "title" := VStr "WELCOME" ]}]]>
       (<["delivery" :=
            VObj {[ "selectedDeliveryOptions" :=
                      VArr [VObj {[ "title" := VStr "Express" ]}] ]}]>
       (<["shippingLine" := VObj {[ "title" := VStr "Standard" ]}]>
       (<["transactions" := VArr [VObj {[ "gateway" := VStr "card" ]}]]> ∅))))))).

Definition checkout_event : value :=
  VObj {[ "data" := VObj {[ "checkout" := checkout ]} ]}.

Definition empty_cart_event : value :=
  VObj {[ "data" := VObj {[ "cart" := VObj {[ "lines" := VArr [] ]} ]} ]}.

(** A page on which no [gtag] is loaded yet. *)
Definition fresh_page : page unit :=
  {| page_world := {| window_gtag := GData VUndef; sink_state := tt;
                      gtag_calls := []; console := [] |};
     window_dataLayer := VUndef;
     document_head := [] |}.

Definition loaded_page : page unit :=
  {| page_world := Samples.idle_world;
     window_dataLayer := VArr [];
     document_head := [] |}.

(** A variant whose price has no amount. *)
Definition unpriced : value :=
  VObj (<["id" := VStr "9"]>
       (<["title" := VStr "Sample"]>
       (<["price" := VObj ∅]> ∅))).


(** A cart whose second line is [null]. *)
Definition broken_cart_event : value :=
  VObj {[ "data" :=
    VObj {[ "cart" :=
      VObj {[ "lines" := VArr (Samples.cart_lines ++ [VNull])%list ]} ]} ]}.


(** A page whose [window.dataLayer] already holds something that is not an
    array. *)
Definition odd_page : page unit :=
  {| page_world := {| window_gtag := GData VUndef; sink_state := tt;
                      gtag_calls := []; console := [] |};
     window_dataLayer := VStr "dataLayer";
     document_head := [] |}.


(** The world the loader leaves on [fresh_page]. *)
Definition installed : world value :=
  {| window_gtag := GFunction gtag;
     sink_state := VArr [VArr [VStr "js"; VStr "2026-01-01"];
                         VArr [VStr "config"; VStr "GT-******"]];
     gtag_calls := [[VStr "js"; VStr "2026-01-01"];
                    [VStr "config"; VStr "GT-******"]];
     console := [] |}.


End EventSamples.


(** ** Properties *)

Module Facts.
Import JS Pixel Spec.

Lemma bind_Normal {A B} (c : completion A) (k : A -> completion B) (b : B) :
  bind c k = Normal b -> exists a, c = Normal a /\ k a = Normal b.
Proof. destruct c as [a|e]; simpl; [eauto | discriminate]. Qed.

Lemma bind_Throw {A B} (c : completion A) (k : A -> completion B) (e : exn) :
  bind c k = Throw e -> c = Throw e \/ exists a, c = Normal a /\ k a = Throw e.
Proof. destruct c as [a|e']; simpl; [eauto | intros [= ->]; now left]. Qed.

(** *** Conversions

    A conversion throws one exception only, so each one is a test followed
    by a total reading. *)

Lemma ToString_error (v : value) (e : exn) : ToString v = Throw e -> e = not_primitive.
Proof.
  revert e. induction v as [| |b|x|s|l IH|m] using value_elements_ind; intros e;
    cbn [ToString]; try discriminate.
  - intros H. apply bind_Throw in H as [H | (parts & _ & H)]; [| discriminate H].
    revert e H. induction IH as [|a l Ha _ IHl]; intros e H; [discriminate H |].
    apply bind_Throw in H as [H | (s & _ & H)].
    + destruct a; try discriminate H; exact (Ha e H).
    + apply bind_Throw in H as [H | (parts & _ & H)]; [| discriminate H].
      exact (IHl e H).
  - destruct (m !! "toString"); [intros [= <-]; reflexivity | discriminate].
Qed.

Lemma ToString_spec (v : value) :
  ToString v = if converts v then Normal (string_of v) else Throw not_primitive.
Proof.
  unfold converts, string_of. destruct (ToString v) as [s|e] eqn:H; [reflexivity |].
  now rewrite (ToString_error _ _ H).
Qed.

Lemma ToString_Normal (v : value) (s : string) :
  ToString v = Normal s -> converts v = true /\ s = string_of v.
Proof. unfold converts, string_of. intros ->. auto. Qed.

Lemma converts_object (m : gmap string value) :
  converts (VObj m) = bool_decide (m !! "toString" = None).
Proof. unfold converts. cbn [ToString]. now destruct (m !! "toString"). Qed.

(** Every primitive converts. *)
Lemma converts_primitive (v : value) :
  match v with VArr _ | VObj _ => True | _ => converts v = true end.
Proof. destruct v; first [exact I | reflexivity]. Qed.

Lemma converts_falsy (v : value) : ToBoolean v = false -> converts v = true.
Proof. destruct v; try discriminate; reflexivity. Qed.

Lemma ToNumber_spec (v : value) :
  ToNumber v = if converts v then Normal (number_of v) else Throw not_primitive.
Proof.
  destruct v; try reflexivity;
    unfold number_of, ToNumber; rewrite ToString_spec;
    destruct (converts _); reflexivity.
Qed.

Lemma parseFloat_spec (v : value) :
  parseFloat v = if converts v then Normal (parsed v) else Throw not_primitive.
Proof.
  unfold parsed, parseFloat. rewrite ToString_spec.
  destruct (converts v); reflexivity.
Qed.

Lemma parseFloat_converts (v : value) :
  converts v = true -> parseFloat v = Normal (parsed v).
Proof. intros H. now rewrite parseFloat_spec, H. Qed.

Lemma parseFloat_Normal (v : value) (x : float) :
  parseFloat v = Normal x -> converts v = true /\ x = parsed v.
Proof.
  rewrite parseFloat_spec. destruct (converts v); [| discriminate].
  intros [= <-]. auto.
Qed.

Lemma toString_method_converts (v : value) :
  nullish v = false -> converts v = true ->
  toString_method v = Normal (VStr (string_of v)).
Proof.
  intros Hnn Hconv. destruct v; try discriminate Hnn;
    try (unfold toString_method; rewrite ToString_spec, Hconv; reflexivity).
  rewrite converts_object in Hconv. apply bool_decide_eq_true in Hconv.
  unfold toString_method, string_of. cbn [ToString]. now rewrite Hconv.
Qed.

Lemma toString_method_Normal (v t : value) :
  toString_method v = Normal t ->
  nullish v = false /\ converts v = true /\ t = VStr (string_of v).
Proof.
  intros H.
  assert (nullish v = false) as Hnn by (destruct v; try discriminate H; reflexivity).
  assert (converts v = true) as Hconv.
  { destruct v; try discriminate Hnn; try reflexivity.
    - unfold toString_method in H. rewrite ToString_spec in H.
      destruct (converts _); [reflexivity | discriminate H].
    - rewrite converts_object. apply bool_decide_eq_true.
      unfold toString_method in H. destruct (_ !! "toString"); [discriminate H | reflexivity]. }
  rewrite (toString_method_converts _ Hnn Hconv) in H. injection H as <-. auto.
Qed.

(** *** Property reads *)

Lemma Get_field (v : value) (k : string) :
  nullish v = false -> Get v k = Normal (field v k).
Proof. unfold field. destruct v; intros H; try discriminate H; reflexivity. Qed.

Lemma Get_Normal (v : value) (k : string) (x : value) :
  Get v k = Normal x -> nullish v = false /\ x = field v k.
Proof.
  unfold field. destruct v; intros H; try discriminate H;
    (split; [reflexivity | injection H as <-; reflexivity]).
Qed.

Lemma GetIndex_index (v : value) (i : nat) :
  nullish v = false -> GetIndex v i = Normal (index v i).
Proof. unfold index. destruct v; intros H; try discriminate H; reflexivity. Qed.

Lemma field_nullish (v : value) (k : string) : nullish v = true -> field v k = VUndef.
Proof. destruct v; intros H; try discriminate H; reflexivity. Qed.

Lemma index_nullish (v : value) (i : nat) : nullish v = true -> index v i = VUndef.
Proof. destruct v; intros H; try discriminate H; reflexivity. Qed.

Lemma truthy_not_nullish (v : value) : ToBoolean v = true -> nullish v = false.
Proof. destruct v; simpl; congruence. Qed.

Lemma truthy_field (v : value) (k : string) :
  ToBoolean (field v k) = true -> nullish v = false.
Proof.
  destruct (nullish v) eqn:E; [| reflexivity].
  rewrite (field_nullish _ _ E). discriminate.
Qed.

Lemma truthy_index (v : value) (i : nat) :
  ToBoolean (index v i) = true -> nullish v = false.
Proof.
  destruct (nullish v) eqn:E; [| reflexivity].
  rewrite (index_nullish _ _ E). discriminate.
Qed.

Lemma optional_Get (v : value) (k : string) :
  optional v (fun v => Get v k) = Normal (field v k).
Proof.
  unfold optional. destruct (nullish v) eqn:E.
  - now rewrite field_nullish.
  - now apply Get_field.
Qed.

Lemma optional_GetIndex (v : value) (i : nat) :
  optional v (fun v => GetIndex v i) = Normal (index v i).
Proof.
  unfold optional. destruct (nullish v) eqn:E.
  - now rewrite index_nullish.
  - now apply GetIndex_index.
Qed.

Lemma product_of_not_nullish (variant : value) :
  nullish variant = false -> nullish (product_of variant) = false.
Proof.
  intros H. unfold product_of, or_else.
  destruct (ToBoolean (field variant "product")) eqn:E; [| exact H].
  now apply truthy_not_nullish.
Qed.

Lemma collection_title_opt_spec (product : value) (i : nat) :
  nullish product = false ->
  collection_title_opt product i = Normal (nth_collection_title product i).
Proof.
  intros H. unfold collection_title_opt, nth_collection_title.
  rewrite (Get_field _ _ H). simpl. unfold optional at 1.
  destruct (nullish (field product "collections")) eqn:E.
  - now rewrite (index_nullish _ _ E).
  - rewrite (GetIndex_index _ _ E). simpl. apply optional_Get.
Qed.

Lemma collection_title_spec (product : value) (i : nat) :
  nullish product = false ->
  ToBoolean (nth_collection_title product i) = true ->
  collection_title product i = Normal (nth_collection_title product i).
Proof.
  intros H T. unfold collection_title, nth_collection_title in *.
  rewrite (Get_field _ _ H). simpl.
  pose proof (truthy_field _ _ T) as Hc.
  assert (nullish (field product "collections") = false) as Hcs.
  { destruct (nullish (field product "collections")) eqn:E; [| reflexivity].
    rewrite (index_nullish _ _ E) in Hc. discriminate. }
  rewrite (GetIndex_index _ _ Hcs). simpl. now apply Get_field.
Qed.

Lemma add_category_spec (product : value) (i : nat) (item : gmap string value) :
  nullish product = false ->
  add_category product i (category_key i) item = Normal (with_category product i item).
Proof.
  intros H. unfold add_category, with_category.
  rewrite (collection_title_opt_spec _ _ H). simpl.
  destruct (ToBoolean (nth_collection_title product i)) eqn:T; [| reflexivity].
  now rewrite (collection_title_spec _ _ H T).
Qed.

Lemma add_discount_spec (lineItem : value) (item : gmap string value) :
  add_discount lineItem item
  = if converts (allocated_amount (first_allocation lineItem))
    then Normal (with_discount lineItem item) else Throw not_primitive.
Proof.
  unfold add_discount, with_discount, first_allocation.
  assert (optional lineItem (fun li =>
            let* das := Get li "discountAllocations" in
            optional das (fun das => GetIndex das 0))
          = Normal (index (field lineItem "discountAllocations") 0)) as ->.
  { unfold optional at 1. destruct (nullish lineItem) eqn:E.
    - now rewrite (field_nullish _ _ E).
    - rewrite (Get_field _ _ E). simpl. apply optional_GetIndex. }
  cbn [bind].
  set (first := index (field lineItem "discountAllocations") 0).
  destruct (ToBoolean first) eqn:T.
  2:{ assert (converts (allocated_amount first) = true) as ->; [| reflexivity].
      destruct first as [| |[|]|x|[|c s]|l|m]; try discriminate T; reflexivity. }
  pose proof (truthy_index _ _ T) as Hdas.
  assert (nullish lineItem = false) as Hli.
  { destruct (nullish lineItem) eqn:E; [| reflexivity].
    rewrite (field_nullish _ _ E) in Hdas. discriminate. }
  rewrite (Get_field _ _ Hli). cbn [bind].
  rewrite (GetIndex_index _ _ Hdas). fold first. cbn [bind].
  pose proof (truthy_not_nullish _ T) as Hfirst.
  rewrite !(Get_field _ _ Hfirst). cbn [bind]. rewrite !optional_Get. cbn [bind].
  unfold allocated_amount, application_title.
  destruct (ToBoolean (field (field first "amount") "amount")) eqn:Ta.
  - rewrite (Get_field _ _ (truthy_field _ _ Ta)). cbn [bind].
    rewrite parseFloat_spec.
    destruct (converts (field (field first "amount") "amount")); [| reflexivity].
    cbn [bind].
    destruct (ToBoolean (field (field first "discountApplication") "title")) eqn:Tt;
      [| reflexivity].
    now rewrite !(Get_field _ _ (truthy_field _ _ Tt)).
  - rewrite (converts_falsy _ Ta). cbn [bind].
    destruct (ToBoolean (field (field first "discountApplication") "title")) eqn:Tt;
      [| reflexivity].
    now rewrite !(Get_field _ _ (truthy_field _ _ Tt)).
Qed.

Lemma with_discount_default (lineItem : value) (item : gmap string value) :
  with_discount (match lineItem with VUndef => VNull | _ => lineItem end) item
  = with_discount lineItem item.
Proof. destruct lineItem; reflexivity. Qed.

Lemma first_allocation_default (lineItem : value) :
  first_allocation (match lineItem with VUndef => VNull | _ => lineItem end)
  = first_allocation lineItem.
Proof. destruct lineItem; reflexivity. Qed.

(** [formatItem] on a variant that is there: the identity, the name, the
    price and the two amounts it parses are the places where it can
    throw. *)
Lemma formatItem_unfold (variant quantity lineItem : value) :
  nullish variant = false ->
  formatItem variant quantity lineItem
  = let* item_id := createItemId (product_of variant) variant in
    let* item_name := cleanProductName (field (product_of variant) "title")
                                       (field variant "title") in
    let* amount := Get (field variant "price") "amount" in
    if converts amount && converts (allocated_amount (first_allocation lineItem))
    then Normal (VObj (item_of variant quantity lineItem item_id item_name))
    else Throw not_primitive.
Proof.
  intros Hv. unfold formatItem.
  pose proof (product_of_not_nullish _ Hv) as Hp.
  rewrite (Get_field _ _ Hv). cbn [bind]. fold (product_of variant).
  destruct (createItemId (product_of variant) variant) as [item_id|e];
    [cbn [bind] | reflexivity].
  rewrite (Get_field _ _ Hp), !(Get_field _ _ Hv). cbn [bind].
  destruct (cleanProductName _ _) as [item_name|e]; [cbn [bind] | reflexivity].
  rewrite !(Get_field _ _ Hp). cbn [bind].
  destruct (Get (field variant "price") "amount") as [amount|e] eqn:Hamount;
    [cbn [bind] | reflexivity].
  apply Get_Normal in Hamount as [_ ->].
  rewrite parseFloat_spec.
  destruct (converts (field (field variant "price") "amount")); [| reflexivity].
  cbn [bind andb].
  rewrite (add_category_spec _ 0 _ Hp). cbn [bind].
  rewrite (add_category_spec _ 1 _ Hp). cbn [bind].
  rewrite (add_category_spec _ 2 _ Hp). cbn [bind].
  rewrite (add_category_spec _ 3 _ Hp). cbn [bind].
  rewrite add_discount_spec, with_discount_default, first_allocation_default.
  destruct (converts (allocated_amount (first_allocation lineItem))); reflexivity.
Qed.

Lemma formatItem_Normal (variant quantity lineItem result : value) :
  formatItem variant quantity lineItem = Normal result ->
  nullish variant = false
  /\ exists item_id item_name,
       createItemId (product_of variant) variant = Normal item_id
       /\ cleanProductName (field (product_of variant) "title")
                           (field variant "title") = Normal item_name
       /\ nullish (field variant "price") = false
       /\ result = VObj (item_of variant quantity lineItem item_id item_name).
Proof.
  intros H.
  assert (nullish variant = false) as Hv.
  { unfold formatItem in H. apply bind_Normal in H as (vp & Hvp & _).
    now apply Get_Normal in Hvp. }
  split; [exact Hv |].
  rewrite (formatItem_unfold _ _ _ Hv) in H.
  apply bind_Normal in H as (item_id & Hid & H).
  apply bind_Normal in H as (item_name & Hname & H).
  apply bind_Normal in H as (amount & Hamount & H).
  exists item_id, item_name. repeat split; try assumption.
  - now apply Get_Normal in Hamount.
  - destruct (_ && _); [now injection H as <- | discriminate H].
Qed.

(** What [formatItem] parses converts, when it returns. *)
Lemma formatItem_converts (variant quantity lineItem result : value) :
  formatItem variant quantity lineItem = Normal result ->
  converts (field (field variant "price") "amount") = true
  /\ converts (allocated_amount (first_allocation lineItem)) = true.
Proof.
  intros H.
  assert (nullish variant = false) as Hv.
  { unfold formatItem in H. apply bind_Normal in H as (vp & Hvp & _).
    now apply Get_Normal in Hvp. }
  rewrite (formatItem_unfold _ _ _ Hv) in H.
  apply bind_Normal in H as (item_id & _ & H).
  apply bind_Normal in H as (item_name & _ & H).
  apply bind_Normal in H as (amount & Hamount & H).
  apply Get_Normal in Hamount as [_ ->].
  apply andb_true_iff. destruct (_ && _); [reflexivity | discriminate H].
Qed.

Lemma formatItem_intro (variant quantity lineItem item_id item_name : value) :
  nullish variant = false ->
  createItemId (product_of variant) variant = Normal item_id ->
  cleanProductName (field (product_of variant) "title") (field variant "title")
  = Normal item_name ->
  nullish (field variant "price") = false ->
  converts (field (field variant "price") "amount") = true ->
  converts (allocated_amount (first_allocation lineItem)) = true ->
  formatItem variant quantity lineItem
  = Normal (VObj (item_of variant quantity lineItem item_id item_name)).
Proof.
  intros Hv Hid Hname Hprice Hamount Hdiscount.
  rewrite (formatItem_unfold _ _ _ Hv), Hid, Hname, (Get_field _ _ Hprice).
  cbn [bind]. now rewrite Hamount, Hdiscount.
Qed.

(** *** Reading the fields of the record built by [formatItem] *)

Lemma with_category_lookup_ne (product : value) (i : nat)
    (item : gmap string value) (k : string) :
  k <> category_key i -> with_category product i item !! k = item !! k.
Proof.
  intros Hk. unfold with_category.
  destruct (ToBoolean _); [| reflexivity].
  now rewrite lookup_insert_ne.
Qed.

Lemma with_category_lookup_eq (product : value) (i : nat)
    (item : gmap string value) :
  item !! category_key i = None ->
  with_category product i item !! category_key i
  = if ToBoolean (nth_collection_title product i)
    then Some (nth_collection_title product i) else None.
Proof.
  intros Hnone. unfold with_category.
  destruct (ToBoolean _); [apply lookup_insert_eq | exact Hnone].
Qed.

Lemma with_category_dom (product : value) (i : nat) (item : gmap string value) :
  dom (with_category product i item) ⊆ {[ category_key i ]} ∪ dom item.
Proof.
  unfold with_category. destruct (ToBoolean _).
  - rewrite dom_insert. set_solver.
  - set_solver.
Qed.

Lemma with_discount_lookup_ne (lineItem : value) (item : gmap string value)
    (k : string) :
  k <> "discount" -> k <> "coupon" -> with_discount lineItem item !! k = item !! k.
Proof.
  intros Hd Hc. unfold with_discount.
  repeat (destruct (ToBoolean _)); rewrite ?lookup_insert_ne by congruence;
    reflexivity.
Qed.

Lemma with_discount_lookup_discount (lineItem : value) (item : gmap string value) :
  item !! "discount" = None ->
  with_discount lineItem item !! "discount"
  = let first := first_allocation lineItem in
    if ToBoolean first && ToBoolean (allocated_amount first)
    then Some (VNum (parsed (allocated_amount first))) else None.
Proof.
  intros Hnone. unfold with_discount. cbv zeta.
  destruct (ToBoolean (first_allocation lineItem)); [| exact Hnone].
  destruct (ToBoolean (allocated_amount _));
    destruct (ToBoolean (application_title _)); cbn [andb];
    rewrite ?(lookup_insert_ne _ "coupon" "discount") by discriminate;
    rewrite ?lookup_insert_eq; auto.
Qed.

Lemma with_discount_lookup_coupon (lineItem : value) (item : gmap string value) :
  item !! "coupon" = None ->
  with_discount lineItem item !! "coupon"
  = let first := first_allocation lineItem in
    if ToBoolean first && ToBoolean (application_title first)
    then Some (application_title first) else None.
Proof.
  intros Hnone. unfold with_discount. cbv zeta.
  destruct (ToBoolean (first_allocation lineItem)); [| exact Hnone].
  destruct (ToBoolean (allocated_amount _));
    destruct (ToBoolean (application_title _)); cbn [andb];
    rewrite ?lookup_insert_eq; auto;
    rewrite ?(lookup_insert_ne _ "discount" "coupon") by discriminate; auto.
Qed.

Lemma with_discount_dom (lineItem : value) (item : gmap string value) :
  dom (with_discount lineItem item) ⊆ {[ "discount"; "coupon" ]} ∪ dom item.
Proof.
  unfold with_discount.
  repeat (destruct (ToBoolean _)); rewrite ?dom_insert; set_solver.
Qed.

Lemma base_item_lookup (variant quantity item_id item_name : value) :
  let base := base_item variant quantity item_id item_name in
  let product := product_of variant in
  base !! "item_id" = Some item_id
  /\ base !! "item_name" = Some item_name
  /\ base !! "item_variant" = Some (field variant "title")
  /\ base !! "item_brand"
     = Some (or_else (field product "vendor") (VStr (FALLBACK_BRAND CONFIG)))
  /\ base !! "item_category" = Some (or_else (field product "type") (VStr ""))
  /\ base !! "price" = Some (VNum (parsed (field (field variant "price") "amount")))
  /\ base !! "quantity"
     = Some (match quantity with VUndef => VNum 1 | _ => quantity end).
Proof. repeat split. Qed.

Lemma base_item_dom (variant quantity item_id item_name : value) :
  dom (base_item variant quantity item_id item_name)
  = {[ "item_id"; "item_name"; "item_variant"; "item_brand"; "item_category";
       "price"; "quantity" ]}.
Proof. unfold base_item. cbv zeta. rewrite !dom_insert_L, dom_empty_L. set_solver. Qed.

Lemma base_item_lookup_None (variant quantity item_id item_name : value) (k : string) :
  k ∈ ({[ "item_category2"; "item_category3"; "item_category4"; "item_category5";
          "discount"; "coupon" ]} : gset string) ->
  base_item variant quantity item_id item_name !! k = None.
Proof.
  intros Hk. rewrite !elem_of_union, !elem_of_singleton in Hk.
  destruct Hk as [[[[[-> | ->] | ->] | ->] | ->] | ->]; reflexivity.
Qed.

(** The fields of the object literal survive the conditional additions. *)
Lemma item_of_lookup_fixed (variant quantity lineItem item_id item_name : value)
    (k : string) :
  k ∈ ({[ "item_id"; "item_name"; "item_variant"; "item_brand"; "item_category";
          "price"; "quantity" ]} : gset string) ->
  item_of variant quantity lineItem item_id item_name !! k
  = base_item variant quantity item_id item_name !! k.
Proof.
  intros Hk. unfold item_of. cbv zeta.
  rewrite !elem_of_union, !elem_of_singleton in Hk.
  destruct Hk as [[[[[[-> | ->] | ->] | ->] | ->] | ->] | ->];
    rewrite with_discount_lookup_ne, !with_category_lookup_ne by discriminate;
    reflexivity.
Qed.

Lemma item_of_lookup_category (variant quantity lineItem item_id item_name : value)
    (i : nat) :
  (i < 4)%nat ->
  item_of variant quantity lineItem item_id item_name !! category_key i
  = let t := nth_collection_title (product_of variant) i in
    if ToBoolean t then Some t else None.
Proof.
  intros Hi. unfold item_of. cbv zeta.
  rewrite with_discount_lookup_ne
    by (destruct i as [|[|[|[|]]]]; discriminate).
  destruct i as [|[|[|[|]]]]; try lia;
    rewrite ?with_category_lookup_ne by discriminate;
    (rewrite with_category_lookup_eq;
     [reflexivity
     | rewrite ?with_category_lookup_ne by discriminate;
       apply base_item_lookup_None; set_solver]).
Qed.

Lemma item_of_lookup_discount (variant quantity lineItem item_id item_name : value) :
  item_of variant quantity lineItem item_id item_name !! "discount"
  = let first := first_allocation lineItem in
    if ToBoolean first && ToBoolean (allocated_amount first)
    then Some (VNum (parsed (allocated_amount first))) else None.
Proof.
  unfold item_of. cbv zeta. apply with_discount_lookup_discount.
  rewrite !with_category_lookup_ne by discriminate.
  apply base_item_lookup_None. set_solver.
Qed.

Lemma item_of_lookup_coupon (variant quantity lineItem item_id item_name : value) :
  item_of variant quantity lineItem item_id item_name !! "coupon"
  = let first := first_allocation lineItem in
    if ToBoolean first && ToBoolean (application_title first)
    then Some (application_title first) else None.
Proof.
  unfold item_of. cbv zeta. apply with_discount_lookup_coupon.
  rewrite !with_category_lookup_ne by discriminate.
  apply base_item_lookup_None. set_solver.
Qed.

Lemma item_of_dom (variant quantity lineItem item_id item_name : value) :
  dom (item_of variant quantity lineItem item_id item_name) ⊆ item_fields.
Proof.
  unfold item_of. cbv zeta.
  etransitivity; [apply with_discount_dom |].
  apply union_least; [unfold item_fields; set_solver |].
  do 4 (etransitivity; [apply with_category_dom |];
        apply union_least; [unfold item_fields, category_key; set_solver |]).
  rewrite base_item_dom. unfold item_fields. set_solver.
Qed.

End Facts.

(** ** Suffixes *)

Module StringFacts.
Import JS.

Lemma length_append (a b : string) :
  String.length (a ++ b) = (String.length a + String.length b)%nat.
Proof. induction a as [|c a IH]; simpl; [reflexivity | now rewrite IH]. Qed.

Lemma substring_0_length (s : string) : substring 0 (String.length s) s = s.
Proof. induction s as [|c s IH]; simpl; [reflexivity | now rewrite IH]. Qed.

Lemma substring_append_l (a b : string) :
  substring 0 (String.length a) (a ++ b) = a.
Proof.
  induction a as [|c a IH]; simpl.
  - now destruct b.
  - now rewrite IH.
Qed.

Lemma substring_append_r (a b : string) (n : nat) :
  substring (String.length a) n (a ++ b) = substring 0 n b.
Proof. induction a as [|c a IH]; simpl; [reflexivity | exact IH]. Qed.

Lemma substring_split (s : string) (n : nat) :
  (n <= String.length s)%nat ->
  s = substring 0 n s ++ substring n (String.length s - n) s.
Proof.
  revert n. induction s as [|c s IH]; intros n Hn; simpl in *.
  - destruct n; reflexivity.
  - destruct n as [|n]; simpl.
    + now rewrite substring_0_length.
    + change (String c s = String c (substring 0 n s ++ substring n (String.length s - n) s)).
      f_equal. apply IH. lia.
Qed.

Lemma endsWith_append (base suffix : string) :
  endsWith (base ++ suffix) suffix = true.
Proof.
  unfold endsWith. rewrite length_append.
  replace (String.length base + String.length suffix - String.length suffix)%nat
    with (String.length base) by lia.
  rewrite substring_append_r, substring_0_length, String.eqb_refl.
  rewrite andb_true_r. apply Nat.leb_le. lia.
Qed.

Lemma endsWith_inv (s suffix : string) :
  endsWith s suffix = true -> exists base, s = base ++ suffix.
Proof.
  unfold endsWith. intros H. apply andb_true_iff in H as [Hle Heq].
  apply Nat.leb_le in Hle. apply String.eqb_eq in Heq.
  exists (substring 0 (String.length s - String.length suffix) s).
  pose proof (substring_split s (String.length s - String.length suffix)) as Hs.
  replace (String.length s - (String.length s - String.length suffix))%nat
    with (String.length suffix) in Hs by lia.
  rewrite Heq in Hs. apply Hs. lia.
Qed.

Lemma slice_drop_suffix (base suffix : string) :
  suffix <> "" ->
  slice (base ++ suffix) 0 (- Z.of_nat (String.length suffix)) = base.
Proof.
  intros Hne. unfold slice. rewrite length_append.
  assert (0 < String.length suffix)%nat as Hpos.
  { destruct suffix; [congruence | simpl; lia]. }
  replace (0 <? 0) with false by reflexivity.
  replace (- Z.of_nat (String.length suffix) <? 0) with true
    by (symmetry; apply Z.ltb_lt; lia).
  rewrite Z.min_l by lia.
  rewrite Z.max_l by lia.
  rewrite Z.max_l by lia.
  replace (Z.to_nat 0) with 0%nat by reflexivity.
  replace (Z.to_nat _) with (String.length base) by lia.
  apply substring_append_l.
Qed.

End StringFacts.

(** ** Name cleaning *)

Module NameCleaning.
Import JS Pixel Spec Facts StringFacts.

Lemma append_not_empty (a b : string) : b <> "" -> a ++ b <> "".
Proof. intros Hb H. destruct a; simpl in H; [contradiction | discriminate]. Qed.

Lemma cleanProductName_strings (productTitle variantTitle : string) :
  variantTitle <> "" -> productTitle <> "" ->
  cleanProductName (VStr productTitle) (VStr variantTitle)
  = if endsWith productTitle (" - " ++ variantTitle)
    then Normal (VStr (slice productTitle 0
                         (- Z.of_nat (String.length (" - " ++ variantTitle)))))
    else Normal (VStr productTitle).
Proof.
  intros Hv Hp. unfold cleanProductName.
  apply String.eqb_neq in Hv, Hp. cbn [ToBoolean ToString bind]. rewrite Hv, Hp.
  reflexivity.
Qed.

(** With a variant title that is absent, or falsy in any other way, the
    guard returns the title as it is. *)
Lemma cleanProductName_falsy_variant (productTitle variantTitle : value) :
  ToBoolean variantTitle = false ->
  cleanProductName productTitle variantTitle = Normal productTitle.
Proof. intros H. unfold cleanProductName. now rewrite H. Qed.

(** With an empty variant title the guard returns the title as it is, even
    when it ends in [" - "]. *)
Lemma cleanProductName_empty_variant (productTitle : string) :
  cleanProductName (VStr productTitle) (VStr "") = Normal (VStr productTitle).
Proof. reflexivity. Qed.

(** C3, as stated, fails for an empty variant title: ["Shirt - "] ends
    with [" - "] followed by nothing, and is returned unchanged. *)
Lemma strips_exact_suffix_fails_on_empty_variant :
  ~ strips_exact_suffix "Shirt - " "".
Proof.
  intros [Hstrip _]. specialize (Hstrip "Shirt" eq_refl).
  rewrite cleanProductName_empty_variant in Hstrip. discriminate.
Qed.

(** C3, amended. For every product title and every non-empty variant title,
    name cleaning strips the literal trailing suffix [" - " ++ variantTitle]
    once when the title ends with it and otherwise returns the title
    unchanged.  When the variant title is empty, or absent ([undefined] or
    [null], or falsy in any other way), the title is returned unchanged,
    even when it ends with [" - "].  In particular the three sample titles
    clean as the specification says. *)
Theorem cleanProductName_exact_suffix (productTitle variantTitle : string) :
  (variantTitle <> "" -> strips_exact_suffix productTitle variantTitle)
  /\ (variantTitle = "" ->
      cleanProductName (VStr productTitle) (VStr variantTitle)
      = Normal (VStr productTitle))
  /\ (forall absent : value,
        nullish absent = true \/ ToBoolean absent = false ->
        cleanProductName (VStr productTitle) absent = Normal (VStr productTitle))
  /\ cleanProductName (VStr "Shirt - Large") (VStr "Large") = Normal (VStr "Shirt")
  /\ cleanProductName (VStr "Shirt") (VStr "Large") = Normal (VStr "Shirt")
  /\ cleanProductName (VStr "Shirt - Large - XL") (VStr "Large")
     = Normal (VStr "Shirt - Large - XL").
Proof.
  split; [| split; [| split; [| repeat split; reflexivity]]].
  - intros Hv. split.
    + intros base ->.
      assert (" - " ++ variantTitle <> "") as Hsuffix by discriminate.
      rewrite cleanProductName_strings;
        [| exact Hv | apply append_not_empty; exact Hsuffix].
      rewrite endsWith_append, slice_drop_suffix by exact Hsuffix.
      reflexivity.
    + intros Hnone.
      destruct (String.eqb productTitle "") eqn:Hp.
      * apply String.eqb_eq in Hp. subst productTitle.
        unfold cleanProductName. cbn [ToBoolean]. rewrite String.eqb_refl.
        rewrite orb_true_r. reflexivity.
      * apply String.eqb_neq in Hp.
        rewrite cleanProductName_strings by assumption.
        destruct (endsWith productTitle (" - " ++ variantTitle)) eqn:He;
          [| reflexivity].
        apply endsWith_inv in He as [base Hbase].
        exfalso. exact (Hnone base Hbase).
  - intros ->. apply cleanProductName_empty_variant.
  - intros absent Habsent. apply cleanProductName_falsy_variant.
    destruct Habsent as [Hnullish | Hfalsy]; [| exact Hfalsy].
    destruct absent; try discriminate Hnullish; reflexivity.
Qed.

End NameCleaning.

(** ** Item identity *)

Module Identity.
Import JS Pixel Spec Facts.

Lemma createItemId_unfold (product variant : value) :
  nullish product = false -> nullish variant = false ->
  absent_or_string (field variant "sku") = true ->
  createItemId product variant
  = if negb (String.eqb (trimmed_sku (field variant "sku")) "")
    then Normal (VStr ("SKU_" ++ string_of (field variant "sku")))
    else if converts (field product "id") && converts (field variant "id")
         then Normal (VStr ("shopify_DE_" ++ string_of (field product "id")
                            ++ "_" ++ string_of (field variant "id")))
         else Throw not_primitive.
Proof.
  intros Hp Hv Hsku. unfold createItemId.
  rewrite !(Get_field _ _ Hv), (Get_field _ _ Hp). cbn [bind].
  assert ((let* pid := ToString (field product "id") in
           let* vid := ToString (field variant "id") in
           Normal (VStr ("shopify_DE_" ++ pid ++ "_" ++ vid)))
          = if converts (field product "id") && converts (field variant "id")
            then Normal (VStr ("shopify_DE_" ++ string_of (field product "id")
                               ++ "_" ++ string_of (field variant "id")))
            else Throw not_primitive) as Hfallback.
  { rewrite ToString_spec.
    destruct (converts (field product "id")); [| reflexivity].
    cbn [bind andb]. rewrite ToString_spec.
    destruct (converts (field variant "id")); reflexivity. }
  destruct (field variant "sku") as [| | | |s| |]; try discriminate Hsku;
    cbn [bind ToBoolean trimmed_sku]; try exact Hfallback.
  destruct (String.eqb s "") eqn:Hs.
  - apply String.eqb_eq in Hs. subst s. exact Hfallback.
  - cbn [negb bind]. destruct (String.eqb (trim s) ""); [exact Hfallback | reflexivity].
Qed.

(** C2. For a product and a variant whose SKU is a string or absent, the
    identity is ["SKU_"] followed by the SKU if and only if the SKU is
    non-empty after trimming white space; otherwise it is the fixed prefix
    ["shopify_DE"] followed by ["_<product.id>_<variant.id>"], the two ids
    as the strings they convert to.  (An id that does not convert to a
    string, an object with a [toString] property of its own, makes the
    template literal throw.) *)
Theorem createItemId_identity (product variant : value) :
  nullish product = false -> nullish variant = false ->
  absent_or_string (field variant "sku") = true ->
  let sku := field variant "sku" in
  (createItemId product variant = Normal (VStr ("SKU_" ++ string_of sku))
   <-> trimmed_sku sku <> "")
  /\ (forall s, sku = VStr s -> trim s <> "" ->
      createItemId product variant = Normal (VStr ("SKU_" ++ s)))
  /\ (trimmed_sku sku = "" ->
      converts (field product "id") = true ->
      converts (field variant "id") = true ->
      createItemId product variant
      = Normal (VStr ("shopify_DE" ++ "_" ++ string_of (field product "id")
                      ++ "_" ++ string_of (field variant "id"))))
  /\ (trimmed_sku sku = "" ->
      converts (field product "id") = false
      \/ converts (field variant "id") = false ->
      createItemId product variant = Throw not_primitive).
Proof.
  intros Hp Hv Hsku sku.
  pose proof (createItemId_unfold product variant Hp Hv Hsku) as Hid.
  fold sku in Hid.
  destruct (String.eqb (trimmed_sku sku) "") eqn:Ht; cbn [negb] in Hid.
  - apply String.eqb_eq in Ht. repeat split.
    + rewrite Hid. intros H. destruct (_ && _); discriminate H.
    + intros H. contradiction.
    + intros s Hs Hne. rewrite Hs in Ht. contradiction.
    + intros _ Hpid Hvid. rewrite Hid, Hpid, Hvid. reflexivity.
    + intros _ [Hnone | Hnone]; rewrite Hid, Hnone, ?andb_false_r; reflexivity.
  - apply String.eqb_neq in Ht. repeat split.
    + intros _. exact Ht.
    + intros _. exact Hid.
    + intros s Hs _. rewrite Hid, Hs. reflexivity.
    + intros H. contradiction.
    + intros H. contradiction.
Qed.

Lemma createItemId_identity_witness :
  createItemId Samples.shirt (Samples.shirt_large (VStr " AB-1 ") "10.00")
  = Normal (VStr "SKU_ AB-1 ")
  /\ createItemId Samples.shirt (Samples.shirt_large (VStr "  ") "10.00")
     = Normal (VStr "shopify_DE_7001_42").
Proof.
  split.
  - apply (createItemId_identity Samples.shirt
             (Samples.shirt_large (VStr " AB-1 ") "10.00") eq_refl eq_refl eq_refl).
    + reflexivity.
    + vm_compute. discriminate.
  - apply (createItemId_identity Samples.shirt
             (Samples.shirt_large (VStr "  ") "10.00") eq_refl eq_refl eq_refl);
      reflexivity.
Defined.

End Identity.

(** ** Categories *)

Module Categories.
Import JS Pixel Spec Facts.

(** C1, as stated, fails when a collection has an empty title: the mug is
    in two collections, the first one untitled, and its item carries
    [item_category3] without [item_category2]. *)
Lemma categories_follow_length_fails_on_empty_title :
  ~ categories_follow_length Samples.mug_blue VUndef VUndef.
Proof.
  intros Hclaim.
  pose (item := item_of Samples.mug_blue VUndef VUndef (VStr "SKU_MUG-1") (VStr "Mug")).
  assert (formatItem Samples.mug_blue VUndef VUndef = Normal (VObj item)) as Hitem
    by (apply formatItem_intro; reflexivity).
  destruct (Hclaim item [Samples.collection ""; Samples.collection "Sale"]
              Hitem eq_refl) as (_ & Hcat & _).
  specialize (Hcat 0%nat ltac:(lia)). unfold item in Hcat.
  rewrite (item_of_lookup_category _ _ _ _ _ 0%nat) in Hcat by lia.
  discriminate Hcat.
Qed.

(** C1, amended. Every item the formatter produces has [item_category], the
    product's type or the empty string when the type is absent or empty (a
    string whenever the type is a string or absent).  For each of the first
    four positions of the product's collections, the matching field among
    [item_category2] .. [item_category5] is present exactly when there is a
    collection at that position with a non-empty title, and then carries
    that title; so for collections that all have a title, exactly the first
    min(k,4) fields are present, in order.  No other category field is ever
    emitted. *)
Theorem formatItem_categories (variant quantity lineItem : value)
    (item : gmap string value) :
  formatItem variant quantity lineItem = Normal (VObj item) ->
  let product := product_of variant in
  item !! "item_category" = Some (or_else (field product "type") (VStr ""))
  /\ (absent_or_string (field product "type") = true ->
      exists s, item !! "item_category" = Some (VStr s))
  /\ (forall i, (i < 4)%nat ->
        item !! category_key i
        = let t := nth_collection_title product i in
          if ToBoolean t then Some t else None)
  /\ (forall cs,
        field product "collections" = VArr cs ->
        Forall (fun c => ToBoolean (field c "title") = true) (take 4 cs) ->
        forall i, (i < 4)%nat ->
          item !! category_key i = (fun c => field c "title") <$> cs !! i)
  /\ dom item ⊆ item_fields.
Proof.
  intros Hitem product.
  apply formatItem_Normal in Hitem as (_ & item_id & item_name & _ & _ & _ & Hitem).
  injection Hitem as ->.
  assert (item_of variant quantity lineItem item_id item_name !! "item_category"
          = Some (or_else (field product "type") (VStr ""))) as Hcategory.
  { rewrite item_of_lookup_fixed by set_solver.
    apply (base_item_lookup variant quantity item_id item_name). }
  repeat split.
  - exact Hcategory.
  - intros Htype. rewrite Hcategory. unfold or_else.
    destruct (field product "type") as [| | | |s| |]; try discriminate Htype;
      cbn [ToBoolean]; eauto.
    destruct (negb (String.eqb s "")); eauto.
  - intros i Hi. now apply item_of_lookup_category.
  - intros cs Hcs Htitles i Hi.
    rewrite item_of_lookup_category by exact Hi. cbv zeta.
    unfold nth_collection_title. fold product. rewrite Hcs.
    unfold index, GetIndex.
    destruct (cs !! i) as [c|] eqn:Hc;
      cbn [default from_option fmap option_fmap option_map]; unfold id.
    + assert (take 4 cs !! i = Some c) as Htake
        by (rewrite lookup_take_lt by lia; exact Hc).
      rewrite (proj1 (Forall_lookup _ _) Htitles i c Htake). reflexivity.
    + reflexivity.
  - apply item_of_dom.
Qed.

Lemma formatItem_categories_witness :
  exists item,
    formatItem (Samples.shirt_large (VStr "AB-1") "10.00") VUndef VUndef
    = Normal (VObj item)
    /\ item !! "item_category" = Some (VStr "Apparel")
    /\ item !! "item_category2" = Some (VStr "Summer")
    /\ item !! "item_category3" = Some (VStr "Sale")
    /\ item !! "item_category4" = None
    /\ item !! "item_category5" = None.
Proof.
  exists (item_of (Samples.shirt_large (VStr "AB-1") "10.00") VUndef VUndef
            (VStr "SKU_AB-1") (VStr "Shirt")).
  assert (formatItem (Samples.shirt_large (VStr "AB-1") "10.00") VUndef VUndef
          = Normal (VObj (item_of (Samples.shirt_large (VStr "AB-1") "10.00")
                            VUndef VUndef (VStr "SKU_AB-1") (VStr "Shirt"))))
    as Hitem by (apply Facts.formatItem_intro; reflexivity).
  destruct (formatItem_categories _ _ _ _ Hitem) as (Hcategory & _ & Hcat & _).
  split; [exact Hitem |].
  split; [exact Hcategory |].
  split; [exact (Hcat 0%nat ltac:(lia)) |].
  split; [exact (Hcat 1%nat ltac:(lia)) |].
  split; [exact (Hcat 2%nat ltac:(lia)) |].
  exact (Hcat 3%nat ltac:(lia)).
Defined.

End Categories.

(** ** Discount enrichment *)

Module Discounts.
Import JS Pixel Spec Facts.

(** C8, as stated, fails on an allocation of amount zero: the amount is
    numeric, and no discount is set. *)
Lemma discount_follows_presence_fails_on_zero :
  ~ discount_follows_presence
      (Samples.shirt_large (VStr "AB-1") "10.00") (VNum 1) Samples.free_gift_line.
Proof.
  intros Hclaim.
  pose (item := item_of (Samples.shirt_large (VStr "AB-1") "10.00") (VNum 1)
                  Samples.free_gift_line (VStr "SKU_AB-1") (VStr "Shirt")).
  assert (formatItem (Samples.shirt_large (VStr "AB-1") "10.00") (VNum 1)
            Samples.free_gift_line = Normal (VObj item)) as Hitem
    by (apply formatItem_intro; reflexivity).
  destruct (Hclaim item Hitem) as [[_ Hdiscount] _].
  unfold item in Hdiscount. rewrite item_of_lookup_discount in Hdiscount.
  destruct (Hdiscount eq_refl) as [x Hx].
  discriminate Hx.
Qed.

(** C8, amended. Of the discount allocations of the line item given as
    context only the first is read.  The discount is set, to the parsed
    amount, exactly when that first entry is there and its amount is truthy
    (a non-empty string, or a number other than zero and NaN); the coupon is
    set, to the title, exactly when that first entry is there and its
    discount application has a non-empty title.  The two are independent,
    and neither is set without a line item or without a first
    allocation. *)
Theorem formatItem_discount (variant quantity lineItem : value)
    (item : gmap string value) :
  formatItem variant quantity lineItem = Normal (VObj item) ->
  let first := first_allocation lineItem in
  item !! "discount"
  = (if ToBoolean first && ToBoolean (allocated_amount first)
     then Some (VNum (parsed (allocated_amount first))) else None)
  /\ item !! "coupon"
     = (if ToBoolean first && ToBoolean (application_title first)
        then Some (application_title first) else None)
  /\ (forall entry rest,
        field lineItem "discountAllocations" = VArr (entry :: rest) ->
        first = entry)
  /\ (nullish lineItem = true \/ nullish first = true ->
      item !! "discount" = None /\ item !! "coupon" = None).
Proof.
  intros Hitem first.
  apply formatItem_Normal in Hitem as (_ & item_id & item_name & _ & _ & _ & Hitem).
  injection Hitem as ->.
  rewrite item_of_lookup_discount, item_of_lookup_coupon. cbv zeta. fold first.
  repeat split.
  - intros entry rest Hallocations. unfold first, first_allocation.
    rewrite Hallocations. reflexivity.
  - assert (ToBoolean first = false) as ->; [| reflexivity].
    destruct H as [H | H].
    + unfold first, first_allocation. now rewrite (field_nullish _ _ H).
    + destruct first; try discriminate H; reflexivity.
  - assert (ToBoolean first = false) as ->; [| reflexivity].
    destruct H as [H | H].
    + unfold first, first_allocation. now rewrite (field_nullish _ _ H).
    + destruct first; try discriminate H; reflexivity.
Qed.

Lemma formatItem_discount_witness :
  exists item,
    formatItem (Samples.shirt_large (VStr "AB-1") "10.00") (VNum 2)
               Samples.discounted_line = Normal (VObj item)
    /\ item !! "discount" = Some (VNum 2.5)
    /\ item !! "coupon" = Some (VStr "SAVE").
Proof.
  exists (item_of (Samples.shirt_large (VStr "AB-1") "10.00") (VNum 2)
            Samples.discounted_line (VStr "SKU_AB-1") (VStr "Shirt")).
  assert (formatItem (Samples.shirt_large (VStr "AB-1") "10.00") (VNum 2)
            Samples.discounted_line
          = Normal (VObj (item_of (Samples.shirt_large (VStr "AB-1") "10.00")
                            (VNum 2) Samples.discounted_line
                            (VStr "SKU_AB-1") (VStr "Shirt"))))
    as Hitem by (apply Facts.formatItem_intro; reflexivity).
  destruct (formatItem_discount _ _ _ _ Hitem) as (Hdiscount & Hcoupon & _).
  split; [exact Hitem |].
  split; [exact Hdiscount | exact Hcoupon].
Defined.

End Discounts.

(** ** A variant without a product *)

Module Standalone.
Import JS Pixel Spec Facts StringFacts.

Lemma endsWith_longer (s suffix : string) :
  (String.length s < String.length suffix)%nat -> endsWith s suffix = false.
Proof.
  intros Hlt. unfold endsWith.
  replace (String.length suffix <=? String.length s)%nat with false
    by (symmetry; apply Nat.leb_gt; exact Hlt).
  reflexivity.
Qed.

(** A title is never its own variant suffix. *)
Lemma cleanProductName_same (title name : value) :
  cleanProductName title title = Normal name -> name = title.
Proof.
  unfold cleanProductName.
  destruct (ToBoolean title) eqn:Htruthy; cbn [negb orb].
  - destruct title as [| | | |s| |];
      try (destruct (ToString _); discriminate).
    cbn [ToString bind]. rewrite endsWith_longer.
    + now intros [= <-].
    + rewrite length_append. simpl. lia.
  - now intros [= <-].
Qed.

Lemma createItemId_fallback (product variant item_id : value) :
  createItemId product variant = Normal item_id ->
  trimmed_sku (field variant "sku") = "" ->
  item_id = VStr ("shopify_DE_" ++ string_of (field product "id")
                  ++ "_" ++ string_of (field variant "id")).
Proof.
  unfold createItemId. intros H Hsku.
  apply bind_Normal in H as (sku & Hget & H).
  apply Get_Normal in Hget as [Hv ->].
  apply bind_Normal in H as (use_sku & Huse & H).
  assert (use_sku = false) as ->.
  { destruct (ToBoolean (field variant "sku")); [| now injection Huse].
    destruct (field variant "sku"); try discriminate Huse.
    cbn [trimmed_sku] in Hsku. rewrite Hsku in Huse. now injection Huse. }
  apply bind_Normal in H as (pid & Hpid & H).
  apply bind_Normal in H as (p & Hp & H).
  apply bind_Normal in H as (vid & Hvid & H).
  apply bind_Normal in H as (v & Hv' & H).
  apply Get_Normal in Hpid as [_ ->]. apply Get_Normal in Hvid as [_ ->].
  apply ToString_Normal in Hp as [_ ->]. apply ToString_Normal in Hv' as [_ ->].
  now injection H.
Qed.

(** C9. When the variant has no product back-reference the variant stands
    in for the product: the identity is [createItemId(variant, variant)],
    whose fallback is ["shopify_DE_<variant.id>_<variant.id>"], and the
    name, the brand and the category are read from the variant's own title,
    vendor and type. *)
Theorem formatItem_without_product (variant quantity lineItem : value)
    (item : gmap string value) :
  formatItem variant quantity lineItem = Normal (VObj item) ->
  ToBoolean (field variant "product") = false ->
  (exists item_id, createItemId variant variant = Normal item_id
                   /\ item !! "item_id" = Some item_id)
  /\ (trimmed_sku (field variant "sku") = "" ->
      item !! "item_id"
      = Some (VStr ("shopify_DE" ++ "_" ++ string_of (field variant "id")
                    ++ "_" ++ string_of (field variant "id"))))
  /\ item !! "item_name" = Some (field variant "title")
  /\ item !! "item_brand"
     = Some (or_else (field variant "vendor") (VStr (FALLBACK_BRAND CONFIG)))
  /\ item !! "item_category" = Some (or_else (field variant "type") (VStr "")).
Proof.
  intros Hitem Hnone.
  apply formatItem_Normal in Hitem as (_ & item_id & item_name & Hid & Hname & _ & Hitem).
  injection Hitem as ->.
  assert (product_of variant = variant) as Hproduct
    by (unfold product_of, or_else; now rewrite Hnone).
  rewrite Hproduct in Hid, Hname.
  apply cleanProductName_same in Hname as ->.
  destruct (base_item_lookup variant quantity item_id (field variant "title"))
    as (Bid & Bname & _ & Bbrand & Bcategory & _).
  rewrite Hproduct in Bbrand, Bcategory.
  rewrite !item_of_lookup_fixed by set_solver.
  repeat split; try assumption.
  - exists item_id. split; assumption.
  - intros Hsku. rewrite Bid. f_equal.
    now apply createItemId_fallback.
Qed.

Lemma formatItem_without_product_witness :
  exists item,
    formatItem Samples.gift_card VUndef VUndef = Normal (VObj item)
    /\ item !! "item_id" = Some (VStr "shopify_DE_77_77")
    /\ item !! "item_name" = Some (VStr "Gift card")
    /\ item !! "item_brand" = Some (VStr "Acme")
    /\ item !! "item_category" = Some (VStr "Cards").
Proof.
  exists (item_of Samples.gift_card VUndef VUndef
            (VStr "shopify_DE_77_77") (VStr "Gift card")).
  assert (formatItem Samples.gift_card VUndef VUndef
          = Normal (VObj (item_of Samples.gift_card VUndef VUndef
                            (VStr "shopify_DE_77_77") (VStr "Gift card"))))
    as Hitem by (apply Facts.formatItem_intro; reflexivity).
  destruct (formatItem_without_product _ _ _ _ Hitem eq_refl)
    as (_ & Hid & Hname & Hbrand & Hcategory).
  split; [exact Hitem |].
  split; [exact (Hid eq_refl) |].
  split; [exact Hname |].
  split; [exact Hbrand | exact Hcategory].
Defined.

End Standalone.

(** ** The collection formatter *)

Module Collection.
Import JS Pixel Spec Facts.

Lemma mapM_Normal {A B} (f : A -> completion B) (l : list A) (bs : list B) :
  mapM f l = Normal bs ->
  length bs = length l
  /\ forall i a, l !! i = Some a -> exists b, bs !! i = Some b /\ f a = Normal b.
Proof.
  revert bs. induction l as [|a l IH]; intros bs H; simpl in H.
  - injection H as <-. split; [reflexivity |]. intros i a Hi. discriminate Hi.
  - apply bind_Normal in H as (b & Hb & H).
    apply bind_Normal in H as (bs' & Hbs' & H).
    injection H as <-. destruct (IH bs' Hbs') as [Hlen Hnth].
    split; [simpl; now rewrite Hlen |].
    intros [|i] a' Hi; simpl in Hi.
    + injection Hi as <-. exists b. split; [reflexivity | exact Hb].
    + exact (Hnth i a' Hi).
Qed.

Lemma mapM_total {A B} (f : A -> completion B) (l : list A) :
  Forall (fun a => exists b, f a = Normal b) l -> exists bs, mapM f l = Normal bs.
Proof.
  induction 1 as [|a l [b Hb] _ [bs Hbs]]; simpl.
  - eauto.
  - rewrite Hb, Hbs. simpl. eauto.
Qed.

Lemma cleanProductName_total (productTitle variantTitle : value) :
  absent_or_string productTitle = true ->
  converts variantTitle = true ->
  exists name, cleanProductName productTitle variantTitle = Normal name.
Proof.
  intros Htitle Hconv. unfold cleanProductName. rewrite ToString_spec, Hconv.
  destruct productTitle as [| | | |title| |]; try discriminate Htitle;
    cbn [ToBoolean negb bind]; rewrite ?orb_true_r; eauto.
  destruct (negb (ToBoolean variantTitle) || negb (negb (String.eqb title "")));
    [eauto |].
  destruct (endsWith _ _); eauto.
Qed.

(** [formatItem] returns an item on every variant of the data model, with
    or without a line item of the data model as context. *)
Lemma formatItem_total (variant quantity lineItem : value) :
  is_variant variant = true ->
  converts (allocated_amount (first_allocation lineItem)) = true ->
  exists item, formatItem variant quantity lineItem = Normal (VObj item).
Proof.
  unfold is_variant. rewrite !andb_true_iff, !negb_true_iff.
  intros [[[[[[[Hv Hsku] Htitle] Hprice] Hpid] Hvid] Hvtitle] Hamount] Hdiscount.
  pose proof (Identity.createItemId_unfold (product_of variant) variant
                (product_of_not_nullish _ Hv) Hv Hsku) as Hid.
  rewrite Hpid, Hvid in Hid. cbn [andb] in Hid.
  destruct (cleanProductName_total (field (product_of variant) "title")
              (field variant "title") Htitle Hvtitle) as [name Hname].
  destruct (negb _) in Hid; eexists;
    (apply formatItem_intro;
     [exact Hv | exact Hid | exact Hname | exact Hprice | exact Hamount
     | exact Hdiscount]).
Qed.

(** The callback of [lineItems.map], on a line that is there. *)
Lemma format_line (lineItem : value) :
  nullish lineItem = false ->
  (let* m := Get lineItem "merchandise" in
   let* variant := if ToBoolean m then Normal m else Get lineItem "variant" in
   let* quantity := Get lineItem "quantity" in
   formatItem variant quantity lineItem)
  = formatItem (line_variant lineItem) (field lineItem "quantity") lineItem.
Proof.
  intros Hli. rewrite !(Get_field _ _ Hli). cbn [bind].
  unfold line_variant, or_else.
  destruct (ToBoolean (field lineItem "merchandise")); reflexivity.
Qed.

Lemma format_line_Normal (lineItem item : value) :
  (let* m := Get lineItem "merchandise" in
   let* variant := if ToBoolean m then Normal m else Get lineItem "variant" in
   let* quantity := Get lineItem "quantity" in
   formatItem variant quantity lineItem) = Normal item ->
  formatItem (line_variant lineItem) (field lineItem "quantity") lineItem
  = Normal item.
Proof.
  intros H. rewrite <- format_line; [exact H |].
  apply bind_Normal in H as (m & Hm & _). now apply Get_Normal in Hm.
Qed.

Lemma formatItems_not_array (lineItems : value) :
  isArray lineItems = false -> formatItems lineItems = Normal (VArr []).
Proof.
  intros H. unfold formatItems. rewrite H. cbn [negb]. now rewrite orb_true_r.
Qed.

Lemma formatItems_shape (lines : list value) (result : value) :
  formatItems (VArr lines) = Normal result ->
  exists items,
    result = VArr items
    /\ length items = length lines
    /\ forall i lineItem,
         lines !! i = Some lineItem ->
         exists item,
           items !! i = Some item
           /\ formatItem (line_variant lineItem) (field lineItem "quantity") lineItem
              = Normal item.
Proof.
  unfold formatItems. cbn [ToBoolean isArray negb orb]. intros H.
  apply bind_Normal in H as (items & Hitems & H). injection H as <-.
  apply mapM_Normal in Hitems as [Hlen Hnth].
  exists items. repeat split; [exact Hlen |].
  intros i lineItem Hi. destruct (Hnth i lineItem Hi) as (item & Hitem & Hfmt).
  exists item. split; [exact Hitem |]. now apply format_line_Normal.
Qed.

Lemma formatItems_returns (lines : list value) :
  Forall (fun lineItem => is_line_item lineItem = true) lines ->
  exists items, formatItems (VArr lines) = Normal (VArr items).
Proof.
  intros Hlines. unfold formatItems. cbn [ToBoolean isArray negb orb].
  match goal with
  | |- context [mapM ?f lines] => destruct (mapM_total f lines) as [items Hitems]
  end.
  - eapply Forall_impl; [exact Hlines |].
    intros lineItem Hline. cbv beta in Hline |- *.
    unfold is_line_item in Hline.
    apply andb_true_iff in Hline as [Hline Hdiscount].
    apply andb_true_iff in Hline as [Hli Hvariant].
    apply negb_true_iff in Hli.
    rewrite (format_line _ Hli).
    destruct (formatItem_total (line_variant lineItem)
                (field lineItem "quantity") lineItem Hvariant Hdiscount)
      as [item Hitem].
    eauto.
  - exists items. now rewrite Hitems.
Qed.

(** C4. On anything that is not an array (a missing argument, [null], a
    string, ...) the collection formatter returns the empty sequence.  On an
    array, whenever it returns it returns an array of the same length whose
    element at each position is [formatItem] applied to that line's variant
    ([merchandise], else [variant]), the line's quantity and the line
    itself; and it does return on every array of line items of the data
    model, whose ids, titles and amounts are values that convert to
    strings. *)
Theorem formatItems_contract (lineItems : value) :
  match lineItems with
  | VArr lines =>
      (forall result,
         formatItems lineItems = Normal result ->
         exists items,
           result = VArr items
           /\ length items = length lines
           /\ forall i lineItem,
                lines !! i = Some lineItem ->
                exists item,
                  items !! i = Some item
                  /\ formatItem (line_variant lineItem)
                                (field lineItem "quantity") lineItem
                     = Normal item)
      /\ (Forall (fun lineItem => is_line_item lineItem = true) lines ->
          exists items, formatItems lineItems = Normal (VArr items))
  | _ => formatItems lineItems = Normal (VArr [])
  end.
Proof.
  destruct lineItems as [| |b|x|s|lines|m];
    try (apply formatItems_not_array; reflexivity).
  split; [apply formatItems_shape | apply formatItems_returns].
Qed.

(** The two degenerate inputs of the specification, and a cart of two
    lines. *)
Lemma formatItems_contract_witness :
  formatItems VUndef = Normal (VArr [])
  /\ formatItems (VStr "not-an-array") = Normal (VArr [])
  /\ exists item1 item2,
       formatItems (VArr Samples.cart_lines) = Normal (VArr [item1; item2]).
Proof.
  split; [exact (formatItems_contract VUndef) |].
  split; [exact (formatItems_contract (VStr "not-an-array")) |].
  destruct (formatItems_contract (VArr Samples.cart_lines)) as [Hshape Htotal].
  destruct (Htotal ltac:(repeat constructor)) as [items Hitems].
  destruct (Hshape _ Hitems) as (items' & Heq & Hlen & _).
  injection Heq as <-.
  destruct items as [|item1 [|item2 [|]]]; try discriminate Hlen.
  exists item1, item2. exact Hitems.
Defined.

End Collection.

(** ** Fault isolation in the dispatcher *)

Module Dispatcher.
Import JS Pixel Spec Facts.

Section Isolation.
Context {St : Type}.

(** One dispatch of an event whose name converts to a string, as every
    string does: it always completes normally; the sink is called once when
    [window.gtag] is a function, and a fault of that call ends in the
    console. *)
Lemma sendEvent_spec (eventName params : value) (w : world St) :
  converts eventName = true ->
  exists w',
    sendEvent eventName params w = (w', Normal tt)
    /\ window_gtag w' = window_gtag w
    /\ (forall f, window_gtag w = GFunction f ->
        gtag_calls w' = (gtag_calls w ++ [event_call (eventName, params)])%list
        /\ sink_state w' = fst (f (sink_state w) (event_call (eventName, params)))
        /\ console w'
           = (console w ++
              match snd (f (sink_state w) (event_call (eventName, params))) with
              | Throw error =>
                  [ConsoleError ("[Web Pixel] " ++ string_of eventName) error]
              | Normal _ => []
              end)%list)
    /\ (forall v, window_gtag w = GData v -> w' = w).
Proof.
  intros Hname.
  unfold sendEvent, try_catch, bindM, liftM, typeof_gtag_is_function, call_gtag,
    console_write, retM, event_call.
  rewrite ToString_spec, Hname.
  cbn [DEBUG_MODE CONFIG fst snd].
  destruct (window_gtag w) as [f|v] eqn:Hgtag; cbv beta iota; rewrite ?Hgtag.
  - destruct (f (sink_state w) [VStr "event"; eventName; params]) as [s [r|error]] eqn:Hcall.
    + eexists. split; [reflexivity |]. cbn. split; [reflexivity |]. split.
      * intros f' [= <-]. rewrite Hcall. cbn. now rewrite app_nil_r.
      * intros v [=].
    + eexists. split; [reflexivity |]. cbn. split; [reflexivity |]. split.
      * intros f' [= <-]. rewrite Hcall. cbn. repeat split.
      * intros v [=].
  - exists w. split; [reflexivity |]. split; [exact Hgtag |]. split.
    + intros f [=].
    + reflexivity.
Qed.

Lemma dispatch_all_spec (events : list (value * value)) (w : world St) :
  Forall (fun event => converts (fst event) = true) events ->
  exists w',
    dispatch_all events w = (w', Normal tt)
    /\ window_gtag w' = window_gtag w
    /\ (forall f, window_gtag w = GFunction f ->
        gtag_calls w' = (gtag_calls w ++ map event_call events)%list).
Proof.
  intros Hnames. revert w.
  induction Hnames as [|[eventName params] events Hname _ IH]; intros w.
  - exists w. repeat split. intros f _. cbn. now rewrite app_nil_r.
  - destruct (sendEvent_spec eventName params w Hname)
      as (w1 & Hsend & Hgtag1 & Hcall & _).
    destruct (IH w1) as (w2 & Hrest & Hgtag2 & Hcalls).
    exists w2. cbn [dispatch_all]. unfold bindM at 1. rewrite Hsend.
    split; [exact Hrest |]. split; [congruence |].
    intros f Hf.
    rewrite (Hcalls f) by congruence.
    destruct (Hcall f Hf) as (-> & _).
    cbn [map]. now rewrite <- app_assoc.
Qed.

(** C7. Whatever the payload and the sink, and for every event name that
    converts to a string (every string does, and the listeners only pass
    string literals), [sendEvent] completes normally: a fault raised by the
    sink's event-recording call is caught and logged to the console, and
    never reaches the caller.  So the statement that follows the dispatch
    in a listener always runs, and in any sequence of dispatches every
    event is handed to the sink, in order, whichever of the earlier calls
    failed. *)
Theorem sendEvent_isolates_faults (eventName params : value) (w : world St) :
  converts eventName = true ->
  (exists w',
     sendEvent eventName params w = (w', Normal tt)
     /\ (forall (A : Type) (rest : unit -> M St A),
           bindM (sendEvent eventName params) rest w = rest tt w')
     /\ (forall f error,
           window_gtag w = GFunction f ->
           snd (f (sink_state w) (event_call (eventName, params))) = Throw error ->
           gtag_calls w' = (gtag_calls w ++ [event_call (eventName, params)])%list
           /\ console w'
              = (console w
                 ++ [ConsoleError ("[Web Pixel] " ++ string_of eventName) error])%list))
  /\ (forall events : list (value * value),
        Forall (fun event => converts (fst event) = true) events ->
        exists w',
          dispatch_all ((eventName, params) :: events) w = (w', Normal tt)
          /\ forall f, window_gtag w = GFunction f ->
               gtag_calls w'
               = (gtag_calls w
                  ++ map event_call ((eventName, params) :: events))%list).
Proof.
  intros Hname. split.
  - destruct (sendEvent_spec eventName params w Hname) as (w' & Hsend & _ & Hcall & _).
    exists w'. split; [exact Hsend |]. split.
    + intros A rest. unfold bindM. now rewrite Hsend.
    + intros f error Hf Hthrow.
      destruct (Hcall f Hf) as (Hcalls & _ & Hconsole).
      rewrite Hthrow in Hconsole. split; assumption.
  - intros events Hnames.
    destruct (dispatch_all_spec ((eventName, params) :: events) w)
      as (w' & Hall & _ & Hcalls).
    + constructor; assumption.
    + exists w'. split; assumption.
Qed.

End Isolation.

(** A sink that throws on every call still receives every event, and each
    fault is logged. *)
Example dispatch_all_on_faulty_sink :
  dispatch_all [(VStr "view_item", VObj ∅); (VStr "add_to_cart", VObj ∅)]
               Samples.faulty_world
  = ({| window_gtag := window_gtag Samples.faulty_world;
        sink_state := tt;
        gtag_calls := [[VStr "event"; VStr "view_item"; VObj ∅];
                       [VStr "event"; VStr "add_to_cart"; VObj ∅]];
        console := [ConsoleError "[Web Pixel] view_item" (Thrown (VStr "sink down"));
                    ConsoleError "[Web Pixel] add_to_cart" (Thrown (VStr "sink down"))] |},
     Normal tt).
Proof. reflexivity. Qed.

Lemma sendEvent_isolates_faults_witness :
  exists w',
    dispatch_all [(VStr "view_item", VObj ∅); (VStr "add_to_cart", VObj ∅)]
                 Samples.faulty_world = (w', Normal tt)
    /\ gtag_calls w' = [[VStr "event"; VStr "view_item"; VObj ∅];
                        [VStr "event"; VStr "add_to_cart"; VObj ∅]].
Proof.
  destruct (proj2 (sendEvent_isolates_faults (VStr "view_item") (VObj ∅)
                     Samples.faulty_world eq_refl) [(VStr "add_to_cart", VObj ∅)])
    as (w' & Hall & Hcalls).
  { repeat constructor. }
  exists w'. split; [exact Hall |]. exact (Hcalls _ eq_refl).
Defined.

End Dispatcher.

(** ** The cart-viewed listener without a cart *)

Module CartViewedGuard.
Import JS Pixel Spec Facts.

(** C10. A cart-viewed event whose data carries no cart, or whose cart
    carries no lines (absent, or present and falsy), dispatches nothing:
    the listener returns normally and leaves the world, the trace of sink
    calls included, as it found it. *)
Theorem cart_viewed_returns_early {St : Type} (event data : value) (w : world St) :
  Get event "data" = Normal data ->
  nullish data = false ->
  ToBoolean (field data "cart") = false
  \/ ToBoolean (field (field data "cart") "lines") = false ->
  cart_viewed event w = (w, Normal tt).
Proof.
  intros Hdata Hnn Hfalsy.
  unfold cart_viewed, bindM, liftM.
  rewrite Hdata. simpl. rewrite (Get_field _ _ Hnn).
  destruct (ToBoolean (field data "cart")) eqn:Hcart; simpl.
  - destruct Hfalsy as [Hfalsy | Hfalsy]; [discriminate |].
    rewrite (Get_field _ _ (truthy_not_nullish _ Hcart)). simpl.
    rewrite Hfalsy. reflexivity.
  - reflexivity.
Qed.

Lemma cart_viewed_returns_early_witness :
  cart_viewed Samples.event_without_cart Samples.idle_world
  = (Samples.idle_world, Normal tt).
Proof.
  apply (cart_viewed_returns_early Samples.event_without_cart (VObj ∅)
           Samples.idle_world).
  - reflexivity.
  - reflexivity.
  - left. reflexivity.
Defined.

End CartViewedGuard.

(** ** The value of a viewed cart *)

Module CartValue.
Import JS Pixel Spec Facts.

(** The price of a formatted item is a Number, and its quantity is the
    line's, or 1. *)
Lemma formatItem_price_quantity (variant quantity lineItem item : value) :
  formatItem variant quantity lineItem = Normal item ->
  nullish item = false
  /\ (exists x, field item "price" = VNum x)
  /\ field item "quantity" = match quantity with VUndef => VNum 1 | _ => quantity end.
Proof.
  intros H.
  apply formatItem_Normal in H as (_ & item_id & item_name & _ & _ & _ & ->).
  destruct (base_item_lookup variant quantity item_id item_name)
    as (_ & _ & _ & _ & _ & Bprice & Bquantity).
  unfold field. cbn [Get nullish].
  rewrite !item_of_lookup_fixed by set_solver. rewrite Bprice, Bquantity.
  cbn [default from_option]. unfold id. eauto.
Qed.

Lemma formatItems_objects (lines items : list value) :
  formatItems (VArr lines) = Normal (VArr items) ->
  Forall (fun lineItem => converts (field lineItem "quantity") = true) lines ->
  Forall (fun item => nullish item = false
                      /\ converts (field item "price") = true
                      /\ converts (field item "quantity") = true) items.
Proof.
  intros H Hquantities.
  destruct (Collection.formatItems_shape _ _ H) as (items' & [= <-] & Hlen & Hnth).
  apply Forall_lookup. intros i item Hi.
  assert (i < length lines)%nat as Hlt
    by (rewrite <- Hlen; eapply lookup_lt_Some; exact Hi).
  destruct (lookup_lt_is_Some_2 lines i Hlt) as [lineItem Hline].
  destruct (Hnth i lineItem Hline) as (item' & Hitem' & Hfmt).
  rewrite Hi in Hitem'. injection Hitem' as <-.
  pose proof (proj1 (Forall_lookup _ _) Hquantities i lineItem Hline) as Hquantity.
  cbv beta in Hquantity.
  apply formatItem_price_quantity in Hfmt as (Hnn & [x ->] & ->).
  split; [exact Hnn |]. split; [reflexivity |].
  destruct (field lineItem "quantity"); try exact Hquantity; reflexivity.
Qed.

(** The price of a formatted item is a Number, so [+] in the reducer adds:
    the accumulator stays a Number all along. *)
Lemma reduce_add_line_total (items : list value) (sum : float) :
  Forall (fun item => nullish item = false
                      /\ converts (field item "price") = true
                      /\ converts (field item "quantity") = true) items ->
  reduce add_line_total items (VNum sum)
  = Normal (VNum (fold_left (fun sum item => (sum + line_total item)%float)
                            items sum)).
Proof.
  intros Hitems. revert sum.
  induction Hitems as [|item items (Hitem & Hprice & Hquantity) _ IH];
    intros sum; simpl.
  - reflexivity.
  - unfold add_line_total at 1. rewrite !(Get_field _ _ Hitem). cbn [bind].
    unfold js_mul. rewrite !ToNumber_spec, Hprice, Hquantity. cbn [bind].
    apply IH.
Qed.

(** C5. For a cart-viewed event whose cart lines are an array that formats
    to [items], each line with a quantity that converts to a number (as
    every number and string does), the listener dispatches [view_cart] with
    a value that is the sum, over the formatted items in order, of price
    times quantity. *)
Theorem cart_viewed_value {St : Type} (event data : value)
    (lines items : list value) (w : world St) :
  Get event "data" = Normal data ->
  field (field data "cart") "lines" = VArr lines ->
  formatItems (VArr lines) = Normal (VArr items) ->
  Forall (fun lineItem => converts (field lineItem "quantity") = true) lines ->
  cart_viewed event w
  = sendEvent (VStr "view_cart")
      (VObj (<["currency" := VStr "EUR"]>
            (<["value" := VNum (cart_value items)]>
            (<["items" := VArr items]> ∅)))) w.
Proof.
  intros Hdata Hlines Hitems Hquantities.
  assert (ToBoolean (field (field data "cart") "lines") = true) as Htruthy
    by now rewrite Hlines.
  pose proof (truthy_field _ _ Htruthy) as Hcart.
  assert (nullish data = false) as Hnn.
  { destruct (nullish data) eqn:E; [| reflexivity].
    rewrite (field_nullish _ _ E) in Hcart. discriminate Hcart. }
  assert (ToBoolean (field data "cart") = true) as Hcart_truthy.
  { destruct (field data "cart"); try discriminate Hlines; reflexivity. }
  unfold cart_viewed, bindM, liftM.
  rewrite Hdata. cbn [bind]. rewrite (Get_field _ _ Hnn).
  rewrite Hcart_truthy. cbn [negb]. rewrite !(Get_field _ _ Hcart). cbn [bind].
  rewrite Htruthy. cbn [negb]. rewrite Hlines, Hitems.
  rewrite (reduce_add_line_total _ _ (formatItems_objects _ _ Hitems Hquantities)).
  reflexivity.
Qed.

Lemma cart_viewed_value_witness :
  exists items payload,
    formatItems (VArr Samples.cart_lines) = Normal (VArr items)
    /\ cart_value items = 25.5%float
    /\ gtag_calls (fst (cart_viewed Samples.cart_viewed_event Samples.idle_world))
       = [[VStr "event"; VStr "view_cart"; VObj payload]]
    /\ payload !! "value" = Some (VNum 25.5).
Proof.
  pose (line1 := Samples.line (Samples.variant Samples.shirt (VStr "AB-1") "Large" "10.00") 2 []).
  pose (line2 := Samples.line (Samples.variant Samples.mug (VStr "MUG-1") "Blue" "5.50") 1 []).
  pose (items :=
          [VObj (item_of (line_variant line1) (VNum 2) line1 (VStr "SKU_AB-1") (VStr "Shirt"));
           VObj (item_of (line_variant line2) (VNum 1) line2 (VStr "SKU_MUG-1") (VStr "Mug"))]).
  assert (formatItems (VArr Samples.cart_lines) = Normal (VArr items)) as Hitems
    by (vm_compute; reflexivity).
  assert (cart_value items = 25.5%float) as Hvalue by (vm_compute; reflexivity).
  exists items.
  exists (<["currency" := VStr "EUR"]>
         (<["value" := VNum (cart_value items)]>
         (<["items" := VArr items]> ∅))).
  split; [exact Hitems |]. split; [exact Hvalue |]. split.
  - rewrite (cart_viewed_value Samples.cart_viewed_event
               (VObj {[ "cart" := VObj {[ "lines" := VArr Samples.cart_lines ]} ]})
               Samples.cart_lines items Samples.idle_world eq_refl eq_refl Hitems
               ltac:(repeat constructor)).
    reflexivity.
  - rewrite Hvalue. reflexivity.
Defined.

End CartValue.

(** ** The purchase payload *)

Module Purchase.
Import JS Pixel Spec Facts.

Lemma parseFloat_absent (amount : value) :
  nullish amount = true -> parsed (or_else amount (VNum 0)) = 0%float.
Proof. destruct amount; try discriminate; intros _; vm_compute; reflexivity. Qed.

Lemma totalTax_amount_spec (checkout : value) :
  nullish checkout = false ->
  totalTax_amount checkout = Normal (field (field checkout "totalTax") "amount").
Proof.
  intros H. unfold totalTax_amount. rewrite (Get_field _ _ H). cbn [bind].
  apply optional_Get.
Qed.

Lemma shippingLine_price_amount_Normal (checkout amount : value) :
  shippingLine_price_amount checkout = Normal amount ->
  amount = field (field (field checkout "shippingLine") "price") "amount".
Proof.
  unfold shippingLine_price_amount. intros H.
  apply bind_Normal in H as (sl & Hsl & H). apply Get_Normal in Hsl as [_ ->].
  unfold optional in H.
  destruct (nullish (field checkout "shippingLine")) eqn:E.
  - injection H as <-. now rewrite (field_nullish _ _ E).
  - apply bind_Normal in H as (p & Hp & H). apply Get_Normal in Hp as [_ ->].
    now apply Get_Normal in H.
Qed.

Lemma eventData_lookup (eventData : gmap string value) (coupon : value) (k : string) :
  k <> "coupon" ->
  (if ToBoolean coupon then <["coupon" := coupon]> eventData else eventData) !! k
  = eventData !! k.
Proof.
  intros Hk. destruct (ToBoolean coupon); [| reflexivity].
  now rewrite lookup_insert_ne.
Qed.

Ltac thrown :=
  right; eexists; reflexivity.

(** Every run of the listener either throws before anything is dispatched,
    leaving the world as it was, or dispatches a purchase. *)
Lemma checkout_completed_cases {St : Type} (event : value) (w : world St) :
  purchase_dispatched event w
  \/ exists e, checkout_completed event w = (w, Throw e).
Proof.
  unfold purchase_dispatched, checkout_completed, bindM, liftM.
  destruct (Get event "data") as [data|e] eqn:Hdata; cbn [bind]; [| thrown].
  apply Get_Normal in Hdata as [_ ->].
  destruct (Get (field event "data") "checkout") as [checkout|e] eqn:Hcheckout;
    [| thrown].
  apply Get_Normal in Hcheckout as [_ ->].
  set (checkout := field (field event "data") "checkout").
  destruct (Get checkout "order") as [order|e] eqn:Horder; [| thrown].
  apply Get_Normal in Horder as [Hnn ->].
  rewrite !(Get_field _ _ Hnn). cbn [bind].
  destruct (formatItems (field checkout "lineItems")) as [items|e]; [| thrown].
  destruct (Get (field checkout "order") "id") as [id|e] eqn:Hid;
    cbn [bind]; [| thrown].
  apply Get_Normal in Hid as [_ ->].
  destruct (toString_method (field (field checkout "order") "id"))
    as [transaction_id|e] eqn:Htx; [| thrown].
  apply toString_method_Normal in Htx as (_ & _ & ->).
  destruct (Get (field checkout "totalPrice") "amount") as [amount|e];
    cbn [bind]; [| thrown].
  destruct (parseFloat amount) as [totalPrice|e]; [| thrown].
  rewrite (totalTax_amount_spec _ Hnn). cbn [bind].
  destruct (parseFloat (or_else (field (field checkout "totalTax") "amount") (VNum 0)))
    as [tax|e] eqn:Htax; [| thrown].
  apply parseFloat_Normal in Htax as [_ ->].
  destruct (shippingLine_price_amount checkout) as [amount'|e] eqn:Hshipping;
    cbn [bind]; [| thrown].
  apply shippingLine_price_amount_Normal in Hshipping as ->.
  destruct (parseFloat
              (or_else (field (field (field checkout "shippingLine") "price") "amount")
                       (VNum 0)))
    as [shipping|e] eqn:Hship; [| thrown].
  apply parseFloat_Normal in Hship as [_ ->].
  destruct (first_discount_title checkout) as [coupon|e]; [| thrown].
  left. eexists. split; [reflexivity |].
  rewrite !eventData_lookup by discriminate.
  repeat split.
  - intros x ->. reflexivity.
  - intros Habsent.
    rewrite lookup_insert_ne, lookup_insert_ne, lookup_insert_ne, lookup_insert_eq
      by discriminate.
    now rewrite (parseFloat_absent _ Habsent).
  - intros Habsent.
    rewrite lookup_insert_ne, lookup_insert_ne, lookup_insert_ne, lookup_insert_ne,
      lookup_insert_eq by discriminate.
    now rewrite (parseFloat_absent _ Habsent).
Qed.

Lemma field_not_nullish (v : value) (k : string) :
  nullish (field v k) = false -> nullish v = false.
Proof.
  intros H. destruct (nullish v) eqn:E; [| reflexivity].
  rewrite (field_nullish _ _ E) in H. discriminate H.
Qed.

Lemma formatItems_total (lineItems : value) :
  match lineItems with
  | VArr lines => forallb is_line_item lines
  | _ => true
  end = true ->
  exists items, formatItems lineItems = Normal items.
Proof.
  intros H.
  destruct lineItems as [| | | | |lines|];
    try (eexists; apply Collection.formatItems_not_array; reflexivity).
  destruct (Collection.formatItems_returns lines) as [items Hitems]; [| eauto].
  apply Forall_forall. intros lineItem Hin.
  rewrite forallb_forall in H. apply H. now apply list_elem_of_In.
Qed.

Lemma first_discount_title_total (checkout : value) :
  nullish checkout = false ->
  exists coupon, first_discount_title checkout = Normal coupon.
Proof.
  intros H. unfold first_discount_title. rewrite (Get_field _ _ H). cbn [bind].
  unfold optional at 1.
  destruct (nullish (field checkout "discountApplications")) eqn:E; [eauto |].
  rewrite (GetIndex_index _ _ E). cbn [bind]. rewrite optional_Get. eauto.
Qed.

Lemma converts_or_else (amount : value) :
  converts amount = true -> converts (or_else amount (VNum 0)) = true.
Proof. intros H. unfold or_else. now destruct (ToBoolean amount). Qed.

(** On a checkout of the data model nothing throws. *)
Lemma checkout_completed_total {St : Type} (event : value) (w : world St) :
  is_checkout (field (field event "data") "checkout") = true ->
  exists eventData : gmap string value,
    checkout_completed event w = sendEvent (VStr "purchase") (VObj eventData) w.
Proof.
  set (checkout := field (field event "data") "checkout").
  unfold is_checkout. rewrite !andb_true_iff, !negb_true_iff, orb_true_iff.
  intros [[[[[[[[Hnn Hid] Hlines] Hprice] Hshipping] Hcid] Hcprice] Hctax] Hcship].
  pose proof (field_not_nullish _ _ Hnn) as Hdata.
  pose proof (field_not_nullish _ _ Hdata) as Hevent.
  pose proof (field_not_nullish _ _ Hid) as Horder.
  unfold checkout_completed, bindM, liftM.
  rewrite (Get_field _ _ Hevent). cbn [bind]. rewrite (Get_field _ _ Hdata).
  fold checkout. rewrite !(Get_field _ _ Hnn). cbn [bind].
  destruct (formatItems_total _ Hlines) as [items ->].
  rewrite (Get_field _ _ Horder). cbn [bind].
  rewrite (toString_method_converts _ Hid Hcid).
  rewrite (Get_field _ _ Hprice). cbn [bind].
  rewrite (parseFloat_converts _ Hcprice), (totalTax_amount_spec _ Hnn). cbn [bind].
  rewrite (parseFloat_converts _ (converts_or_else _ Hctax)).
  assert (shippingLine_price_amount checkout
          = Normal (field (field (field checkout "shippingLine") "price") "amount"))
    as ->.
  { unfold shippingLine_price_amount. rewrite (Get_field _ _ Hnn). cbn [bind].
    unfold optional.
    destruct (nullish (field checkout "shippingLine")) eqn:E.
    - now rewrite (field_nullish _ _ E), field_nullish.
    - destruct Hshipping as [Hnone | Hp]; [discriminate Hnone |].
      apply negb_true_iff in Hp.
      rewrite (Get_field _ _ E). cbn [bind]. now apply Get_field. }
  cbn [bind]. rewrite (parseFloat_converts _ (converts_or_else _ Hcship)).
  destruct (first_discount_title_total _ Hnn) as [coupon ->].
  eexists. reflexivity.
Qed.

(** C6. Every run of the checkout-completed listener that dispatches at all
    dispatches one [purchase] payload whose [transaction_id] is a string,
    the order id stringified (for a numeric id, its decimal form), and whose
    [tax] and [shipping] are 0 whenever the total tax amount, respectively
    the shipping line's price amount, is absent; a run that does not
    dispatch has thrown, on a missing part of the checkout or on a value
    that does not convert to a string, before touching the sink; and on a
    checkout of the data model, whose order id and amounts convert to
    strings as every string and number does, the listener does dispatch. *)
Theorem checkout_completed_purchase {St : Type} (event : value) (w : world St) :
  (is_checkout (field (field event "data") "checkout") = true ->
   purchase_dispatched event w)
  /\ (purchase_dispatched event w
      \/ exists e, checkout_completed event w = (w, Throw e)).
Proof.
  split; [| apply checkout_completed_cases].
  intros Hcheckout.
  destruct (checkout_completed_cases event w) as [Hdone | [e Hthrown]];
    [exact Hdone |].
  destruct (checkout_completed_total event w Hcheckout) as [eventData Hsent].
  destruct (Dispatcher.sendEvent_spec (VStr "purchase") (VObj eventData) w eq_refl)
    as (w' & Hnormal & _).
  rewrite Hsent, Hnormal in Hthrown. discriminate Hthrown.
Qed.

(** On the sample checkout, with its numeric order id 1001 and neither a
    tax total nor a shipping line, the sink receives one [purchase] call
    with [transaction_id] ["1001"] and a tax and a shipping of 0. *)
Lemma checkout_completed_purchase_witness :
  exists eventData : gmap string value,
    gtag_calls (fst (checkout_completed Samples.checkout_completed_event
                                        Samples.idle_world))
    = [[VStr "event"; VStr "purchase"; VObj eventData]]
    /\ eventData !! "transaction_id" = Some (VStr "1001")
    /\ eventData !! "tax" = Some (VNum 0)
    /\ eventData !! "shipping" = Some (VNum 0).
Proof.
  destruct (proj1 (checkout_completed_purchase Samples.checkout_completed_event
                     Samples.idle_world) eq_refl)
    as (eventData & Hsent & Hid & _ & Htax & Hshipping).
  exists eventData. rewrite Hsent. split; [reflexivity |].
  split; [rewrite Hid; vm_compute; reflexivity |].
  split; [exact (Htax eq_refl) | exact (Hshipping eq_refl)].
Defined.

End Purchase.

(** ** Every listener: one event at most *)

Module ListenerOutcomes.
Import JS Pixel Spec Events EventSpec Facts.

Section Outcomes.
Context {St : Type}.

(** How a listener ends, before the sink is looked at: it throws where it
    stands, returns where it stands, or hands one payload to [sendEvent]. *)
Definition outcome (name : string) (m : M St unit) (w : world St) : Prop :=
  (exists e, m w = (w, Throw e))
  \/ m w = (w, Normal tt)
  \/ exists payload : gmap string value,
       m w = sendEvent (VStr name) (VObj payload) w.

Lemma outcome_bind {A : Type} (name : string) (c : completion A)
    (k : A -> M St unit) (w : world St) :
  (forall a, c = Normal a -> outcome name (k a) w) ->
  outcome name (bindM (liftM c) k) w.
Proof.
  intros Hk. unfold bindM, liftM. destruct c as [a|e].
  - exact (Hk a eq_refl).
  - left. eauto.
Qed.

Lemma outcome_sendEvent (name : string) (payload : gmap string value) (w : world St) :
  outcome name (sendEvent (VStr name) (VObj payload)) w.
Proof. right. right. eauto. Qed.

Ltac run_listener :=
  repeat first
    [ apply outcome_bind; intros ? ?
    | match goal with
      | |- outcome _ (if ?b then _ else _) _ => destruct b
      end ];
  first [ apply outcome_sendEvent | right; left; reflexivity ].

Lemma page_viewed_outcome event w : outcome "page_view" (page_viewed event) w.
Proof. unfold page_viewed. run_listener. Qed.

Lemma formatItem_object (variant quantity lineItem result : value) :
  formatItem variant quantity lineItem = Normal result ->
  exists item, result = VObj item.
Proof.
  intros H. apply formatItem_Normal in H as (_ & item_id & item_name & _ & _ & _ & ->).
  eauto.
Qed.

Lemma product_viewed_outcome event w : outcome "view_item" (product_viewed event) w.
Proof. unfold product_viewed. run_listener. Qed.

Lemma product_added_to_cart_outcome event w :
  outcome "add_to_cart" (product_added_to_cart event) w.
Proof. unfold product_added_to_cart. run_listener. Qed.

Lemma product_removed_from_cart_outcome event w :
  outcome "remove_from_cart" (product_removed_from_cart event) w.
Proof. unfold product_removed_from_cart. run_listener. Qed.

Lemma cart_viewed_outcome event w : outcome "view_cart" (cart_viewed event) w.
Proof. unfold cart_viewed. run_listener. Qed.

Lemma checkout_started_outcome event w :
  outcome "begin_checkout" (checkout_started event) w.
Proof. unfold checkout_started. run_listener. Qed.

Lemma checkout_shipping_info_submitted_outcome event w :
  outcome "add_shipping_info" (checkout_shipping_info_submitted event) w.
Proof. unfold checkout_shipping_info_submitted. run_listener. Qed.

Lemma payment_info_submitted_outcome event w :
  outcome "add_payment_info" (payment_info_submitted event) w.
Proof. unfold payment_info_submitted. run_listener. Qed.

Lemma checkout_completed_outcome event w :
  outcome "purchase" (checkout_completed event) w.
Proof. unfold checkout_completed. run_listener. Qed.

Lemma search_submitted_outcome event w : outcome "search" (search_submitted event) w.
Proof. unfold search_submitted. run_listener. Qed.

(** From the way a listener ends to what it leaves behind. *)
Lemma outcome_at_most_one (name : string) (listener : value -> M St unit) :
  (forall event w, outcome name (listener event) w) ->
  at_most_one_event name listener.
Proof.
  intros Hout event w. cbv zeta.
  destruct (Hout event w) as [[e ->] | [-> | [payload ->]]]; cbn [fst snd].
  - repeat split; auto.
  - repeat split; auto.
  - destruct (Dispatcher.sendEvent_spec (VStr name) (VObj payload) w eq_refl)
      as (w' & -> & Hgtag & Hfun & Hdata). cbn [fst snd].
    split; [intros e He; discriminate He |].
    split; [exact Hgtag |].
    destruct (window_gtag w) as [f|v] eqn:Hw.
    + destruct (Hfun f eq_refl) as (Hcalls & _ & Hconsole). split.
      * right. exists payload. exact Hcalls.
      * destruct (snd (f (sink_state w) (event_call (VStr name, VObj payload))))
          as [r|error].
        -- left. rewrite Hconsole. apply app_nil_r.
        -- right. exists error. exact Hconsole.
    + rewrite (Hdata v eq_refl). auto.
Qed.

(** When [window.gtag] is no function a listener that ends in one of the
    three ways leaves the world as it found it. *)
Lemma outcome_without_gtag (name : string) (m : M St unit) (w : world St) (v : value) :
  outcome name m w -> window_gtag w = GData v -> fst (m w) = w.
Proof.
  intros [[e ->] | [-> | [payload ->]]] Hw; try reflexivity.
  destruct (Dispatcher.sendEvent_spec (VStr name) (VObj payload) w eq_refl)
    as (w' & -> & _ & _ & Hdata).
  exact (Hdata v Hw).
Qed.

End Outcomes.

Ltac each_subscription :=
  lazymatch goal with
  | |- Forall2 _ [] [] => apply List.Forall2_nil
  | |- Forall2 _ (_ :: _) (_ :: _) =>
      apply List.Forall2_cons;
      [ split; [reflexivity | apply outcome_at_most_one; intros event w]
      | each_subscription ]
  end.

(** X1. The script subscribes to ten storefront events, each once and each
    mapped to an analytics event of its own.  Whatever the event object and
    whatever the sink does, a listener calls the sink at most once, for its
    analytics event and with an object as payload, writes at most the
    report of that call's fault to the console, and leaves no trace when it
    throws itself. *)
Theorem listeners_send_at_most_one_event {St : Type} :
  Forall2 (fun (subscription : string * (value -> M St unit))
               (names : string * string) =>
             fst subscription = fst names
             /\ at_most_one_event (snd names) (snd subscription))
          subscriptions event_names
  /\ NoDup (map fst event_names)
  /\ NoDup (map snd event_names).
Proof.
  split; [| split].
  - unfold subscriptions, event_names. each_subscription.
    + apply page_viewed_outcome.
    + apply product_viewed_outcome.
    + apply product_added_to_cart_outcome.
    + apply product_removed_from_cart_outcome.
    + apply cart_viewed_outcome.
    + apply checkout_started_outcome.
    + apply checkout_shipping_info_submitted_outcome.
    + apply payment_info_submitted_outcome.
    + apply checkout_completed_outcome.
    + apply search_submitted_outcome.
  - apply (bool_decide_unpack _). vm_compute. exact I.
  - apply (bool_decide_unpack _). vm_compute. exact I.
Qed.

(** X2. When [window.gtag] is not a function, no listener changes
    anything: whatever the event, nothing is sent, queued or logged. *)
Theorem listeners_drop_events_without_gtag {St : Type} (w : world St) (v : value) :
  window_gtag w = GData v ->
  Forall (fun subscription : string * (value -> M St unit) =>
            forall event, fst (snd subscription event w) = w)
         subscriptions.
Proof.
  intros Hw. unfold subscriptions.
  repeat (apply List.Forall_cons; [intros event; cbn [snd] |]);
    [.. | apply List.Forall_nil];
    eapply outcome_without_gtag; try exact Hw.
  - apply page_viewed_outcome.
  - apply product_viewed_outcome.
  - apply product_added_to_cart_outcome.
  - apply product_removed_from_cart_outcome.
  - apply cart_viewed_outcome.
  - apply checkout_started_outcome.
  - apply checkout_shipping_info_submitted_outcome.
  - apply payment_info_submitted_outcome.
  - apply checkout_completed_outcome.
  - apply search_submitted_outcome.
Qed.

Lemma listeners_drop_events_without_gtag_witness :
  fst (checkout_started EventSamples.checkout_event
         (page_world EventSamples.fresh_page))
  = page_world EventSamples.fresh_page.
Proof.
  pose proof (listeners_drop_events_without_gtag
                (page_world EventSamples.fresh_page) VUndef eq_refl) as Hall.
  unfold subscriptions in Hall.
  do 5 apply Forall_inv_tail in Hall. apply Forall_inv in Hall.
  exact (Hall EventSamples.checkout_event).
Defined.


End ListenerOutcomes.

(** ** What the listeners send *)

Module Payloads.
Import JS Pixel Spec Events EventSpec Facts.

Lemma optional_index_field (v : value) (i : nat) (k : string) :
  optional v (fun v => let* x := GetIndex v i in optional x (fun x => Get x k))
  = Normal (field (index v i) k).
Proof.
  unfold optional at 1. destruct (nullish v) eqn:E.
  - now rewrite (index_nullish _ _ E).
  - rewrite (GetIndex_index _ _ E). cbn [bind]. apply optional_Get.
Qed.

Lemma first_discount_title_spec (checkout : value) :
  nullish checkout = false ->
  first_discount_title checkout = Normal (discount_title checkout).
Proof.
  intros H. unfold first_discount_title, discount_title.
  rewrite (Get_field _ _ H). cbn [bind]. apply optional_index_field.
Qed.

Lemma first_transaction_gateway_spec (checkout : value) :
  nullish checkout = false ->
  first_transaction_gateway checkout = Normal (gateway checkout).
Proof.
  intros H. unfold first_transaction_gateway, gateway.
  rewrite (Get_field _ _ H). cbn [bind]. apply optional_index_field.
Qed.

Lemma selected_delivery_title_spec (checkout : value) :
  nullish checkout = false ->
  selected_delivery_title checkout = Normal (delivery_title checkout).
Proof.
  intros H. unfold selected_delivery_title, delivery_title.
  rewrite (Get_field _ _ H). cbn [bind]. unfold optional at 1.
  destruct (nullish (field checkout "delivery")) eqn:E.
  - now rewrite (field_nullish _ _ E), index_nullish.
  - rewrite (Get_field _ _ E). cbn [bind]. apply optional_index_field.
Qed.

Lemma shippingLine_title_spec (checkout : value) :
  nullish checkout = false ->
  shippingLine_title checkout = Normal (field (field checkout "shippingLine") "title").
Proof.
  intros H. unfold shippingLine_title. rewrite (Get_field _ _ H). cbn [bind].
  apply optional_Get.
Qed.

(** Reading [event.data.k] when the value read is there. *)
Lemma Get_data (event : value) (k : string) :
  nullish (field (field event "data") k) = false ->
  (let* data := Get event "data" in Get data k)
  = Normal (field (field event "data") k).
Proof.
  intros H.
  pose proof (Purchase.field_not_nullish _ _ H) as Hdata.
  pose proof (Purchase.field_not_nullish _ _ Hdata) as Hevent.
  rewrite (Get_field _ _ Hevent). cbn [bind]. now apply Get_field.
Qed.

Lemma is_variant_not_nullish (variant : value) :
  is_variant variant = true -> nullish variant = false.
Proof.
  unfold is_variant. rewrite !andb_true_iff, !negb_true_iff. tauto.
Qed.

(** An item formatted without a line item has neither discount nor
    coupon. *)
Lemma formatItem_without_context (variant quantity : value)
    (item : gmap string value) :
  formatItem variant quantity VUndef = Normal (VObj item) ->
  item !! "discount" = None /\ item !! "coupon" = None.
Proof.
  intros H. apply formatItem_Normal in H as (_ & item_id & item_name & _ & _ & _ & H).
  injection H as ->.
  rewrite item_of_lookup_discount, item_of_lookup_coupon. split; reflexivity.
Qed.

(** X3. For a product-viewed event whose variant is one of the data model
    (its ids, title and price amount values that convert to strings), the
    listener dispatches [view_item] in the configured currency with one
    item of quantity 1, without discount or coupon, and with the item's
    price as value. *)
Theorem product_viewed_payload {St : Type} (event : value) (w : world St) :
  let variant := field (field event "data") "productVariant" in
  let price := VNum (parsed (field (field variant "price") "amount")) in
  is_variant variant = true ->
  exists item : gmap string value,
    formatItem variant VUndef VUndef = Normal (VObj item)
    /\ product_viewed event w
       = sendEvent (VStr "view_item")
           (VObj (<["currency" := VStr "EUR"]>
                 (<["value" := price]>
                 (<["items" := VArr [VObj item]]> ∅)))) w
    /\ item !! "price" = Some price
    /\ item !! "quantity" = Some (VNum 1)
    /\ item !! "discount" = None
    /\ item !! "coupon" = None.
Proof.
  intros variant price Hvariant.
  pose proof (is_variant_not_nullish _ Hvariant) as Hnn.
  destruct (Collection.formatItem_total variant VUndef VUndef Hvariant eq_refl)
    as [item Hitem].
  exists item. split; [exact Hitem |].
  destruct (formatItem_without_context _ _ _ Hitem) as [Hdiscount Hcoupon].
  pose proof Hitem as Hshape.
  apply formatItem_Normal in Hshape as (_ & item_id & item_name & _ & _ & _ & Hshape).
  injection Hshape as Hshape.
  assert (item !! "price" = Some price) as Hprice.
  { rewrite Hshape, item_of_lookup_fixed by set_solver.
    apply (base_item_lookup variant VUndef item_id item_name). }
  assert (item !! "quantity" = Some (VNum 1)) as Hquantity.
  { rewrite Hshape, item_of_lookup_fixed by set_solver.
    apply (base_item_lookup variant VUndef item_id item_name). }
  repeat split; try assumption.
  pose proof (Purchase.field_not_nullish _ _ Hnn) as Hdata.
  pose proof (Purchase.field_not_nullish _ _ Hdata) as Hevent.
  unfold product_viewed, bindM, liftM.
  rewrite (Get_field _ _ Hevent). cbn [bind].
  rewrite (Get_field _ _ Hdata). cbn [bind]. fold variant.
  rewrite Hitem. unfold Get. unfold price in Hprice. rewrite Hprice. reflexivity.
Qed.

Lemma product_viewed_payload_witness :
  exists item : gmap string value,
    gtag_calls (fst (product_viewed EventSamples.product_viewed_event
                                    Samples.idle_world))
    = [[VStr "event"; VStr "view_item";
        VObj (<["currency" := VStr "EUR"]>
             (<["value" := VNum 10]>
             (<["items" := VArr [VObj item]]> ∅)))]]
    /\ item !! "quantity" = Some (VNum 1)
    /\ item !! "coupon" = None.
Proof.
  destruct (product_viewed_payload EventSamples.product_viewed_event
              Samples.idle_world eq_refl)
    as (item & _ & Hsent & _ & Hquantity & _ & Hcoupon).
  exists item. rewrite Hsent. repeat split; assumption.
Defined.

(** X4. Adding a line to the cart and removing it send the same payload
    under the two event names: the configured currency, the line's total
    cost as value, and the line's variant as the one item, formatted with
    the line's quantity but without the line as context, so that the item
    carries neither discount nor coupon even when the line has discount
    allocations.  The variant is one of the data model and the amount of
    the total cost converts to a string, as every string and number
    does. *)
Theorem cart_line_payload {St : Type} (event : value) (w : world St) :
  let cartLine := field (field event "data") "cartLine" in
  is_variant (field cartLine "merchandise") = true ->
  nullish (field (field cartLine "cost") "totalAmount") = false ->
  converts (field (field (field cartLine "cost") "totalAmount") "amount") = true ->
  exists item : gmap string value,
    formatItem (field cartLine "merchandise") (field cartLine "quantity") VUndef
    = Normal (VObj item)
    /\ (let payload : gmap string value :=
          <["currency" := VStr "EUR"]>
          (<["value" :=
               VNum (parsed
                       (field (field (field cartLine "cost") "totalAmount") "amount"))]>
          (<["items" := VArr [VObj item]]> ∅)) in
        product_added_to_cart event w
        = sendEvent (VStr "add_to_cart") (VObj payload) w
        /\ product_removed_from_cart event w
           = sendEvent (VStr "remove_from_cart") (VObj payload) w)
    /\ item !! "discount" = None
    /\ item !! "coupon" = None.
Proof.
  intros cartLine Hvariant Hcost Hamount.
  pose proof (Purchase.field_not_nullish _ _ (is_variant_not_nullish _ Hvariant))
    as Hline.
  pose proof (Purchase.field_not_nullish _ _ Hcost) as Hcost'.
  destruct (Collection.formatItem_total (field cartLine "merchandise")
              (field cartLine "quantity") VUndef Hvariant eq_refl) as [item Hitem].
  exists item. split; [exact Hitem |].
  destruct (formatItem_without_context _ _ _ Hitem) as [Hdiscount Hcoupon].
  repeat split; try assumption.
  - unfold product_added_to_cart, bindM, liftM.
    rewrite (Get_data event "cartLine" Hline). cbn [bind]. fold cartLine.
    rewrite !(Get_field _ _ Hline). cbn [bind]. rewrite Hitem.
    rewrite (Get_field _ _ Hcost'). cbn [bind].
    rewrite (Get_field _ _ Hcost). cbn [bind].
    rewrite (parseFloat_converts _ Hamount). reflexivity.
  - unfold product_removed_from_cart, bindM, liftM.
    rewrite (Get_data event "cartLine" Hline). cbn [bind]. fold cartLine.
    rewrite !(Get_field _ _ Hline). cbn [bind]. rewrite Hitem.
    rewrite (Get_field _ _ Hcost'). cbn [bind].
    rewrite (Get_field _ _ Hcost). cbn [bind].
    rewrite (parseFloat_converts _ Hamount). reflexivity.
Qed.

Lemma cart_line_payload_witness :
  exists item : gmap string value,
    gtag_calls (fst (product_added_to_cart EventSamples.cart_line_event
                                           Samples.idle_world))
    = [[VStr "event"; VStr "add_to_cart";
        VObj (<["currency" := VStr "EUR"]>
             (<["value" := VNum 17.5]>
             (<["items" := VArr [VObj item]]> ∅)))]]
    /\ item !! "discount" = None.
Proof.
  destruct (cart_line_payload EventSamples.cart_line_event Samples.idle_world
              eq_refl eq_refl eq_refl)
    as (item & _ & [Hadd _] & Hdiscount & _).
  exists item. rewrite Hadd. split; [reflexivity | exact Hdiscount].
Defined.

Lemma checkout_payload_lookup (checkout items : value) :
  let payload := checkout_payload checkout items in
  payload !! "currency" = Some (or_else (field checkout "currencyCode") (VStr "EUR"))
  /\ payload !! "value"
     = Some (VNum (parsed (field (field checkout "totalPrice") "amount")))
  /\ payload !! "items" = Some items
  /\ payload !! "coupon"
     = (if ToBoolean (discount_title checkout)
        then Some (discount_title checkout) else None)
  /\ payload !! "shipping_tier" = None
  /\ payload !! "payment_type" = None
  /\ payload !! "transaction_id" = None
  /\ payload !! "tax" = None
  /\ payload !! "shipping" = None.
Proof.
  unfold checkout_payload. cbv zeta.
  destruct (ToBoolean (discount_title checkout)); repeat split.
Qed.

Section CheckoutSteps.
Context {St : Type} (event items : value) (w : world St).
Let checkout := checkout_of event.
Let payload := checkout_payload checkout items.
Hypothesis Hnn : nullish checkout = false.
Hypothesis Hitems : formatItems (field checkout "lineItems") = Normal items.
Hypothesis Hprice : nullish (field checkout "totalPrice") = false.
Hypothesis Hamount : converts (field (field checkout "totalPrice") "amount") = true.

Lemma checkout_started_spec :
  checkout_started event w = sendEvent (VStr "begin_checkout") (VObj payload) w.
Proof using Hnn Hitems Hprice Hamount.
  unfold checkout_started, bindM, liftM.
  rewrite (Get_data event "checkout" Hnn). fold (checkout_of event). fold checkout.
  rewrite !(Get_field _ _ Hnn). cbn [bind]. rewrite Hitems.
  rewrite (Get_field _ _ Hprice). cbn [bind].
  rewrite (parseFloat_converts _ Hamount), (first_discount_title_spec _ Hnn).
  reflexivity.
Qed.

Lemma checkout_shipping_info_submitted_spec :
  checkout_shipping_info_submitted event w
  = sendEvent (VStr "add_shipping_info")
      (VObj (<["shipping_tier" :=
                 or_else (delivery_title checkout)
                   (or_else (field (field checkout "shippingLine") "title")
                            (VStr ""))]> payload)) w.
Proof using Hnn Hitems Hprice Hamount.
  unfold checkout_shipping_info_submitted, bindM, liftM.
  rewrite (Get_data event "checkout" Hnn). fold (checkout_of event). fold checkout.
  rewrite !(Get_field _ _ Hnn). cbn [bind]. rewrite Hitems.
  rewrite (Get_field _ _ Hprice). cbn [bind].
  rewrite (parseFloat_converts _ Hamount), (selected_delivery_title_spec _ Hnn).
  cbn [bind]. rewrite (shippingLine_title_spec _ Hnn), (first_discount_title_spec _ Hnn).
  assert ((if ToBoolean (delivery_title checkout)
           then Normal (delivery_title checkout)
           else let* title := Normal (field (field checkout "shippingLine") "title")
                in Normal (or_else title (VStr "")))
          = Normal (or_else (delivery_title checkout)
                      (or_else (field (field checkout "shippingLine") "title")
                               (VStr "")))) as ->.
  { unfold or_else at 2. destruct (ToBoolean (delivery_title checkout)); reflexivity. }
  apply (f_equal (fun p => sendEvent (VStr "add_shipping_info") (VObj p) w)).
  unfold payload, checkout_payload. cbv zeta.
  destruct (ToBoolean (discount_title checkout)).
  - rewrite (insert_insert_ne _ "shipping_tier" "coupon") by discriminate.
    rewrite (insert_insert_ne _ "shipping_tier" "currency") by discriminate.
    now rewrite (insert_insert_ne _ "shipping_tier" "value") by discriminate.
  - rewrite (insert_insert_ne _ "shipping_tier" "currency") by discriminate.
    now rewrite (insert_insert_ne _ "shipping_tier" "value") by discriminate.
Qed.

Lemma payment_info_submitted_spec :
  payment_info_submitted event w
  = sendEvent (VStr "add_payment_info")
      (VObj (if ToBoolean (gateway checkout)
             then <["payment_type" := gateway checkout]> payload
             else payload)) w.
Proof using Hnn Hitems Hprice Hamount.
  unfold payment_info_submitted, bindM, liftM.
  rewrite (Get_data event "checkout" Hnn). fold (checkout_of event). fold checkout.
  rewrite !(Get_field _ _ Hnn). cbn [bind]. rewrite Hitems.
  rewrite (Get_field _ _ Hprice). cbn [bind].
  rewrite (parseFloat_converts _ Hamount), (first_transaction_gateway_spec _ Hnn),
    (first_discount_title_spec _ Hnn).
  apply (f_equal (fun p => sendEvent (VStr "add_payment_info") (VObj p) w)).
  unfold payload, checkout_payload. cbv zeta.
  destruct (ToBoolean (gateway checkout));
    destruct (ToBoolean (discount_title checkout)); reflexivity.
Qed.

End CheckoutSteps.

(** X5. The three listeners of a checkout in progress agree: on a checkout
    that is there, whose lines format and which has a total price of an
    amount that converts to a string (as every string and number does),
    [begin_checkout] carries the currency (the checkout's, else the
    configured one), the parsed total as value, the formatted lines, and the
    coupon exactly when the first discount application has a non-empty
    title; [add_shipping_info] is that payload plus [shipping_tier], the
    first selected delivery option's title, else the shipping line's, else
    the empty string; and [add_payment_info] is that payload plus
    [payment_type] exactly when the first transaction has a gateway. *)
Theorem checkout_steps_agree {St : Type} (event items : value) (w : world St) :
  let checkout := checkout_of event in
  let payload := checkout_payload checkout items in
  nullish checkout = false ->
  formatItems (field checkout "lineItems") = Normal items ->
  nullish (field checkout "totalPrice") = false ->
  converts (field (field checkout "totalPrice") "amount") = true ->
  checkout_started event w = sendEvent (VStr "begin_checkout") (VObj payload) w
  /\ checkout_shipping_info_submitted event w
     = sendEvent (VStr "add_shipping_info")
         (VObj (<["shipping_tier" :=
                    or_else (delivery_title checkout)
                      (or_else (field (field checkout "shippingLine") "title")
                               (VStr ""))]> payload)) w
  /\ payment_info_submitted event w
     = sendEvent (VStr "add_payment_info")
         (VObj (if ToBoolean (gateway checkout)
                then <["payment_type" := gateway checkout]> payload
                else payload)) w
  /\ payload !! "currency" = Some (or_else (field checkout "currencyCode") (VStr "EUR"))
  /\ payload !! "value"
     = Some (VNum (parsed (field (field checkout "totalPrice") "amount")))
  /\ payload !! "items" = Some items
  /\ payload !! "coupon"
     = (if ToBoolean (discount_title checkout)
        then Some (discount_title checkout) else None).
Proof.
  intros checkout payload Hnn Hitems Hprice Hamount.
  destruct (checkout_payload_lookup checkout items)
    as (Hcurrency & Hvalue & Hitems' & Hcoupon & _).
  repeat split; try assumption.
  - now apply checkout_started_spec.
  - now apply checkout_shipping_info_submitted_spec.
  - now apply payment_info_submitted_spec.
Qed.

Lemma checkout_steps_agree_witness :
  exists (items : value) (payload : gmap string value),
    gtag_calls (fst (checkout_shipping_info_submitted EventSamples.checkout_event
                       Samples.idle_world))
    = [[VStr "event"; VStr "add_shipping_info"; VObj payload]]
    /\ payload !! "shipping_tier" = Some (VStr "Express")
    /\ payload !! "coupon" = Some (VStr "WELCOME")
    /\ payload !! "currency" = Some (VStr "USD")
    /\ payload !! "items" = Some items.
Proof.
  destruct (Collection.formatItems_returns Samples.cart_lines
              ltac:(repeat constructor)) as [items Hitems].
  destruct (checkout_steps_agree EventSamples.checkout_event (VArr items)
              Samples.idle_world eq_refl Hitems eq_refl eq_refl)
    as (_ & Hshipping & _).
  exists (VArr items). eexists. rewrite Hshipping.
  split; [reflexivity |]. repeat split.
Defined.

Lemma shippingLine_price_amount_spec (checkout : value) :
  nullish checkout = false ->
  nullish (field checkout "shippingLine") = true
  \/ nullish (field (field checkout "shippingLine") "price") = false ->
  shippingLine_price_amount checkout
  = Normal (field (field (field checkout "shippingLine") "price") "amount").
Proof.
  intros Hnn Hline. unfold shippingLine_price_amount.
  rewrite (Get_field _ _ Hnn). cbn [bind]. unfold optional.
  destruct (nullish (field checkout "shippingLine")) eqn:E.
  - now rewrite (field_nullish _ _ E), field_nullish.
  - destruct Hline as [Hline | Hprice]; [discriminate Hline |].
    rewrite (Get_field _ _ E). cbn [bind]. now apply Get_field.
Qed.

(** X6. On a checkout with an order id, a total price and lines that
    format (and a price on the shipping line when there is one), the order
    id and the amounts of the total price, the total tax and the shipping
    price being values that convert to strings (as every string and number
    does), the [purchase] payload is the [begin_checkout] payload of the
    same checkout plus three fields: the order id as a string, the tax and
    the shipping. *)
Theorem purchase_extends_begin_checkout {St : Type} (event items : value)
    (w : world St) :
  let checkout := checkout_of event in
  let payload := checkout_payload checkout items in
  nullish checkout = false ->
  formatItems (field checkout "lineItems") = Normal items ->
  nullish (field checkout "totalPrice") = false ->
  nullish (field (field checkout "order") "id") = false ->
  nullish (field checkout "shippingLine") = true
  \/ nullish (field (field checkout "shippingLine") "price") = false ->
  converts (field (field checkout "order") "id") = true ->
  converts (field (field checkout "totalPrice") "amount") = true ->
  converts (field (field checkout "totalTax") "amount") = true ->
  converts (field (field (field checkout "shippingLine") "price") "amount") = true ->
  checkout_started event w = sendEvent (VStr "begin_checkout") (VObj payload) w
  /\ checkout_completed event w
     = sendEvent (VStr "purchase")
         (VObj (<["transaction_id" :=
                    VStr (string_of (field (field checkout "order") "id"))]>
               (<["tax" :=
                    VNum (parsed
                            (or_else (field (field checkout "totalTax") "amount")
                                     (VNum 0)))]>
               (<["shipping" :=
                    VNum (parsed
                            (or_else
                               (field (field (field checkout "shippingLine") "price")
                                      "amount")
                               (VNum 0)))]> payload)))) w.
Proof.
  intros checkout payload Hnn Hitems Hprice Hid Hline Hcid Hcprice Hctax Hcship.
  split; [now apply checkout_started_spec |].
  pose proof (Purchase.field_not_nullish _ _ Hid) as Horder.
  unfold checkout_completed, bindM, liftM.
  rewrite (Get_data event "checkout" Hnn). fold (checkout_of event). fold checkout.
  rewrite !(Get_field _ _ Hnn). cbn [bind]. rewrite Hitems.
  rewrite (Get_field _ _ Horder). cbn [bind].
  rewrite (toString_method_converts _ Hid Hcid).
  rewrite (Get_field _ _ Hprice). cbn [bind].
  rewrite (parseFloat_converts _ Hcprice), (Purchase.totalTax_amount_spec _ Hnn).
  cbn [bind]. rewrite (parseFloat_converts _ (Purchase.converts_or_else _ Hctax)).
  rewrite (shippingLine_price_amount_spec _ Hnn Hline). cbn [bind].
  rewrite (parseFloat_converts _ (Purchase.converts_or_else _ Hcship)).
  rewrite (first_discount_title_spec _ Hnn).
  apply (f_equal (fun p => sendEvent (VStr "purchase") (VObj p) w)).
  unfold payload, checkout_payload. cbv zeta.
  destruct (ToBoolean (discount_title checkout)); reflexivity.
Qed.


Lemma purchase_extends_begin_checkout_witness :
  exists payload : gmap string value,
    gtag_calls (fst (checkout_started Samples.checkout_completed_event
                                      Samples.idle_world))
    = [[VStr "event"; VStr "begin_checkout"; VObj payload]]
    /\ gtag_calls (fst (checkout_completed Samples.checkout_completed_event
                                           Samples.idle_world))
       = [[VStr "event"; VStr "purchase";
           VObj (<["transaction_id" := VStr "1001"]>
                (<["tax" := VNum 0]>
                (<["shipping" := VNum 0]> payload)))]].
Proof.
  destruct (Collection.formatItems_returns Samples.cart_lines
              ltac:(repeat constructor)) as [items Hitems].
  destruct (purchase_extends_begin_checkout Samples.checkout_completed_event
              (VArr items) Samples.idle_world eq_refl Hitems eq_refl eq_refl
              (or_introl eq_refl) eq_refl eq_refl eq_refl eq_refl)
    as [Hstarted Hcompleted].
  eexists. rewrite Hstarted, Hcompleted. split; [reflexivity |].
  vm_compute. reflexivity.
Defined.


End Payloads.

(** ** More on the formatters *)

Module Formatters.
Import JS Pixel Spec Events EventSpec Facts StringFacts.

Lemma prefix_append (p s : string) : String.prefix p (p ++ s) = true.
Proof.
  induction p as [|c p IH]; simpl.
  - now destruct s.
  - destruct (ascii_dec c c) as [_|Hne]; [exact IH | contradiction].
Qed.

Lemma createItemId_Normal (product variant item_id : value) :
  createItemId product variant = Normal item_id ->
  exists id, item_id = VStr id
             /\ (String.prefix "SKU_" id = true
                 \/ String.prefix "shopify_DE_" id = true).
Proof.
  unfold createItemId. intros H.
  apply bind_Normal in H as (sku & _ & H).
  apply bind_Normal in H as ([|] & _ & H).
  - apply bind_Normal in H as (sku' & _ & H).
    apply bind_Normal in H as (s & _ & H). injection H as <-.
    eexists. split; [reflexivity |]. left. apply prefix_append.
  - apply bind_Normal in H as (pid & _ & H).
    apply bind_Normal in H as (p & _ & H).
    apply bind_Normal in H as (vid & _ & H).
    apply bind_Normal in H as (v & _ & H). injection H as <-.
    eexists. split; [reflexivity |]. right. apply prefix_append.
Qed.

(** X7. Every item the formatter returns is an object with the seven
    fields of the object literal: an [item_id] that is a string starting
    with ["SKU_"] or ["shopify_DE_"], a [price] that is a Number, an
    [item_brand] that is never empty (the vendor, else the fallback brand),
    the variant's title as [item_variant], and the quantity passed in, or 1
    when none was. *)
Theorem formatItem_schema (variant quantity lineItem result : value) :
  formatItem variant quantity lineItem = Normal result ->
  exists item : gmap string value,
    result = VObj item
    /\ ({[ "item_id"; "item_name"; "item_variant"; "item_brand"; "item_category";
           "price"; "quantity" ]} : gset string) ⊆ dom item
    /\ (exists id, item !! "item_id" = Some (VStr id)
                   /\ (String.prefix "SKU_" id = true
                       \/ String.prefix "shopify_DE_" id = true))
    /\ (exists x, item !! "price" = Some (VNum x))
    /\ (exists brand, item !! "item_brand" = Some brand /\ ToBoolean brand = true)
    /\ item !! "item_variant" = Some (field variant "title")
    /\ item !! "quantity"
       = Some (match quantity with VUndef => VNum 1 | _ => quantity end).
Proof.
  intros H.
  apply formatItem_Normal in H as (_ & item_id & item_name & Hid & _ & _ & ->).
  eexists. split; [reflexivity |].
  destruct (base_item_lookup variant quantity item_id item_name)
    as (Bid & Bname & Bvariant & Bbrand & Bcategory & Bprice & Bquantity).
  assert (forall k,
            k ∈ ({[ "item_id"; "item_name"; "item_variant"; "item_brand";
                    "item_category"; "price"; "quantity" ]} : gset string) ->
            item_of variant quantity lineItem item_id item_name !! k
            = base_item variant quantity item_id item_name !! k) as Hfixed
    by (intros k Hk; now apply item_of_lookup_fixed).
  repeat split.
  - intros k Hk. apply elem_of_dom. rewrite (Hfixed k Hk).
    rewrite !elem_of_union, !elem_of_singleton in Hk.
    destruct Hk as [[[[[[-> | ->] | ->] | ->] | ->] | ->] | ->]; eauto.
  - apply createItemId_Normal in Hid as (id & -> & Hprefix).
    exists id. split; [| exact Hprefix].
    rewrite Hfixed by set_solver. exact Bid.
  - eexists. rewrite Hfixed by set_solver. exact Bprice.
  - eexists. split; [rewrite Hfixed by set_solver; exact Bbrand |].
    unfold or_else.
    destruct (ToBoolean (field (product_of variant) "vendor")) eqn:E;
      [exact E | reflexivity].
  - rewrite Hfixed by set_solver. exact Bvariant.
  - rewrite Hfixed by set_solver. exact Bquantity.
Qed.

Lemma formatItem_schema_witness :
  exists item : gmap string value,
    formatItem Samples.gift_card (VNum 3) VUndef = Normal (VObj item)
    /\ item !! "quantity" = Some (VNum 3)
    /\ item !! "item_variant" = Some (VStr "Gift card").
Proof.
  assert (formatItem Samples.gift_card (VNum 3) VUndef
          = Normal (VObj (item_of Samples.gift_card (VNum 3) VUndef
                            (VStr "shopify_DE_77_77") (VStr "Gift card"))))
    as Hitem by (apply formatItem_intro; reflexivity).
  destruct (formatItem_schema _ _ _ _ Hitem)
    as (item & Heq & _ & _ & _ & _ & Hvariant & Hquantity).
  exists item. rewrite Hitem, Heq. repeat split; assumption.
Defined.

Lemma cleanProductName_string (title : string) (variantTitle name : value) :
  cleanProductName (VStr title) variantTitle = Normal name ->
  name = VStr title
  \/ exists base,
       name = VStr base
       /\ title = base ++ " - " ++ string_of variantTitle
       /\ ToBoolean variantTitle = true.
Proof.
  unfold cleanProductName.
  destruct (ToBoolean variantTitle) eqn:Hv; cbn [negb orb].
  - destruct (negb (ToBoolean (VStr title))); [intros [= <-]; now left |].
    rewrite ToString_spec. destruct (converts variantTitle); [| discriminate].
    cbn [bind].
    destruct (endsWith title (" - " ++ string_of variantTitle)) eqn:He.
    + intros [= <-]. right.
      apply endsWith_inv in He as [base Hbase].
      exists base. rewrite Hbase at 1.
      rewrite slice_drop_suffix by discriminate. auto.
    + intros [= <-]. now left.
  - intros [= <-]. now left.
Qed.

(** X8. When the product's title is a string, the item's name is that
    title, whole or without its end [" - "] followed by the variant's title
    (whatever kind of value that title is): cleaning never changes the
    front of the title and never removes anything else. *)
Theorem formatItem_name (variant quantity lineItem : value)
    (item : gmap string value) (title : string) :
  formatItem variant quantity lineItem = Normal (VObj item) ->
  field (product_of variant) "title" = VStr title ->
  exists name,
    item !! "item_name" = Some (VStr name)
    /\ (name = title
        \/ title = name ++ " - " ++ string_of (field variant "title")
           /\ ToBoolean (field variant "title") = true).
Proof.
  intros H Htitle.
  apply formatItem_Normal in H as (_ & item_id & item_name & _ & Hname & _ & H).
  injection H as ->. rewrite Htitle in Hname.
  rewrite item_of_lookup_fixed by set_solver.
  destruct (base_item_lookup variant quantity item_id item_name) as (_ & -> & _).
  apply cleanProductName_string in Hname as [-> | (base & -> & Hbase & Hv)].
  - exists title. auto.
  - exists base. auto.
Qed.

Lemma formatItem_name_witness :
  exists (item : gmap string value) (name : string),
    formatItem (Samples.shirt_large (VStr "AB-1") "10.00") VUndef VUndef
    = Normal (VObj item)
    /\ item !! "item_name" = Some (VStr name)
    /\ (name = "Shirt - Large" \/ "Shirt - Large" = name ++ " - Large").
Proof.
  assert (formatItem (Samples.shirt_large (VStr "AB-1") "10.00") VUndef VUndef
          = Normal (VObj (item_of (Samples.shirt_large (VStr "AB-1") "10.00")
                            VUndef VUndef (VStr "SKU_AB-1") (VStr "Shirt"))))
    as Hitem by (apply formatItem_intro; reflexivity).
  destruct (formatItem_name _ _ _ _ "Shirt - Large" Hitem eq_refl)
    as (name & Hname & Hcases).
  eexists. exists name. split; [exact Hitem |]. split; [exact Hname |].
  destruct Hcases as [Heq | [Heq _]]; [left | right]; exact Heq.
Defined.

(** X9. A price without an amount is not an error: on a variant of the
    data model whose price is there but has no amount, the formatter
    returns an item all the same, and the item's price is NaN. *)
Theorem formatItem_missing_amount (variant quantity lineItem : value) :
  is_variant variant = true ->
  converts (allocated_amount (first_allocation lineItem)) = true ->
  nullish (field (field variant "price") "amount") = true ->
  exists item : gmap string value,
    formatItem variant quantity lineItem = Normal (VObj item)
    /\ item !! "price" = Some (VNum nan).
Proof.
  intros Hvariant Hdiscount Hamount.
  destruct (Collection.formatItem_total variant quantity lineItem Hvariant Hdiscount)
    as [item H].
  exists item. split; [exact H |].
  apply formatItem_Normal in H as (_ & item_id & item_name & _ & _ & _ & H).
  injection H as ->.
  rewrite item_of_lookup_fixed by set_solver.
  destruct (base_item_lookup variant quantity item_id item_name)
    as (_ & _ & _ & _ & _ & -> & _).
  destruct (field (field variant "price") "amount"); try discriminate Hamount;
    reflexivity.
Qed.

Lemma formatItem_missing_amount_witness :
  exists item : gmap string value,
    formatItem EventSamples.unpriced VUndef VUndef = Normal (VObj item)
    /\ item !! "price" = Some (VNum nan).
Proof.
  exact (formatItem_missing_amount EventSamples.unpriced VUndef VUndef
           eq_refl eq_refl eq_refl).
Defined.

Lemma mapM_app {A B : Type} (f : A -> completion B) (l1 l2 : list A)
    (b1 b2 : list B) :
  mapM f l1 = Normal b1 -> mapM f l2 = Normal b2 ->
  mapM f (l1 ++ l2)%list = Normal (b1 ++ b2)%list.
Proof.
  revert b1. induction l1 as [|a l1 IH]; intros b1 H1 H2; simpl in *.
  - injection H1 as <-. exact H2.
  - apply bind_Normal in H1 as (b & Hb & H1).
    apply bind_Normal in H1 as (bs & Hbs & H1). injection H1 as <-.
    rewrite Hb. cbn [bind]. rewrite (IH bs Hbs H2). reflexivity.
Qed.

Lemma formatItems_array (lines : list value) (result : value) :
  formatItems (VArr lines) = Normal result ->
  exists items,
    result = VArr items
    /\ mapM (fun lineItem =>
               let* m := Get lineItem "merchandise" in
               let* variant :=
                 if ToBoolean m then Normal m else Get lineItem "variant" in
               let* quantity := Get lineItem "quantity" in
               formatItem variant quantity lineItem) lines = Normal items.
Proof.
  unfold formatItems. cbn [ToBoolean isArray negb orb]. intros H.
  apply bind_Normal in H as (items & Hitems & H). injection H as <-. eauto.
Qed.

(** X10. Lines are formatted one by one: formatting two sequences of lines
    put end to end gives the items of the first followed by the items of
    the second. *)
Theorem formatItems_app (lines1 lines2 items1 items2 : list value) :
  formatItems (VArr lines1) = Normal (VArr items1) ->
  formatItems (VArr lines2) = Normal (VArr items2) ->
  formatItems (VArr (lines1 ++ lines2)%list) = Normal (VArr (items1 ++ items2)%list).
Proof.
  intros H1 H2.
  apply formatItems_array in H1 as (items1' & [= <-] & H1).
  apply formatItems_array in H2 as (items2' & [= <-] & H2).
  unfold formatItems. cbn [ToBoolean isArray negb orb].
  now rewrite (mapM_app _ _ _ _ _ H1 H2).
Qed.

Lemma formatItems_app_witness :
  exists items : list value,
    formatItems (VArr Samples.cart_lines) = Normal (VArr items)
    /\ formatItems (VArr (Samples.cart_lines ++ Samples.cart_lines)%list)
       = Normal (VArr (items ++ items)%list).
Proof.
  destruct (Collection.formatItems_returns Samples.cart_lines
              ltac:(repeat constructor)) as [items Hitems].
  exists items. split; [exact Hitems |].
  exact (formatItems_app _ _ _ _ Hitems Hitems).
Defined.

(** X11. The collection formatter is all or nothing: on an array it returns
    exactly when every element is there (neither [undefined] nor [null]) and
    its variant formats; a single element that is missing, or whose variant
    does not format, makes the whole call throw. *)
Theorem formatItems_all_or_nothing (lines : list value) :
  ((exists items, formatItems (VArr lines) = Normal (VArr items))
   <-> Forall (fun lineItem =>
                 nullish lineItem = false
                 /\ exists item,
                      formatItem (line_variant lineItem)
                                 (field lineItem "quantity") lineItem
                      = Normal item) lines)
  /\ (Exists (fun lineItem => nullish lineItem = true) lines ->
      exists e, formatItems (VArr lines) = Throw e).
Proof.
  assert ((exists items, formatItems (VArr lines) = Normal (VArr items))
          <-> Forall (fun lineItem =>
                        nullish lineItem = false
                        /\ exists item,
                             formatItem (line_variant lineItem)
                                        (field lineItem "quantity") lineItem
                             = Normal item) lines) as Hiff.
  { split.
    - intros [items H].
      apply formatItems_array in H as (items' & [= <-] & H).
      apply Collection.mapM_Normal in H as [_ Hnth].
      apply Forall_lookup. intros i lineItem Hi.
      destruct (Hnth i lineItem Hi) as (item & _ & Hitem).
      assert (nullish lineItem = false) as Hnn.
      { apply bind_Normal in Hitem as (m & Hm & _). now apply Get_Normal in Hm. }
      split; [exact Hnn |]. exists item.
      now apply Collection.format_line_Normal.
    - intros Hall. unfold formatItems. cbn [ToBoolean isArray negb orb].
      match goal with
      | |- context [mapM ?f lines] =>
          destruct (Collection.mapM_total f lines) as [items Hitems]
      end.
      + eapply Forall_impl; [exact Hall |].
        intros lineItem [Hnn [item Hitem]]. cbv beta.
        rewrite (Collection.format_line _ Hnn). eauto.
      + exists items. now rewrite Hitems. }
  split; [exact Hiff |].
  intros Hex.
  destruct (formatItems (VArr lines)) as [result|e] eqn:H; [| eauto].
  exfalso.
  apply Collection.formatItems_shape in H as Hshape.
  destruct Hshape as (items & -> & _).
  apply Exists_exists in Hex as (lineItem & Hin & Hnull).
  pose proof (proj1 Hiff (ex_intro _ items eq_refl)) as Hall.
  rewrite Forall_forall in Hall.
  destruct (Hall lineItem Hin) as [Hnn _]. congruence.
Qed.

Lemma formatItems_all_or_nothing_witness :
  exists e, formatItems (VArr (Samples.cart_lines ++ [VNull])%list) = Throw e.
Proof.
  apply (formatItems_all_or_nothing (Samples.cart_lines ++ [VNull])%list).
  apply Exists_app. right. constructor. reflexivity.
Defined.


End Formatters.

(** ** More on the cart-viewed listener *)

Module Carts.
Import JS Pixel Spec Events EventSpec Facts.

Section CartLines.
Context {St : Type} (event data : value) (w : world St).
Hypothesis Hdata : Get event "data" = Normal data.
Hypothesis Htruthy : ToBoolean (field (field data "cart") "lines") = true.

(** Past the guard: the lines are formatted, then reduced. *)
Lemma cart_viewed_past_guard :
  cart_viewed event w
  = bindM (liftM (formatItems (field (field data "cart") "lines")))
      (fun items =>
         bindM (liftM (match items with
                       | VArr l => reduce add_line_total l (VNum 0)
                       | _ => Throw (TypeError "items.reduce is not a function")
                       end))
           (fun value =>
              sendEvent (VStr "view_cart")
                (VObj (<["currency" := VStr (CURRENCY CONFIG)]>
                      (<["value" := value]>
                      (<["items" := items]> ∅)))))) w.
Proof using Hdata Htruthy.
  pose proof (truthy_field _ _ Htruthy) as Hcart.
  pose proof (Purchase.field_not_nullish _ _ Hcart) as Hnn.
  assert (ToBoolean (field data "cart") = true) as Hcart_truthy.
  { destruct (field data "cart"); try discriminate Hcart; try reflexivity;
      discriminate Htruthy. }
  unfold cart_viewed, bindM, liftM.
  rewrite Hdata. cbn [bind]. rewrite (Get_field _ _ Hnn).
  rewrite Hcart_truthy. cbn [negb]. rewrite !(Get_field _ _ Hcart). cbn [bind].
  rewrite Htruthy. reflexivity.
Qed.

End CartLines.

(** X12. Only missing lines stop the cart-viewed listener.  When the cart's
    lines are an empty array, or any truthy value that is not an array, it
    dispatches [view_cart] with no items and the value 0. *)
Theorem cart_viewed_without_items {St : Type} (event data : value) (w : world St) :
  let lines := field (field data "cart") "lines" in
  Get event "data" = Normal data ->
  ToBoolean lines = true ->
  lines = VArr [] \/ isArray lines = false ->
  cart_viewed event w
  = sendEvent (VStr "view_cart")
      (VObj (<["currency" := VStr "EUR"]>
            (<["value" := VNum 0]>
            (<["items" := VArr []]> ∅)))) w.
Proof.
  intros lines Hdata Htruthy Hlines.
  rewrite (cart_viewed_past_guard event data w Hdata Htruthy). fold lines.
  assert (formatItems lines = Normal (VArr [])) as ->.
  { destruct Hlines as [-> | Hlines]; [reflexivity |].
    now apply Collection.formatItems_not_array. }
  reflexivity.
Qed.

Lemma cart_viewed_without_items_witness :
  gtag_calls (fst (cart_viewed EventSamples.empty_cart_event Samples.idle_world))
  = [[VStr "event"; VStr "view_cart";
      VObj (<["currency" := VStr "EUR"]>
           (<["value" := VNum 0]>
           (<["items" := VArr []]> ∅)))]].
Proof.
  rewrite (cart_viewed_without_items EventSamples.empty_cart_event
             (VObj {[ "cart" := VObj {[ "lines" := VArr [] ]} ]})
             Samples.idle_world eq_refl eq_refl (or_introl eq_refl)).
  reflexivity.
Defined.

(** X13. One line that does not format suppresses the whole event: when
    formatting the cart's lines throws, the cart-viewed listener throws the
    same exception and nothing reaches the sink or the console. *)
Theorem cart_viewed_malformed_line {St : Type} (event data : value) (e : exn)
    (w : world St) :
  let lines := field (field data "cart") "lines" in
  Get event "data" = Normal data ->
  ToBoolean lines = true ->
  formatItems lines = Throw e ->
  cart_viewed event w = (w, Throw e).
Proof.
  intros lines Hdata Htruthy Hthrow.
  rewrite (cart_viewed_past_guard event data w Hdata Htruthy). fold lines.
  unfold bindM, liftM. now rewrite Hthrow.
Qed.

Lemma cart_viewed_malformed_line_witness :
  exists e,
    cart_viewed EventSamples.broken_cart_event Samples.idle_world
    = (Samples.idle_world, Throw e).
Proof.
  assert (exists e, formatItems (VArr (Samples.cart_lines ++ [VNull])%list) = Throw e)
    as [e He] by (eexists; vm_compute; reflexivity).
  exists e.
  exact (cart_viewed_malformed_line EventSamples.broken_cart_event
           (VObj {[ "cart" :=
                      VObj {[ "lines" := VArr (Samples.cart_lines ++ [VNull])%list ]} ]})
           e Samples.idle_world eq_refl eq_refl He).
Defined.

End Carts.

(** ** The tag loader *)

Module Loader.
Import JS Pixel Spec Events EventSpec Facts.

Lemma initializeGoogleTag_defined {St : Type} (now : value) (p : page St) :
  window_gtag (page_world p) <> GData VUndef -> loads_nothing now p.
Proof.
  intros Hdefined. unfold loads_nothing, initializeGoogleTag.
  destruct (window_gtag (page_world p)) as [f|[| | | | | |]] eqn:Hgtag;
    try contradiction;
    (eexists; split; [reflexivity |]; cbn; rewrite ?Hgtag; repeat split).
Qed.

(** X14. On a page without [gtag], whose [window.dataLayer] is absent or
    an array, the loader completes normally: it installs its own [gtag],
    appends one asynchronous script for the configured tag to
    [document.head], and queues the [js] and [config] entries behind the
    entries the data layer already had.  Nothing is logged. *)
Theorem initializeGoogleTag_installs {St : Type} (now : value) (p : page St)
    (entries : list value) :
  window_gtag (page_world p) = GData VUndef ->
  window_dataLayer p = VArr entries
  \/ ToBoolean (window_dataLayer p) = false /\ entries = [] ->
  initializeGoogleTag now p
  = Installed
      {| window_gtag := GFunction gtag;
         sink_state := VArr (entries ++ map VArr (loader_calls now))%list;
         gtag_calls := (gtag_calls (page_world p) ++ loader_calls now)%list;
         console := console (page_world p) |}
      (document_head p ++ [gtag_script])%list
      (Normal tt).
Proof.
  intros Hgtag Hlayer. unfold initializeGoogleTag. rewrite Hgtag.
  assert (or_else (window_dataLayer p) (VArr []) = VArr entries) as ->.
  { unfold or_else. destruct Hlayer as [-> | [-> ->]]; reflexivity. }
  unfold bindM, call_gtag, retM. cbn.
  rewrite <- !app_assoc. reflexivity.
Qed.

Lemma initializeGoogleTag_installs_witness :
  exists w,
    initializeGoogleTag (VStr "2026-01-01") EventSamples.fresh_page
    = Installed w [gtag_script] (Normal tt)
    /\ sink_state w = VArr [VArr [VStr "js"; VStr "2026-01-01"];
                            VArr [VStr "config"; VStr "GT-******"]].
Proof.
  eexists. split.
  - exact (initializeGoogleTag_installs (VStr "2026-01-01") EventSamples.fresh_page
             [] eq_refl (or_intror (conj eq_refl eq_refl))).
  - reflexivity.
Defined.

(** X15. On a page without [gtag] whose [window.dataLayer] holds a truthy
    value that is not an array, the loader throws at its first [gtag] call:
    by then its [gtag] is installed and the script is injected, and the data
    layer is left as it was. *)
Theorem initializeGoogleTag_odd_dataLayer {St : Type} (now : value) (p : page St) :
  window_gtag (page_world p) = GData VUndef ->
  ToBoolean (window_dataLayer p) = true ->
  isArray (window_dataLayer p) = false ->
  exists w e,
    initializeGoogleTag now p
    = Installed w (document_head p ++ [gtag_script])%list (Throw e)
    /\ window_gtag w = GFunction gtag
    /\ sink_state w = window_dataLayer p
    /\ console w = console (page_world p).
Proof.
  intros Hgtag Htruthy Harray. unfold initializeGoogleTag. rewrite Hgtag.
  unfold or_else. rewrite Htruthy.
  unfold bindM, call_gtag, retM. cbn.
  destruct (window_dataLayer p); try discriminate Htruthy; try discriminate Harray;
    cbn; eexists; eexists; (split; [reflexivity |]); repeat split.
Qed.

Lemma initializeGoogleTag_odd_dataLayer_witness :
  exists w e,
    initializeGoogleTag VNull EventSamples.odd_page
    = Installed w [gtag_script] (Throw e)
    /\ sink_state w = VStr "dataLayer".
Proof.
  destruct (initializeGoogleTag_odd_dataLayer VNull EventSamples.odd_page
              eq_refl eq_refl eq_refl) as (w & e & Hrun & _ & Hstate & _).
  exists w, e. split; [exact Hrun | exact Hstate].
Defined.

(** X16. The loader installs at most once: whatever a first run found and
    did, a second run on the page it left only writes the "already loaded"
    line: no second script, no second [gtag], nothing queued. *)
Theorem initializeGoogleTag_once {St : Type} (now now' : value) (p : page St) :
  match page_after (initializeGoogleTag now p) with
  | inl p' => loads_nothing now' p'
  | inr p' => loads_nothing now' p'
  end.
Proof.
  unfold initializeGoogleTag.
  destruct (window_gtag (page_world p)) as [f|v] eqn:Hgtag.
  - cbn [page_after]. apply initializeGoogleTag_defined. cbn. now rewrite Hgtag.
  - destruct v; try (cbn [page_after]; apply initializeGoogleTag_defined; cbn;
                     rewrite Hgtag; discriminate).
    unfold bindM, call_gtag, retM. cbn.
    destruct (gtag _ _) as [s1 [r1|e1]]; cbn.
    + destruct (gtag _ _) as [s2 [r2|e2]]; cbn;
        apply initializeGoogleTag_defined; cbn; discriminate.
    + apply initializeGoogleTag_defined; cbn; discriminate.
Qed.

Lemma sendEvent_queues (eventName params : value) (w : world value)
    (entries : list value) :
  window_gtag w = GFunction gtag ->
  sink_state w = VArr entries ->
  sendEvent eventName params w
  = ({| window_gtag := GFunction gtag;
        sink_state := VArr (entries ++ [VArr (event_call (eventName, params))])%list;
        gtag_calls := (gtag_calls w ++ [event_call (eventName, params)])%list;
        console := console w |}, Normal tt).
Proof.
  intros Hgtag Hstate.
  unfold sendEvent, try_catch, bindM, typeof_gtag_is_function, call_gtag, retM.
  rewrite !Hgtag, Hstate. reflexivity.
Qed.

Example installed_by_loader :
  installed_world (initializeGoogleTag (VStr "2026-01-01") EventSamples.fresh_page)
  = Some EventSamples.installed.
Proof. reflexivity. Qed.

(** X17. Once the loader's own [gtag] is installed over an array data
    layer, dispatching never throws and never logs: every event becomes one
    entry [["event", name, params]] appended to [window.dataLayer], in
    dispatch order behind the entries already there, and [gtag] stays
    installed. *)
Theorem dispatch_all_queues (events : list (value * value)) (w : world value)
    (entries : list value) :
  window_gtag w = GFunction gtag ->
  sink_state w = VArr entries ->
  exists w',
    dispatch_all events w = (w', Normal tt)
    /\ window_gtag w' = GFunction gtag
    /\ sink_state w' = VArr (entries ++ map (fun ev => VArr (event_call ev)) events)%list
    /\ gtag_calls w' = (gtag_calls w ++ map event_call events)%list
    /\ console w' = console w.
Proof.
  revert w entries.
  induction events as [|[eventName params] events IH]; intros w entries Hgtag Hstate.
  - exists w. cbn. rewrite !app_nil_r. repeat split; assumption.
  - cbn [dispatch_all]. unfold bindM at 1.
    rewrite (sendEvent_queues eventName params w entries Hgtag Hstate).
    match goal with
    | |- context [dispatch_all events ?w1] =>
        destruct (IH w1 (entries ++ [VArr (event_call (eventName, params))])%list
                    eq_refl eq_refl) as (w' & Hrun & Hgtag' & Hstate' & Hcalls & Hconsole)
    end.
    exists w'. rewrite Hrun. split; [reflexivity |]. split; [exact Hgtag' |].
    rewrite Hstate', Hcalls, Hconsole. cbn [map gtag_calls console].
    rewrite <- !app_assoc. repeat split.
Qed.

Lemma dispatch_all_queues_witness :
  exists w',
    dispatch_all [(VStr "page_view", VObj ∅); (VStr "search", VObj ∅)]
      EventSamples.installed = (w', Normal tt)
    /\ sink_state w'
       = VArr [VArr [VStr "js"; VStr "2026-01-01"];
               VArr [VStr "config"; VStr "GT-******"];
               VArr [VStr "event"; VStr "page_view"; VObj ∅];
               VArr [VStr "event"; VStr "search"; VObj ∅]]
    /\ console w' = [].
Proof.
  destruct (dispatch_all_queues [(VStr "page_view", VObj ∅); (VStr "search", VObj ∅)]
              EventSamples.installed _ eq_refl eq_refl)
    as (w' & Hrun & _ & Hstate & _ & Hconsole).
  exists w'. split; [exact Hrun |]. split; [exact Hstate | exact Hconsole].
Defined.

End Loader.

(** ** The order behind a purchase *)

Module Orders.
Import JS Pixel Spec Events EventSpec Facts.

(** X18. No purchase without an order id: when the checkout's order, or the
    order's id, is missing, the checkout-completed listener throws before
    anything reaches the sink or the console, whatever else the event
    holds. *)
Theorem checkout_completed_needs_order {St : Type} (event : value) (w : world St) :
  nullish (field (field (checkout_of event) "order") "id") = true ->
  exists e, checkout_completed event w = (w, Throw e).
Proof.
  unfold checkout_of. intros Hid.
  unfold checkout_completed, bindM, liftM.
  destruct (Get event "data") as [data|e] eqn:Hdata; cbn [bind]; [| eauto].
  apply Get_Normal in Hdata as [_ ->].
  destruct (Get (field event "data") "checkout") as [checkout|e] eqn:Hcheckout;
    [| eauto].
  apply Get_Normal in Hcheckout as [_ ->].
  destruct (Get (field (field event "data") "checkout") "order") as [order|e] eqn:Horder;
    [| eauto].
  apply Get_Normal in Horder as [_ ->].
  match goal with
  | |- context [let* lineItems := ?c in formatItems lineItems] =>
      destruct (let* lineItems := c in formatItems lineItems) as [items|e]; [| eauto]
  end.
  destruct (Get (field (field (field event "data") "checkout") "order") "id")
    as [id|e] eqn:Hget; cbn [bind]; [| eauto].
  apply Get_Normal in Hget as [_ ->].
  destruct (field (field (field (field event "data") "checkout") "order") "id");
    try discriminate Hid; cbn; eauto.
Qed.

Lemma checkout_completed_needs_order_witness :
  exists e,
    checkout_completed (VObj {[ "data" := VObj {[ "checkout" := VObj ∅ ]} ]})
      EventSamples.installed
    = (EventSamples.installed, Throw e).
Proof.
  apply (checkout_completed_needs_order
           (VObj {[ "data" := VObj {[ "checkout" := VObj ∅ ]} ]})
           EventSamples.installed).
  reflexivity.
Defined.

End Orders.
